(** * deeprankcore.dataset: indexing, filtering and graph assembly

    A shallow embedding of [src/deeprankcore/dataset.py]: the two dataset
    classes ([GraphDataset], [GridDataset]), the hdf5 store they read, the
    numpy array operations they use, and Python's [str.replace] and
    [ast.literal_eval] on the expressions that target filters are written in.

    Python exceptions are values of [exn]; every method is a computation in
    the monad [M], which carries the records written to the module logger
    and ends in a value or in a raised exception. *)

From Stdlib Require Import String Ascii ZArith QArith Bool Arith Lia List.
Import ListNotations.
Set Warnings "-register-all".
Close Scope Q_scope.
Open Scope string_scope.
Open Scope nat_scope.
Open Scope list_scope.

(** ** Python values, exceptions, logging *)

(** The Python objects a filter condition can be and a literal can denote.
    A float is represented by the rational its literal denotes. *)
Inductive pyobj : Type :=
| VNone
| VBool (b : bool)
| VInt (z : Z)
| VFloat (q : Q)
| VStr (s : string).

(** [bool(v)], as used by [not v]. *)
Definition truthy (v : pyobj) : bool :=
  match v with
  | VNone => false
  | VBool b => b
  | VInt z => negb (z =? 0)%Z
  | VFloat q => negb (Qeq_bool q 0%Q)
  | VStr s => negb (s =? "")%string
  end.

(** Exceptions, by class.  [ValueError] carries its argument tuple;
    [OSError] is what opening an unreadable file raises.  [Unmodelled] is not
    a Python exception: it marks an input outside the part of the expression
    grammar that [literal_eval] below covers. *)
Inductive exn : Type :=
| KeyError
| IndexError
| TypeError
| OSError
| SyntaxError
| NameError (id : string)
| ValueError (args : list pyobj)
| Unmodelled.

Inductive outcome (A : Type) : Type :=
| OK (a : A)
| Raise (e : exn).
Arguments OK {A} a.
Arguments Raise {A} e.

Inductive level : Type := DEBUG | INFO | WARNING | ERROR.

(** A record handed to the logger: [Text] is a message without arguments,
    [TextArgs] a format string with the positional arguments to merge into
    it, [OfExn] an exception object logged as the message. *)
Inductive log_msg : Type :=
| Text (s : string)
| TextArgs (fmt : string) (args : list string)
| OfExn (e : exn).

Definition log_record : Type := level * log_msg.

(** Computations: the records logged so far, and how the computation ended. *)
Definition M (A : Type) : Type := list log_record * outcome A.

Definition ret {A} (a : A) : M A := ([], OK a).
Definition raise {A} (e : exn) : M A := ([], Raise e).
Definition emit (l : level) (m : log_msg) : M unit := ([(l, m)], OK tt).

Definition bind {A B} (c : M A) (k : A -> M B) : M B :=
  match c with
  | (l, OK a) => let (l', r) := k a in (l ++ l', r)
  | (l, Raise e) => (l, Raise e)
  end.

(** [try: c  except Exception as e: h e] *)
Definition try_except {A} (c : M A) (h : exn -> M A) : M A :=
  match c with
  | (l, OK a) => (l, OK a)
  | (l, Raise e) => let (l', r) := h e in (l ++ l', r)
  end.

(** [try: c  except KeyError: h], other exceptions pass through. *)
Definition try_except_KeyError {A} (c : M A) (h : M A) : M A :=
  match c with
  | (l, Raise KeyError) => let (l', r) := h in (l ++ l', r)
  | other => other
  end.

Definition lift {A} (o : outcome A) : M A := ([], o).

Notation "x <- c ;; k" := (bind c (fun x => k))
  (at level 61, c at next level, right associativity).
Notation "c ;;; k" := (bind c (fun _ => k))
  (at level 61, right associativity).

Definition logged {A} (c : M A) : list log_record := fst c.
Definition result {A} (c : M A) : outcome A := snd c.

(** [for x in xs: body x], stopping at the first exception. *)
Fixpoint for_each {A} (xs : list A) (body : A -> M unit) : M unit :=
  match xs with
  | [] => ret tt
  | x :: rest => body x ;;; for_each rest body
  end.

(** ** Strings *)

Definition str1 (c : ascii) : string := String c EmptyString.

(** [sep.join(parts)] *)
Fixpoint join (sep : string) (parts : list string) : string :=
  match parts with
  | [] => ""
  | [p] => p
  | p :: rest => p ++ sep ++ join sep rest
  end.

Fixpoint interleave (new s : string) : string :=
  match s with
  | EmptyString => EmptyString
  | String c s' => String c (new ++ interleave new s')
  end.

(** [replace_from skip old new s]: the scan of [str.replace] over [s], left
    to right, with [skip] characters of a match still to pass over. *)
Fixpoint replace_from (skip : nat) (old new s : string) : string :=
  match s with
  | EmptyString => EmptyString
  | String c s' =>
      match skip with
      | S k => replace_from k old new s'
      | O =>
          if prefix old s
          then new ++ replace_from (String.length old - 1) old new s'
          else String c (replace_from 0 old new s')
      end
  end.

(** [s.replace(old, new)]: every non-overlapping occurrence of [old], found
    left to right; an empty [old] matches before each character and at the
    end. *)
Definition replace (old new s : string) : string :=
  match old with
  | EmptyString => new ++ interleave new s
  | _ => replace_from 0 old new s
  end.

(** [needle in haystack] for strings, as a proposition. *)
Definition contains (haystack needle : string) : Prop :=
  exists pre post : string, haystack = (pre ++ needle ++ post)%string.

(** ** [ast.literal_eval]

    The evaluator the filters call.  The expression grammar covered here is
    the one filter conditions are written in: names, the constants [True],
    [False] and [None], decimal integer and float literals, the signs [+]
    and [-], binary [+] and [-], and chains of the six comparison operators.
    Every other character or keyword ends in [Unmodelled]. *)

Inductive cmpop : Type := Eq | NotEq | Lt | LtE | Gt | GtE.
Inductive unaryop : Type := UAdd | USub.
Inductive binop : Type := Add | Sub.

Inductive expr : Type :=
| Constant (v : pyobj)
| Name (id : string)
| UnaryOp (op : unaryop) (operand : expr)
| BinOp (lhs : expr) (op : binop) (rhs : expr)
| Compare (lhs : expr) (ops : list cmpop) (comparators : list expr).

Inductive token : Type :=
| TName (id : string)
| TNumber (v : pyobj)
| TCmp (op : cmpop)
| TPlus
| TMinus.

(** *** Tokens *)

Definition is_digit (c : ascii) : bool :=
  let n := nat_of_ascii c in ((48 <=? n) && (n <=? 57))%nat.

Definition is_name_start (c : ascii) : bool :=
  let n := nat_of_ascii c in
  (((65 <=? n) && (n <=? 90)) || ((97 <=? n) && (n <=? 122)) || (n =? 95))%nat.

Definition is_name_char (c : ascii) : bool := is_name_start c || is_digit c.

Definition is_blank (c : ascii) : bool :=
  let n := nat_of_ascii c in ((n =? 32) || (n =? 9))%nat.

Definition digit_val (c : ascii) : Z := Z.of_nat (nat_of_ascii c - 48).

(** The value of a string of decimal digits, most significant first. *)
Fixpoint digits_val (acc : Z) (s : string) : Z :=
  match s with
  | EmptyString => acc
  | String c s' => digits_val (10 * acc + digit_val c) s'
  end.

Definition keywords : list string :=
  ["and"; "as"; "assert"; "async"; "await"; "break"; "class"; "continue";
   "def"; "del"; "elif"; "else"; "except"; "finally"; "for"; "from";
   "global"; "if"; "import"; "in"; "is"; "lambda"; "nonlocal"; "not"; "or";
   "pass"; "raise"; "return"; "try"; "while"; "with"; "yield"].

Definition name_token (id : string) : outcome token :=
  if existsb (String.eqb id) keywords then Raise Unmodelled
  else OK (TName id).

(** A number literal with integer part [ip] and, after a point, fraction
    [fp].  An integer literal may not start with [0] unless it is zero. *)
Definition number_token (ip : string) (fp : option string) : outcome token :=
  match fp with
  | None =>
      match ip with
      | String "0" (String _ _) =>
          if (digits_val 0 ip =? 0)%Z then OK (TNumber (VInt 0))
          else Raise SyntaxError
      | _ => OK (TNumber (VInt (digits_val 0 ip)))
      end
  | Some f =>
      match ip, f with
      | EmptyString, EmptyString => Raise SyntaxError
      | _, _ =>
          OK (TNumber (VFloat
                (Qmake (digits_val 0 (ip ++ f))
                       (Z.to_pos (10 ^ Z.of_nat (String.length f))))))
      end
  end.

(** What the scanner is in the middle of. *)
Inductive lex_state : Type :=
| LIdle
| LName (acc : string)
| LNumber (ip : string) (fp : option string)
| LOp (c : ascii).

(** Closes the token in progress. *)
Definition flush (st : lex_state) : outcome (list token) :=
  match st with
  | LIdle => OK []
  | LName acc =>
      match name_token acc with OK t => OK [t] | Raise e => Raise e end
  | LNumber ip fp =>
      match number_token ip fp with OK t => OK [t] | Raise e => Raise e end
  | LOp c =>
      if (c =? ">")%char then OK [TCmp Gt]
      else if (c =? "<")%char then OK [TCmp Lt]
      else Raise SyntaxError
  end.

(** The operator made of [c] followed by [=]. *)
Definition op_eq (c : ascii) : outcome token :=
  if (c =? ">")%char then OK (TCmp GtE)
  else if (c =? "<")%char then OK (TCmp LtE)
  else if (c =? "=")%char then OK (TCmp Eq)
  else if (c =? "!")%char then OK (TCmp NotEq)
  else Raise SyntaxError.

Definition is_op_start (c : ascii) : bool :=
  ((c =? ">") || (c =? "<") || (c =? "=") || (c =? "!"))%char.

(** The state after reading [c] with no token in progress, and the tokens
    [c] completes by itself. *)
Definition start (c : ascii) : outcome (list token * lex_state) :=
  if is_blank c then OK ([], LIdle)
  else if is_name_start c then OK ([], LName (str1 c))
  else if is_digit c then OK ([], LNumber (str1 c) None)
  else if (c =? ".")%char then OK ([], LNumber "" (Some ""))
  else if is_op_start c then OK ([], LOp c)
  else if (c =? "+")%char then OK ([TPlus], LIdle)
  else if (c =? "-")%char then OK ([TMinus], LIdle)
  else Raise Unmodelled.

Definition cons_tokens (ts : list token) (r : outcome (list token))
  : outcome (list token) :=
  match r with OK l => OK (ts ++ l) | Raise e => Raise e end.

Fixpoint lex (st : lex_state) (s : string) : outcome (list token) :=
  match s with
  | EmptyString => flush st
  | String c s' =>
      let restart (_ : unit) :=
        match flush st with
        | Raise e => Raise e
        | OK ts =>
            match start c with
            | Raise e => Raise e
            | OK (ts', st') => cons_tokens (ts ++ ts') (lex st' s')
            end
        end in
      match st with
      | LName acc =>
          if is_name_char c then lex (LName (acc ++ str1 c)%string) s' else restart tt
      | LNumber ip None =>
          if is_digit c then lex (LNumber (ip ++ str1 c)%string None) s'
          else if (c =? ".")%char then lex (LNumber ip (Some "")) s'
          else if is_name_start c then Raise Unmodelled
          else restart tt
      | LNumber ip (Some f) =>
          if is_digit c then lex (LNumber ip (Some (f ++ str1 c)%string)) s'
          else if is_name_start c then Raise Unmodelled
          else restart tt
      | LOp c0 =>
          if (c =? "=")%char then
            match op_eq c0 with
            | Raise e => Raise e
            | OK t => cons_tokens [t] (lex LIdle s')
            end
          else if ((c =? c0) && ((c =? ">") || (c =? "<")))%char
          then Raise Unmodelled
          else restart tt
      | LIdle => restart tt
      end
  end.

(** *** Expressions *)

Definition atom (t : token) : expr :=
  match t with
  | TName id =>
      if (id =? "True")%string then Constant (VBool true)
      else if (id =? "False")%string then Constant (VBool false)
      else if (id =? "None")%string then Constant VNone
      else Name id
  | TNumber v => Constant v
  | _ => Name ""
  end.

(** Where the parser stands: [chain] holds the operands of a comparison
    already read, each with the operator after it, last first.  In [Expect]
    an operand is due, to be combined with [lhs] once its [signs] (innermost
    first) are applied; in [After] the operand [e] is complete. *)
Inductive parse_state : Type :=
| Expect (lhs : option (expr * binop)) (signs : list unaryop)
| After (e : expr).

Definition finish (chain : list (expr * cmpop)) (e : expr) : expr :=
  match rev chain with
  | [] => e
  | (first, op) :: more =>
      Compare first (op :: map snd more) (map fst more ++ [e])
  end.

Fixpoint parse (chain : list (expr * cmpop)) (st : parse_state)
                (ts : list token) : outcome expr :=
  match st, ts with
  | Expect _ _, [] => Raise SyntaxError
  | Expect lhs signs, TPlus :: r => parse chain (Expect lhs (UAdd :: signs)) r
  | Expect lhs signs, TMinus :: r => parse chain (Expect lhs (USub :: signs)) r
  | Expect _ _, TCmp _ :: _ => Raise SyntaxError
  | Expect lhs signs, t :: r =>
      let operand := fold_left (fun e op => UnaryOp op e) signs (atom t) in
      let e := match lhs with
               | None => operand
               | Some (l, op) => BinOp l op operand
               end in
      parse chain (After e) r
  | After e, [] => OK (finish chain e)
  | After e, TPlus :: r => parse chain (Expect (Some (e, Add)) []) r
  | After e, TMinus :: r => parse chain (Expect (Some (e, Sub)) []) r
  | After e, TCmp op :: r => parse ((e, op) :: chain) (Expect None []) r
  | After _, _ :: _ => Raise SyntaxError
  end.

(** [ast.parse(s, mode='eval').body] *)
Definition ast_parse (s : string) : outcome expr :=
  match lex LIdle s with
  | Raise e => Raise e
  | OK ts => parse [] (Expect None []) ts
  end.

(** *** Evaluation of literals *)

(** [ValueError('malformed node or string ...')]; the text goes on with the
    position and the printed form of the node. *)
Definition malformed : exn := ValueError [VStr "malformed node or string"].

Definition convert_num (node : expr) : outcome pyobj :=
  match node with
  | Constant (VInt z) => OK (VInt z)
  | Constant (VFloat q) => OK (VFloat q)
  | _ => Raise malformed
  end.

Definition negate (v : pyobj) : pyobj :=
  match v with
  | VInt z => VInt (- z)
  | VFloat q => VFloat (- q)
  | other => other
  end.

Definition convert_signed_num (node : expr) : outcome pyobj :=
  match node with
  | UnaryOp op operand =>
      match convert_num operand with
      | Raise e => Raise e
      | OK v => match op with UAdd => OK v | USub => OK (negate v) end
      end
  | _ => convert_num node
  end.

(** [_convert]: a sum or difference is a literal only when it writes a
    complex number, and there are none here. *)
Definition convert (node : expr) : outcome pyobj :=
  match node with
  | Constant v => OK v
  | BinOp l _ r =>
      match convert_signed_num l with
      | Raise e => Raise e
      | OK _ =>
          match convert_num r with
          | Raise e => Raise e
          | OK _ => convert_signed_num node
          end
      end
  | _ => convert_signed_num node
  end.

Definition literal_eval (s : string) : outcome pyobj :=
  match ast_parse s with
  | Raise e => Raise e
  | OK node => convert node
  end.


(** ** numpy arrays and torch tensors *)

(** Bind on plain outcomes, for the code that does not log. *)
Definition obind {A B} (c : outcome A) (k : A -> outcome B) : outcome B :=
  match c with
  | OK a => k a
  | Raise e => Raise e
  end.

Notation "x <-- c ;; k" := (obind c (fun x => k))
  (at level 61, c at next level, right associativity).

(** Arrays as the store holds them: one-dimensional of shape [(n,)], or
    two-dimensional of shape [(n, ncols)], given by its rows.  The same
    type serves for the tensors built from them. *)
Inductive ndarray (A : Type) : Type :=
| Arr1 (v : list A)
| Arr2 (ncols : nat) (rows : list (list A)).
Arguments Arr1 {A} v.
Arguments Arr2 {A} ncols rows.

Definition ndim {A} (a : ndarray A) : nat :=
  match a with Arr1 _ => 1 | Arr2 _ _ => 2 end.

(** Every row of a two-dimensional array has [ncols] entries. *)
Definition well_shaped {A} (a : ndarray A) : Prop :=
  match a with
  | Arr1 _ => True
  | Arr2 w rows => Forall (fun r => length r = w) rows
  end.

(** [shape[0]] *)
Definition shape0 {A} (a : ndarray A) : nat :=
  match a with Arr1 v => length v | Arr2 _ rows => length rows end.

(** [shape[1]]; a one-dimensional shape has no second entry. *)
Definition shape1 {A} (a : ndarray A) : outcome nat :=
  match a with Arr1 _ => Raise IndexError | Arr2 w _ => OK w end.

(** [vals.reshape(-1, 1)] *)
Definition reshape_column {A} (a : ndarray A) : ndarray A :=
  match a with
  | Arr1 v => Arr2 1 (map (fun x => [x]) v)
  | Arr2 w rows => Arr2 1 (map (fun x => [x]) (List.concat rows))
  end.

Definition numpy_error (msg : string) : exn := ValueError [VStr msg].

Fixpoint zip_rows {A} (r1 r2 : list (list A)) : list (list A) :=
  match r1, r2 with
  | a :: r1', b :: r2' => (a ++ b) :: zip_rows r1' r2'
  | _, _ => []
  end.

(** [np.concatenate(arrs, 1)] onto the array of shape [(length acc, w)]. *)
Fixpoint concatenate_axis1 {A} (w : nat) (acc : list (list A))
                           (arrs : list (ndarray A)) : outcome (ndarray A) :=
  match arrs with
  | [] => OK (Arr2 w acc)
  | Arr2 w' rows :: rest =>
      if length rows =? length acc
      then concatenate_axis1 (w + w') (zip_rows acc rows) rest
      else Raise (numpy_error "all the input array dimensions except for the concatenation axis must match exactly")
  | Arr1 _ :: _ =>
      Raise (numpy_error "all the input arrays must have same number of dimensions")
  end.

(** [np.concatenate(arrs, 0)] of one-dimensional arrays. *)
Fixpoint concatenate_axis0 {A} (acc : list A) (arrs : list (ndarray A))
  : outcome (ndarray A) :=
  match arrs with
  | [] => OK (Arr1 acc)
  | Arr1 v :: rest => concatenate_axis0 (acc ++ v) rest
  | Arr2 _ _ :: _ =>
      Raise (numpy_error "all the input arrays must have same number of dimensions")
  end.

(** [np.hstack(tup)]: along the first axis when the first array is
    one-dimensional, along the second otherwise. *)
Definition hstack {A} (tup : list (ndarray A)) : outcome (ndarray A) :=
  match tup with
  | [] => Raise (numpy_error "need at least one array to concatenate")
  | Arr1 v :: rest => concatenate_axis0 v rest
  | Arr2 w rows :: rest => concatenate_axis1 w rows rest
  end.

(** [np.atleast_2d] *)
Definition atleast_2d {A} (a : ndarray A) : nat * list (list A) :=
  match a with
  | Arr1 v => (length v, [v])
  | Arr2 w rows => (w, rows)
  end.

(** [np.vstack((a, b))] *)
Definition vstack {A} (a b : ndarray A) : outcome (ndarray A) :=
  let (wa, ra) := atleast_2d a in
  let (wb, rb) := atleast_2d b in
  if wa =? wb then OK (Arr2 wa (ra ++ rb))
  else Raise (numpy_error "all the input array dimensions except for the concatenation axis must match exactly").

(** [np.flip(a, 1)] of a two-dimensional array, by rows. *)
Definition flip_axis1 {A} (rows : list (list A)) : list (list A) :=
  map (@rev A) rows.

Definition column {A} (c : nat) (rows : list (list A)) : list A :=
  flat_map (fun r => match nth_error r c with Some x => [x] | None => [] end)
           rows.

(** [a.T] *)
Definition transpose {A} (a : ndarray A) : ndarray A :=
  match a with
  | Arr1 v => Arr1 v
  | Arr2 w rows => Arr2 (length rows) (map (fun c => column c rows) (seq 0 w))
  end.

(** [torch.tensor(a, dtype=...)], [conv] being the conversion of one
    element to the dtype. *)
Definition tensor {A} (conv : A -> A) (a : ndarray A) : ndarray A :=
  match a with
  | Arr1 v => Arr1 (map conv v)
  | Arr2 w rows => Arr2 w (map (map conv) rows)
  end.

(** An array of any dimension, as the grid features are: its shape and its
    elements in row-major order. *)
Record voxels (A : Type) : Type := Voxels {
  vshape : list nat;
  vdata : list A
}.
Arguments Voxels {A} vshape vdata.
Arguments vshape {A} v.
Arguments vdata {A} v.

(** The element-wise operations of torch on stored numbers: the conversions
    to [torch.float] and [torch.long], [torch.sigmoid] and [torch.log]. *)
Class Torch (num : Type) : Type := {
  as_float : num -> num;
  as_long : num -> num;
  torch_sigmoid : num -> num;
  torch_log : num -> num
}.

(** ** The hdf5 store *)

Definition eqb_list_nat (a b : list nat) : bool :=
  if list_eq_dec Nat.eq_dec a b then true else false.

Fixpoint assoc {V} (k : string) (l : list (string * V)) : option V :=
  match l with
  | [] => None
  | (k', v) :: rest => if (k =? k')%string then Some v else assoc k rest
  end.

(** [list(g.keys())] *)
Definition keys {V} (l : list (string * V)) : list string := map fst l.

(** [k in names] *)
Definition mem (k : string) (names : list string) : bool :=
  existsb (String.eqb k) names.

(** [g[k]] *)
Definition getitem {V} (k : string) (l : list (string * V)) : outcome V :=
  match assoc k l with
  | Some v => OK v
  | None => Raise KeyError
  end.

(** A sub-group that may be missing: [grp[name]]. *)
Definition subgroup {V} (g : option V) : outcome V :=
  match g with
  | Some v => OK v
  | None => Raise KeyError
  end.

(** One entry of a store file, by the groups the datasets read: node
    features (the positions among them), edge features (the edge index
    among them), target values, clusterings by method, and grid-mapped
    features, each of which holds named arrays. *)
Record Group (num : Type) : Type := {
  nodes : option (list (string * ndarray num));
  edges : option (list (string * ndarray num));
  targets : option (list (string * num));
  clustering : option (list (string * list (string * ndarray num)));
  mapped_features : option (list (string * list (string * voxels num)))
}.
Arguments nodes {num} g.
Arguments edges {num} g.
Arguments targets {num} g.
Arguments clustering {num} g.
Arguments mapped_features {num} g.

(** A store file: its entries under their names, in the file's key order. *)
Definition File (num : Type) : Type := list (string * Group num).

(** The files by path; [None] for a path that cannot be opened. *)
Definition FileSystem (num : Type) : Type := string -> option (File num).

(** [h5py.File(fname, 'r')] *)
Definition open_file {num} (fs : FileSystem num) (fname : string)
  : outcome (File num) :=
  match fs fname with
  | Some f => OK f
  | None => Raise OSError
  end.

(** The names that [deeprankcore.domain] gives to the stored items the code
    looks up by name, and to the tasks. *)
Class Domain : Type := {
  Nfeat_POSITION : string;
  Efeat_INDEX : string;
  gridstorage_FEATURE_VALUE : string;
  targets_REGRESS : string;
  targets_CLASSIF : string
}.

(** How Python prints the objects that go into messages: a list of strings,
    the key view of a group, a group. *)
Class Display (num : Type) : Type := {
  str_list : list string -> string;
  str_keys : list string -> string;
  str_group : Group num -> string
}.

Definition nl : string := String (ascii_of_nat 10) EmptyString.

(** [str(x)] for a string or [None]. *)
Definition str_option (x : option string) : string :=
  match x with Some s => s | None => "None" end.

(** [x is True] for an optional flag. *)
Definition is_True (x : option bool) : bool :=
  match x with Some true => true | _ => false end.

(** [s[0]] *)
Definition first_char (s : string) : outcome ascii :=
  match s with
  | EmptyString => Raise IndexError
  | String c _ => OK c
  end.

(** [l[i]] for a Python list: a negative index counts from the end. *)
Definition list_getitem {A} (l : list A) (i : Z) : outcome A :=
  let n := Z.of_nat (length l) in
  let j := if (i <? 0)%Z then (i + n)%Z else i in
  if ((0 <=? j) && (j <? n))%Z then
    match nth_error l (Z.to_nat j) with
    | Some a => OK a
    | None => Raise IndexError
    end
  else Raise IndexError.

(** [l.remove(x)]: drops the first occurrence. *)
Fixpoint list_remove (x : string) (l : list string) : outcome (list string) :=
  match l with
  | [] => Raise (ValueError [VStr "list.remove(x): x not in list"])
  | y :: rest =>
      if (x =? y)%string then OK rest
      else r <-- list_remove x rest ;; OK (y :: r)
  end.

(** ** What the two dataset classes share

    [_check_hdf5_files] and [_create_index_entries] are written twice in the
    source, once per class, the same up to the names of variables (and, for
    the first, up to its last line). *)

Section Shared.
Context {num : Type}.
Variable fs : FileSystem num.

(** The first loop of [_check_hdf5_files]: the files to remove. *)
Fixpoint integrity_scan (paths remove_file : list string)
  : M (list string) :=
  match paths with
  | [] => ret remove_file
  | fname :: rest =>
      remove_file' <-
        try_except
          (f <- lift (open_file fs fname) ;;
           let mol_names := keys f in
           if length mol_names =? 0 then
             emit INFO (Text ("    -> " ++ fname ++ " is empty ")%string) ;;;
             ret (remove_file ++ [fname])
           else ret remove_file)
          (fun e =>
             emit ERROR (OfExn e) ;;;
             emit INFO (Text ("    -> " ++ fname ++ " is corrupted ")%string) ;;;
             ret (remove_file ++ [fname])) ;;
      integrity_scan rest remove_file'
  end.

Variable subset : option (list string).
Variable filter_entry : Group num -> M bool.

(** The inner loop of [_create_index_entries] over the entry names of
    one open file.  The entries appended before an exception stay in
    [index_entries]; the exception, if any, is returned with them. *)
Fixpoint scan_entries (fdata : string) (fh5 : File num)
                      (mol_names : list string)
                      (index_entries : list (string * string))
  : list log_record * list (string * string) * option exn :=
  match mol_names with
  | [] => ([], index_entries, None)
  | k :: rest =>
      match (g <- lift (getitem k fh5) ;; filter_entry g) with
      | (l, Raise e) => (l, index_entries, Some e)
      | (l, OK keep) =>
          let index_entries' :=
            if keep then index_entries ++ [(fdata, k)] else index_entries in
          let '(l', final, e) := scan_entries fdata fh5 rest index_entries' in
          (l ++ l', final, e)
      end
  end.

(** The names to visit in one file. *)
Definition entry_names (fh5 : File num) : list string :=
  match subset with
  | None => keys fh5
  | Some ids => filter (fun i => mem i (keys fh5)) ids
  end.

(** The body of the loop over files, with its [try] and [except]. *)
Definition scan_file (fdata : string)
                     (index_entries : list (string * string))
  : list log_record * list (string * string) :=
  let on_error := (ERROR, Text ("on " ++ fdata)%string) in
  match open_file fs fdata with
  | Raise _ => ([on_error], index_entries)
  | OK fh5 =>
      match scan_entries fdata fh5 (entry_names fh5) index_entries with
      | (l, final, None) => (l, final)
      | (l, final, Some _) => (l ++ [on_error], final)
      end
  end.

Fixpoint scan_files (paths : list string)
                    (index_entries : list (string * string))
  : list log_record * list (string * string) :=
  match paths with
  | [] => ([], index_entries)
  | fdata :: rest =>
      let (l, index_entries') := scan_file fdata index_entries in
      let (l', final) := scan_files rest index_entries' in
      (l ++ l', final)
  end.

(** [_create_index_entries]; the progress bar only displays. *)
Definition create_index_entries `{Display num} (paths : list string)
                                (tqdm : bool)
  : M (list (string * string)) :=
  emit DEBUG (Text ("Processing data set with hdf5 files: "
                    ++ str_list paths)%string) ;;;
  (if tqdm then ret tt
   else emit INFO (Text ("   " ++ str_list paths ++ " dataset" ++ nl)%string)) ;;;
  let (l, final) := scan_files paths [] in
  (l, OK final).
End Shared.

(** ** [GraphDataset] *)

Module GraphDataset.

(** The sample handed out: a [torch_geometric] Data object. *)
Record Data (num : Type) : Type := {
  x : ndarray num;
  edge_index : ndarray num;
  edge_attr : ndarray num;
  y : option (list num);
  pos : ndarray num;
  cluster0 : option (ndarray num);
  cluster1 : option (ndarray num);
  entry_names : list string
}.
Arguments x {num} _.
Arguments edge_index {num} _.
Arguments edge_attr {num} _.
Arguments y {num} _.
Arguments pos {num} _.
Arguments cluster0 {num} _.
Arguments cluster1 {num} _.
Arguments entry_names {num} _.

(** The attributes of the dataset object that the methods read. *)
Record t (num : Type) : Type := {
  hdf5_path : list string;
  subset : option (list string);
  target : option string;
  task : option string;
  node_features : list string;
  edge_features : option (list string);
  clustering_method : option string;
  tqdm : bool;
  _transform : option (Data num -> Data num);
  edge_features_transform : ndarray num -> ndarray num;
  target_transform : option bool;
  target_filter : option (list (string * pyobj));
  index_entries : list (string * string)
}.
Arguments hdf5_path {num} _.
Arguments subset {num} _.
Arguments target {num} _.
Arguments task {num} _.
Arguments node_features {num} _.
Arguments edge_features {num} _.
Arguments clustering_method {num} _.
Arguments tqdm {num} _.
Arguments _transform {num} _.
Arguments edge_features_transform {num} _.
Arguments target_transform {num} _.
Arguments target_filter {num} _.
Arguments index_entries {num} _.

Definition set_hdf5_path {num} (self : t num) (p : list string) : t num :=
  {| hdf5_path := p; subset := subset self; target := target self;
     task := task self; node_features := node_features self;
     edge_features := edge_features self;
     clustering_method := clustering_method self; tqdm := tqdm self;
     _transform := _transform self;
     edge_features_transform := edge_features_transform self;
     target_transform := target_transform self;
     target_filter := target_filter self;
     index_entries := index_entries self |}.

Definition set_index_entries {num} (self : t num)
                             (ix : list (string * string)) : t num :=
  {| hdf5_path := hdf5_path self; subset := subset self;
     target := target self;
     task := task self; node_features := node_features self;
     edge_features := edge_features self;
     clustering_method := clustering_method self; tqdm := tqdm self;
     _transform := _transform self;
     edge_features_transform := edge_features_transform self;
     target_transform := target_transform self;
     target_filter := target_filter self;
     index_entries := ix |}.

Section Methods.
Context {num : Type} `{Torch num} `{Display num} `{Domain}.

(** [len] *)
Definition len (self : t num) : nat := length (index_entries self).

(** The loop [for name in remove_file: self.hdf5_path.remove(name)]. *)
Fixpoint remove_files (remove_file paths : list string)
  : outcome (list string) :=
  match remove_file with
  | [] => OK paths
  | name :: rest =>
      paths' <-- list_remove name paths ;; remove_files rest paths'
  end.

Definition _check_hdf5_files (fs : FileSystem num) (self : t num)
  : M (t num) :=
  emit INFO (Text (nl ++ "Checking dataset Integrity...")%string) ;;;
  remove_file <- integrity_scan fs (hdf5_path self) [] ;;
  paths <- lift (remove_files remove_file (hdf5_path self)) ;;
  ret (set_hdf5_path self paths).

(** The substitution loop of [_filter] over [ops]. *)
Definition substitute (var : string) (ops : list string) (cond : string)
  : string :=
  fold_left (fun acc o => replace o (var ++ o)%string acc) ops cond.

(** The [try] statement of [_filter]: the stored value is read and
    dropped; when it is missing the names at hand are logged, each as
    a stray argument of the message ["   : "]. *)
Definition probe_target (molgrp : Group num) (cond_name : string)
  : M unit :=
  try_except_KeyError
    (lift (tg <-- subgroup (targets molgrp) ;;
           _ <-- getitem cond_name tg ;; OK tt))
    (emit INFO (Text ("   :Filter " ++ cond_name
                      ++ " not found for mol "
                      ++ str_group molgrp)%string) ;;;
     emit INFO (Text "   :Filter options are") ;;;
     tg <- lift (subgroup (targets molgrp)) ;;
     for_each (keys tg) (fun k => emit INFO (TextArgs "   : " [k]))).

(** The loop of [_filter] over the items of [target_filter]. *)
Fixpoint filter_items (molgrp : Group num)
                      (items : list (string * pyobj)) : M bool :=
  match items with
  | [] => ret true
  | (cond_name, cond_vals) :: rest =>
      probe_target molgrp cond_name ;;;
      match cond_vals with
      | VStr cond =>
          let ops := [">"; "<"; "=="] in
          let new_cond_vals := substitute "val" ops cond in
          v <- lift (literal_eval new_cond_vals) ;;
          if negb (truthy v) then ret false
          else filter_items molgrp rest
      | _ =>
          raise (ValueError [VStr "Conditions not supported"; cond_vals])
      end
  end.

Definition _filter (self : t num) (molgrp : Group num) : M bool :=
  match target_filter self with
  | None => ret true
  | Some items => filter_items molgrp items
  end.

Definition _create_index_entries (fs : FileSystem num) (self : t num)
  : M (t num) :=
  ix <- create_index_entries fs (subset self) (_filter self)
                             (hdf5_path self) (tqdm self) ;;
  ret (set_index_entries self ix).

(** The loop that reads the features named in [feats] from the group
    [g] ([nodes] or [edges]), skipping the metafeatures. *)
Fixpoint read_features (g : option (list (string * ndarray num)))
                       (feats : list string)
                       (data : list (ndarray num))
  : outcome (list (ndarray num)) :=
  match feats with
  | [] => OK data
  | feat :: rest =>
      c <-- first_char feat ;;
      if negb (c =? "_")%char then
        grp <-- subgroup g ;;
        vals <-- getitem feat grp ;;
        let vals := if ndim vals =? 1 then reshape_column vals else vals in
        read_features g rest (data ++ [vals])
      else read_features g rest data
  end.

(** [x]: the node features. *)
Definition load_x (self : t num) (grp : Group num)
  : outcome (ndarray num) :=
  node_data <-- read_features (nodes grp) (node_features self) [] ;;
  stacked <-- hstack node_data ;;
  OK (tensor as_float stacked).

(** The edge index, with every edge in both directions. *)
Definition load_edge_index (grp : Group num) : outcome (ndarray num) :=
  e <-- subgroup (edges grp) ;;
  if mem Efeat_INDEX (keys e) then
    ind <-- getitem Efeat_INDEX e ;;
    ind <-- match ind with
            | Arr2 w rows =>
                both <-- vstack ind (Arr2 w (flip_axis1 rows)) ;;
                OK (transpose both)
            | Arr1 _ => OK ind
            end ;;
    OK (tensor as_long ind)
  else OK (Arr2 0 [[]; []]).

(** The edge features, each row once per direction. *)
Definition load_edge_attr (self : t num) (grp : Group num)
                          (edge_index : ndarray num)
  : outcome (ndarray num) :=
  let empty :=
    n <-- shape1 edge_index ;; OK (Arr2 0 (repeat [] n)) in
  match edge_features self, edges grp with
  | Some feats, Some _ =>
      if 0 <? length feats then
        edge_data <-- read_features (edges grp) feats [] ;;
        edge_data <-- hstack edge_data ;;
        edge_data <-- vstack edge_data edge_data ;;
        let edge_data := edge_features_transform self edge_data in
        OK (tensor as_float edge_data)
      else empty
  | _, _ => empty
  end.

(** The target.  Where the [elif] is reached with the flag set the
    task differs from [targets_REGRESS] as a string, hence as an
    object, so [is not] is decided by the comparison of the strings. *)
Definition load_y (self : t num) (grp : Group num)
                  (fname entry_name : string)
  : outcome (option (list num)) :=
  match target self with
  | None => OK None
  | Some tname =>
      let present :=
        match targets grp with
        | Some tg => mem tname (keys tg)
        | None => false
        end in
      if present then
        tg <-- subgroup (targets grp) ;;
        v <-- getitem tname tg ;;
        let y := [as_float v] in
        let regress :=
          match task self with
          | Some k => (k =? targets_REGRESS)%string
          | None => false
          end in
        if regress && is_True (target_transform self) then
          OK (Some (map torch_sigmoid (map torch_log y)))
        else if negb regress && is_True (target_transform self) then
          Raise (ValueError
            [VStr ("Task is set to " ++ str_option (task self)
                   ++ ". Please set it to regress to transform the target with a sigmoid.")%string])
        else OK (Some y)
      else
        tg <-- subgroup (targets grp) ;;
        let possible_targets := keys tg in
        Raise (ValueError
          [VStr ("Target " ++ tname ++ " missing in entry " ++ entry_name
                 ++ " in file " ++ fname ++ ", possible targets are "
                 ++ str_keys possible_targets ++ "."
                 ++ nl ++ " Use the query class to add more target values to input data.")%string])
  end.

(** The node positions. *)
Definition load_pos (grp : Group num) : outcome (ndarray num) :=
  n <-- subgroup (nodes grp) ;;
  p <-- getitem Nfeat_POSITION n ;;
  OK (tensor as_float p).

(** The two levels of clustering, when the entry has them. *)
Definition load_clusters (self : t num) (grp : Group num)
  : M (option (ndarray num) * option (ndarray num)) :=
  match clustering_method self with
  | Some method =>
      match clustering grp with
      | Some cl =>
          if mem method (keys cl) then
            m <- lift (getitem method cl) ;;
            if mem "depth_0" (keys m) && mem "depth_1" (keys m) then
              c0 <- lift (getitem "depth_0" m) ;;
              c1 <- lift (getitem "depth_1" m) ;;
              ret (Some (tensor as_long c0), Some (tensor as_long c1))
            else
              emit WARNING (Text "no clusters detected") ;;;
              ret (None, None)
          else
            emit WARNING (Text ("no clustering/" ++ method
                                ++ " detected")%string) ;;;
            ret (None, None)
      | None =>
          emit WARNING (Text "no clustering group found") ;;;
          ret (None, None)
      end
  | None =>
      emit WARNING (Text "no cluster method set") ;;; ret (None, None)
  end.

Definition load_one_graph (fs : FileSystem num) (self : t num)
                          (fname entry_name : string) : M (Data num) :=
  f5 <- lift (open_file fs fname) ;;
  grp <- lift (getitem entry_name f5) ;;
  x <- lift (load_x self grp) ;;
  edge_index <- lift (load_edge_index grp) ;;
  edge_attr <- lift (load_edge_attr self grp edge_index) ;;
  y <- lift (load_y self grp fname entry_name) ;;
  pos <- lift (load_pos grp) ;;
  clusters <- load_clusters self grp ;;
  let data :=
    {| x := x; edge_index := edge_index; edge_attr := edge_attr;
       y := y; pos := pos;
       cluster0 := fst clusters; cluster1 := snd clusters;
       entry_names := [entry_name] |} in
  ret (match _transform self with
       | Some f => f data
       | None => data
       end).

(** [get] *)
Definition get (fs : FileSystem num) (self : t num) (index : Z)
  : M (Data num) :=
  entry <- lift (list_getitem (index_entries self) index) ;;
  let (fname, mol) := entry in
  load_one_graph fs self fname mol.
End Methods.
End GraphDataset.

(** ** [GridDataset] *)

Module GridDataset.

(** The sample handed out: the stacked grid features under a leading
    axis of length one, and the target. *)
Record Data (num : Type) : Type := {
  x : voxels num;
  y : list num;
  entry_names : list string
}.
Arguments x {num} _.
Arguments y {num} _.
Arguments entry_names {num} _.

Record t (num : Type) : Type := {
  hdf5_paths : list string;
  subset : option (list string);
  target : option string;
  task : option string;
  features : list string;
  tqdm : bool;
  _transform : option (Data num -> Data num);
  target_transform : option bool;
  target_filter : option (list (string * pyobj));
  index_entries : list (string * string)
}.
Arguments hdf5_paths {num} _.
Arguments subset {num} _.
Arguments target {num} _.
Arguments task {num} _.
Arguments features {num} _.
Arguments tqdm {num} _.
Arguments _transform {num} _.
Arguments target_transform {num} _.
Arguments target_filter {num} _.
Arguments index_entries {num} _.

Definition set_hdf5_paths {num} (self : t num) (p : list string) : t num :=
  {| hdf5_paths := p; subset := subset self; target := target self;
     task := task self; features := features self; tqdm := tqdm self;
     _transform := _transform self;
     target_transform := target_transform self;
     target_filter := target_filter self;
     index_entries := index_entries self |}.

Definition set_index_entries {num} (self : t num)
                             (ix : list (string * string)) : t num :=
  {| hdf5_paths := hdf5_paths self; subset := subset self;
     target := target self;
     task := task self; features := features self; tqdm := tqdm self;
     _transform := _transform self;
     target_transform := target_transform self;
     target_filter := target_filter self;
     index_entries := ix |}.

Section Methods.
Context {num : Type} `{Torch num} `{Display num} `{Domain}.

(** [len] *)
Definition len (self : t num) : nat := length (index_entries self).

(** The loop [for hdf5_path in remove_file:
    self.hdf5_paths.remove(name)].  The method binds no [name], the
    module defines none and the builtins have none: evaluating the
    argument raises. *)
Fixpoint remove_files (remove_file paths : list string)
  : outcome (list string) :=
  match remove_file with
  | [] => OK paths
  | hdf5_path :: rest =>
      name <-- Raise (NameError "name") ;;
      paths' <-- list_remove name paths ;; remove_files rest paths'
  end.

Definition _check_hdf5_files (fs : FileSystem num) (self : t num)
  : M (t num) :=
  emit INFO (Text (nl ++ "Checking dataset Integrity...")%string) ;;;
  remove_file <- integrity_scan fs (hdf5_paths self) [] ;;
  paths <- lift (remove_files remove_file (hdf5_paths self)) ;;
  ret (set_hdf5_paths self paths).

(** The substitution loop of [_filter_targets] over the operators. *)
Definition substitute (var : string) (ops : list string) (cond : string)
  : string :=
  fold_left (fun acc o => replace o (var ++ o)%string acc) ops cond.

(** The loop of [_filter_targets] over the items of [target_filter]. *)
Fixpoint filter_items (entry_group : Group num)
                      (items : list (string * pyobj)) : M bool :=
  match items with
  | [] => ret true
  | (target_name, target_condition) :: rest =>
      tg <- lift (subgroup (targets entry_group)) ;;
      if mem target_name (keys tg) then
        target_value <- lift (getitem target_name tg) ;;
        match target_condition with
        | VStr cond =>
            let operation :=
              substitute "target_value"
                         [">"; "<"; "=="; "<="; ">="; "!="] cond in
            v <- lift (literal_eval operation) ;;
            if negb (truthy v) then ret false
            else filter_items entry_group rest
        | VNone => filter_items entry_group rest
        | _ =>
            raise (ValueError [VStr "Conditions not supported";
                               target_condition])
        end
      else
        emit WARNING
          (Text ("   :Filter " ++ target_name ++ " not found for entry "
                 ++ str_group entry_group ++ nl
                 ++ "   :Filter options are:" ++ nl
                 ++ join nl (map (fun target_name =>
                                    "   :  " ++ target_name)
                                 (keys tg)))%string) ;;;
        filter_items entry_group rest
  end.

Definition _filter_targets (self : t num) (entry_group : Group num)
  : M bool :=
  match target_filter self with
  | None => ret true
  | Some items => filter_items entry_group items
  end.

Definition _create_index_entries (fs : FileSystem num) (self : t num)
  : M (t num) :=
  ix <- create_index_entries fs (subset self) (_filter_targets self)
                             (hdf5_paths self) (tqdm self) ;;
  ret (set_index_entries self ix).

(** The loop of [load_one_entry] over the feature names. *)
Fixpoint read_features
           (mapped_features_group :
              list (string * list (string * voxels num)))
           (feats : list string) (feature_data : list (voxels num))
  : outcome (list (voxels num)) :=
  match feats with
  | [] => OK feature_data
  | feature_name :: rest =>
      g <-- getitem feature_name mapped_features_group ;;
      v <-- getitem gridstorage_FEATURE_VALUE g ;;
      read_features mapped_features_group rest (feature_data ++ [v])
  end.

(** [torch.tensor([feature_data], dtype=torch.float)]: the arrays must
    agree in shape; the text of torch's error is not modelled. *)
Definition stack_features (feature_data : list (voxels num))
  : outcome (voxels num) :=
  match feature_data with
  | [] => OK (Voxels [1; 0] [])
  | first :: _ =>
      if forallb (fun v => eqb_list_nat (vshape v) (vshape first))
                 feature_data
      then OK (Voxels (1 :: length feature_data :: vshape first)
                      (map as_float (flat_map vdata feature_data)))
      else Raise (ValueError [VStr "expected sequence of equal shapes"])
  end.

Definition load_one_entry (fs : FileSystem num) (self : t num)
                          (hdf5_path entry_name : string)
  : M (Data num) :=
  hdf5_file <- lift (open_file fs hdf5_path) ;;
  entry_group <- lift (getitem entry_name hdf5_file) ;;
  mapped_features_group <- lift (subgroup (mapped_features entry_group)) ;;
  feature_data <-
    lift (read_features mapped_features_group (features self) []) ;;
  tg <- lift (subgroup (targets entry_group)) ;;
  target_value <-
    lift (match target self with
          | Some name => getitem name tg
          | None => Raise TypeError
          end) ;;
  x <- lift (stack_features feature_data) ;;
  ret {| x := x; y := [as_float target_value];
         entry_names := [entry_name] |}.

(** [get] *)
Definition get (fs : FileSystem num) (self : t num) (index : Z)
  : M (Data num) :=
  entry <- lift (list_getitem (index_entries self) index) ;;
  let (file_path, entry_name) := entry in
  load_one_entry fs self file_path entry_name.
End Methods.
End GridDataset.

(** ** A concrete store, for evaluating the methods *)

Module Sample.

(** Numbers with the torch operations left symbolic. *)
Inductive sym : Type :=
| Lit (z : Z)
| Float (s : sym)
| Long (s : sym)
| Sigmoid (s : sym)
| Log (s : sym).

#[global] Instance torch_sym : Torch sym :=
  {| as_float := Float; as_long := Long;
     torch_sigmoid := Sigmoid; torch_log := Log |}.

#[global] Instance domain : Domain :=
  {| Nfeat_POSITION := "_position"; Efeat_INDEX := "_index";
     gridstorage_FEATURE_VALUE := "value";
     targets_REGRESS := "regress"; targets_CLASSIF := "classif" |}.

Definition quoted (s : string) : string := ("'" ++ s ++ "'")%string.

#[global] Instance display : Display sym :=
  {| str_list := fun l => ("[" ++ join ", " (map quoted l) ++ "]")%string;
     str_keys := fun l =>
       ("<KeysViewHDF5 [" ++ join ", " (map quoted l) ++ "]>")%string;
     str_group := fun _ => "<HDF5 group>" |}.

(** An entry with three nodes, two stored edges (0,1) and (1,2), a scalar
    and a two-column node feature, one edge feature and the targets
    [a] and [bin_class]. *)
Definition entry (a : Z) : Group sym :=
  {| nodes := Some [("_position", Arr2 3 [[Lit 0; Lit 0; Lit 0];
                                         [Lit 1; Lit 0; Lit 0];
                                         [Lit 2; Lit 0; Lit 0]]);
                    ("bsa", Arr1 [Lit 5; Lit 6; Lit 7]);
                    ("pssm", Arr2 2 [[Lit 1; Lit 2]; [Lit 3; Lit 4];
                                     [Lit 5; Lit 6]])];
     edges := Some [("_index", Arr2 2 [[Lit 0; Lit 1]; [Lit 1; Lit 2]]);
                    ("dist", Arr1 [Lit 3; Lit 4])];
     targets := Some [("a", Lit a); ("bin_class", Lit 1)];
     clustering := None;
     mapped_features :=
       Some [("bsa", [("value", Voxels [1; 1; 2] [Lit 5; Lit 6])])] |}.

Definition store : FileSystem sym :=
  fun path =>
    if (path =? "one.hdf5")%string
    then Some [("e1", entry 10); ("e2", entry 20); ("e3", entry 30)]
    else if (path =? "empty.hdf5")%string then Some []
    else None.

Definition graph (filter : option (list (string * pyobj)))
                 (sub : option (list string))
                 (tgt task : option string) (flag : option bool)
                 (ix : list (string * string)) : GraphDataset.t sym :=
  {| GraphDataset.hdf5_path := ["empty.hdf5"; "one.hdf5"; "missing.hdf5"];
     GraphDataset.subset := sub;
     GraphDataset.target := tgt;
     GraphDataset.task := task;
     GraphDataset.node_features := ["bsa"; "_position"; "pssm"];
     GraphDataset.edge_features := Some ["dist"];
     GraphDataset.clustering_method := Some "mcl";
     GraphDataset.tqdm := true;
     GraphDataset._transform := None;
     GraphDataset.edge_features_transform := tensor Sigmoid;
     GraphDataset.target_transform := flag;
     GraphDataset.target_filter := filter;
     GraphDataset.index_entries := ix |}.

Definition grid (filter : option (list (string * pyobj)))
                (sub : option (list string))
                (tgt : option string)
                (ix : list (string * string)) : GridDataset.t sym :=
  {| GridDataset.hdf5_paths := ["empty.hdf5"; "one.hdf5"; "missing.hdf5"];
     GridDataset.subset := sub;
     GridDataset.target := tgt;
     GridDataset.task := Some "regress";
     GridDataset.features := ["bsa"];
     GridDataset.tqdm := true;
     GridDataset._transform := None;
     GridDataset.target_transform := None;
     GridDataset.target_filter := filter;
     GridDataset.index_entries := ix |}.
End Sample.

(** ** The vocabulary of the properties *)

(** A file the integrity check removes: it cannot be opened or has no
    entry. *)
Definition rejected {num} (fs : FileSystem num) (fname : string) : bool :=
  match fs fname with
  | Some (_ :: _) => false
  | _ => true
  end.

(** What the integrity check logs about one file. *)
Definition integrity_log {num} (fs : FileSystem num) (fname : string)
  : list log_record :=
  match fs fname with
  | Some (_ :: _) => []
  | Some [] => [(INFO, Text ("    -> " ++ fname ++ " is empty ")%string)]
  | None => [(ERROR, OfExn OSError);
             (INFO, Text ("    -> " ++ fname ++ " is corrupted ")%string)]
  end.

(** The warning of the grid filter for a name the entry does not have. *)
Definition grid_warning {num} `{Display num} (g : Group num)
           (tg : list (string * num)) (name : string) : log_record :=
  (WARNING,
   Text ("   :Filter " ++ name ++ " not found for entry "
         ++ str_group g ++ nl ++ "   :Filter options are:" ++ nl
         ++ join nl (map (fun k => "   :  " ++ k) (keys tg)))%string).

(** The message of the error for a missing target, [printed] being the
    printed key view of the entry's target group. *)
Definition missing_target_message (tname entry_name fname printed : string)
  : string :=
  ("Target " ++ tname ++ " missing in entry " ++ entry_name
   ++ " in file " ++ fname ++ ", possible targets are "
   ++ printed ++ "."
   ++ nl ++ " Use the query class to add more target values to input data.")%string.

(** [ordered_part kept l]: [kept] is [l] with some elements left out, the
    others in their order. *)
Inductive ordered_part {A : Type} : list A -> list A -> Prop :=
| part_done : ordered_part [] []
| part_drop (x : A) (kept l : list A) :
    ordered_part kept l -> ordered_part kept (x :: l)
| part_keep (x : A) (kept l : list A) :
    ordered_part kept l -> ordered_part (x :: kept) (x :: l).

(** The filter keeps the entry [k] of the file [fh5]. *)
Definition keeps {num} (filter_entry : Group num -> M bool) (fh5 : File num)
           (k : string) : bool :=
  match assoc k fh5 with
  | Some g => match result (filter_entry g) with
              | OK b => b
              | Raise _ => false
              end
  | None => false
  end.

(** The index entries of the file [fdata] for the names given. *)
Definition entries_of (fdata : string) (names : list string)
  : list (string * string) :=
  map (pair fdata) names.

(** What one store file contributes under the subset [ids]. *)
Definition subset_entries {num} (fs : FileSystem num) (ids : list string)
           (fdata : string) : list (string * string) :=
  match fs fdata with
  | Some fh5 => map (pair fdata) (filter (fun i => mem i (keys fh5)) ids)
  | None => []
  end.

(** A metafeature: the name starts with an underscore. *)
Definition is_meta (feat : string) : bool :=
  match feat with
  | String c _ => (c =? "_")%char
  | EmptyString => false
  end.

(** The features of a specification that are assembled. *)
Definition requested (feats : list string) : list string :=
  filter (fun f => negb (is_meta f)) feats.

(** The width a stored feature has by itself. *)
Definition native_width {A} (a : ndarray A) : nat :=
  match a with Arr1 _ => 1 | Arr2 w _ => w end.

(** The values a stored feature has for node (or edge) [k]. *)
Definition feature_row {A} (k : nat) (a : ndarray A) : list A :=
  match a with
  | Arr1 v => match nth_error v k with Some x => [x] | None => [] end
  | Arr2 _ rows => nth k rows []
  end.

(** A stored array as the loops put it into the tuple. *)
Definition as_columns {A} (a : ndarray A) : ndarray A :=
  if ndim a =? 1 then reshape_column a else a.

(** A transform that works on each element by itself. *)
Definition elementwise {A} (t : ndarray A -> ndarray A) : Prop :=
  exists f : A -> A, forall a, t a = tensor f a.


(** ** Construction: task, classes and features

    [_check_task_and_classes] is written twice in the source, the same in
    both classes; [_check_features] differs between them. *)

(** The target names that [deeprankcore.domain.targetstorage] knows. *)
Class TargetNames : Type := {
  targets_IRMSD : string;
  targets_LRMSD : string;
  targets_FNAT : string;
  targets_DOCKQ : string;
  targets_BINARY : string;
  targets_CAPRI : string
}.

Definition spaces (n : nat) : string := string_of_list_ascii (repeat " "%char n).

(** The number a Python object is, if it is one: [True] is 1. *)
Definition number_of (v : pyobj) : option Q :=
  match v with
  | VBool b => Some (if b then 1%Q else 0%Q)
  | VInt z => Some (inject_Z z)
  | VFloat q => Some q
  | _ => None
  end.

(** [a == b], as a dict compares keys: numbers by value across their
    types, strings by their characters. *)
Definition py_eqb (a b : pyobj) : bool :=
  match number_of a, number_of b with
  | Some x, Some y => Qeq_bool x y
  | None, None =>
      match a, b with
      | VNone, VNone => true
      | VStr s, VStr t => (s =? t)%string
      | _, _ => false
      end
  | _, _ => false
  end.

(** [d[k] = v] on a dict held as its items in insertion order: an equal
    key keeps its place and its first spelling and takes the new value. *)
Fixpoint dict_set {V} (k : pyobj) (v : V) (d : list (pyobj * V))
  : list (pyobj * V) :=
  match d with
  | [] => [(k, v)]
  | (k', v') :: rest =>
      if py_eqb k k' then (k', v) :: rest
      else (k', v') :: dict_set k v rest
  end.

(** [d.get(k)] *)
Fixpoint dict_get {V} (k : pyobj) (d : list (pyobj * V)) : option V :=
  match d with
  | [] => None
  | (k', v) :: rest => if py_eqb k k' then Some v else dict_get k rest
  end.

(** [{class_: index for index, class_ in enumerate(classes)}], counting
    from [start]. *)
Fixpoint enumerate_into (start : nat) (classes : list pyobj)
                        (d : list (pyobj * nat)) : list (pyobj * nat) :=
  match classes with
  | [] => d
  | c :: rest => enumerate_into (S start) rest (dict_set c start d)
  end.

(** What [_check_task_and_classes] leaves on the object, and the messages
    it hands to [warnings.warn]. *)
Record task_resolution : Type := {
  res_task : option string;
  res_classes : option (list pyobj);
  res_classes_to_index : option (list (pyobj * nat));
  res_warned : list string
}.

(** [x in names] for a target that may be [None]. *)
Definition target_in (target : option string) (names : list string) : bool :=
  match target with
  | Some t => mem t names
  | None => false
  end.

(** [a == b] for values that are strings or [None]. *)
Definition option_string_eqb (a b : option string) : bool :=
  match a, b with
  | Some x, Some y => (x =? y)%string
  | None, None => true
  | _, _ => false
  end.

Definition _check_task_and_classes `{Domain} `{TargetNames}
           (target task : option string) (classes : option (list pyobj))
  : M task_resolution :=
  let self_task :=
    if target_in target [targets_IRMSD; targets_LRMSD; targets_FNAT;
                         targets_DOCKQ]
    then Some targets_REGRESS
    else if target_in target [targets_BINARY; targets_CAPRI]
    then Some targets_CLASSIF
    else task in
  if negb (target_in self_task [targets_CLASSIF; targets_REGRESS])
     && match target with Some _ => true | None => false end
  then
    raise (ValueError
      [VStr ("User target detected: " ++ str_option target
             ++ " -> The task argument must be 'classif' or 'regress', currently set as "
             ++ str_option self_task)%string])
  else
    let warned :=
      if negb (option_string_eqb task self_task)
         && match task with Some _ => true | None => false end
      then [("Target " ++ str_option target ++ " expects "
             ++ str_option self_task ++ ", but was set to task "
             ++ str_option task ++ " by user." ++ nl
             ++ "User set task is ignored and " ++ str_option self_task
             ++ " will be used.")%string]
      else [] in
    if option_string_eqb self_task (Some targets_CLASSIF) then
      self_classes <-
        match classes with
        | None =>
            emit INFO (Text "Target classes set up to: [0, 1]") ;;;
            ret [VInt 0; VInt 1]
        | Some given => ret given
        end ;;
      ret {| res_task := self_task;
             res_classes := Some self_classes;
             res_classes_to_index := Some (enumerate_into 0 self_classes []);
             res_warned := warned |}
    else
      ret {| res_task := self_task;
             res_classes := None;
             res_classes_to_index := None;
             res_warned := warned |}.

(** A feature argument: a string (the sentinel ["all"], or a string that
    the loops take character by character) or a list of names. *)
Inductive feature_arg : Type :=
| FStr (s : string)
| FList (l : list string).

(** What [for feat in features] visits. *)
Definition iterate (a : feature_arg) : list string :=
  match a with
  | FStr s => map str1 (list_ascii_of_string s)
  | FList l => l
  end.

(** [features == "all"] *)
Definition is_all (a : feature_arg) : bool :=
  match a with
  | FStr s => (s =? "all")%string
  | FList _ => false
  end.

(** [[key for key in names if key[0] != '_']] *)
Fixpoint without_metafeatures (names : list string) : outcome (list string) :=
  match names with
  | [] => OK []
  | key :: rest =>
      c <-- first_char key ;;
      kept <-- without_metafeatures rest ;;
      OK (if negb (c =? "_")%char then key :: kept else kept)
  end.

(** [l[0]] *)
Definition first {A} (l : list A) : outcome A :=
  match l with
  | [] => Raise IndexError
  | a :: _ => OK a
  end.

(** The loop that collects the names a file does not have, logging each:
    [what] is the text before the name. *)
Fixpoint collect_missing (what tail : string) (available feats : list string)
  : M (list string) :=
  match feats with
  | [] => ret []
  | feat :: rest =>
      if negb (mem feat available) then
        emit INFO (Text (what ++ feat ++ tail)%string) ;;;
        more <- collect_missing what tail available rest ;;
        ret (feat :: more)
      else collect_missing what tail available rest
  end.

Definition check_hint : string :=
  (nl ++ "Check feature_modules passed to the preprocess function."
   ++ spaces 16
   ++ "Probably, the feature wasn't generated during the preprocessing step.")%string.

Definition graph_error_tail : string :=
  ("." ++ spaces 20 ++ nl
   ++ "Check feature_modules passed to the preprocess function."
   ++ spaces 21 ++ nl
   ++ "Probably, the feature wasn't generated during the preprocessing step."
   ++ spaces 21)%string.

Definition grid_error_tail : string :=
  (graph_error_tail ++ "Available features: ")%string.

Module GraphSetup.

(** What [_check_features] leaves on the object. *)
Record resolution : Type := {
  available_node_features : list string;
  available_edge_features : list string;
  node_features : list string;
  edge_features : option (list string)
}.

Section Methods.
Context {num : Type} `{Torch num} `{Display num} `{Domain}.

Definition missing_features_error {A : Type} (path : string)
           (available_node available_edge missing_node missing_edge
              : list string) : M A :=
  emit INFO (Text check_hint) ;;;
  miss_node_error <-
    match missing_node with
    | [] => ret ""%string
    | _ :: _ =>
        emit INFO (Text (nl ++ "Available node features: "
                         ++ str_list available_node ++ nl)%string) ;;;
        ret (nl ++ "Missing node features: " ++ str_list missing_node
             ++ spaces 37 ++ nl ++ "Available node features: "
             ++ str_list available_node)%string
    end ;;
  miss_edge_error <-
    match missing_edge with
    | [] => ret ""%string
    | _ :: _ =>
        emit INFO (Text (nl ++ "Available edge features: "
                         ++ str_list available_edge ++ nl)%string) ;;;
        ret (nl ++ "Missing edge features: " ++ str_list missing_edge
             ++ spaces 37 ++ nl ++ "Available edge features: "
             ++ str_list available_edge)%string
    end ;;
  raise (ValueError
    [VStr ("Not all features could be found in the file " ++ path
           ++ graph_error_tail ++ miss_node_error ++ miss_edge_error)%string]).

Definition _check_features (fs : FileSystem num) (hdf5_path : list string)
           (node_arg : feature_arg) (edge_arg : option feature_arg)
  : M resolution :=
  path <- lift (first hdf5_path) ;;
  f <- lift (open_file fs path) ;;
  mol_key <- lift (first (keys f)) ;;
  grp <- lift (getitem mol_key f) ;;
  node_group <- lift (subgroup (nodes grp)) ;;
  available_node <- lift (without_metafeatures (keys node_group)) ;;
  edge_group <- lift (subgroup (edges grp)) ;;
  available_edge <- lift (without_metafeatures (keys edge_group)) ;;
  missing_node <-
    (if is_all node_arg then ret []
     else collect_missing "The node feature _"
            ("_ was not found in the file " ++ path ++ ".")%string
            available_node (iterate node_arg)) ;;
  missing_edge <-
    match edge_arg with
    | None => ret []
    | Some arg =>
        if is_all arg then ret []
        else collect_missing "The edge feature _"
               ("_ was not found in the file " ++ path ++ ".")%string
               available_edge (iterate arg)
    end ;;
  match missing_node ++ missing_edge with
  | _ :: _ =>
      missing_features_error path available_node available_edge
                             missing_node missing_edge
  | [] =>
      ret {| available_node_features := available_node;
             available_edge_features := available_edge;
             node_features :=
               if is_all node_arg then available_node else iterate node_arg;
             edge_features :=
               match edge_arg with
               | None => None
               | Some arg =>
                   Some (if is_all arg then available_edge else iterate arg)
               end |}
  end.
End Methods.
End GraphSetup.

(** The first argument of the constructors: one path or a list. *)
Inductive path_arg : Type :=
| PStr (s : string)
| PList (l : list string).

Definition as_path_list (a : path_arg) : list string :=
  match a with
  | PStr s => [s]
  | PList l => l
  end.

(** The constructor of the graph dataset.  The call to the constructor of
    the [torch_geometric] base class and the choice of the device are
    outside the source and touch none of the attributes used here. *)
Module GraphInit.

Record args (num : Type) : Type := {
  hdf5_path : path_arg;
  subset : option (list string);
  target : option string;
  task : option string;
  node_features : feature_arg;
  edge_features : option feature_arg;
  clustering_method : option string;
  classes : option (list pyobj);
  tqdm : bool;
  transform : option (GraphDataset.Data num -> GraphDataset.Data num);
  edge_features_transform : ndarray num -> ndarray num;
  target_transform : option bool;
  target_filter : option (list (string * pyobj))
}.
Arguments hdf5_path {num} _.
Arguments subset {num} _.
Arguments target {num} _.
Arguments task {num} _.
Arguments node_features {num} _.
Arguments edge_features {num} _.
Arguments clustering_method {num} _.
Arguments classes {num} _.
Arguments tqdm {num} _.
Arguments transform {num} _.
Arguments edge_features_transform {num} _.
Arguments target_transform {num} _.
Arguments target_filter {num} _.

(** The object after construction: the attributes the methods read, and
    the ones only the constructor sets. *)
Record constructed (num : Type) : Type := {
  self : GraphDataset.t num;
  self_classes : option (list pyobj);
  self_classes_to_index : option (list (pyobj * nat));
  self_available_node_features : list string;
  self_available_edge_features : list string;
  warned : list string
}.
Arguments self {num} _.
Arguments self_classes {num} _.
Arguments self_classes_to_index {num} _.
Arguments self_available_node_features {num} _.
Arguments self_available_edge_features {num} _.
Arguments warned {num} _.

Section Methods.
Context {num : Type} `{Torch num} `{Display num} `{Domain} `{TargetNames}.

(** The object with the attributes the constructor has set so far; the
    features hold what iterating the argument yields, the task and the
    index are not set yet. *)
Definition assigned (a : args num) (paths : list string)
           (the_task : option string) (nf : list string)
           (ef : option (list string)) (ix : list (string * string))
  : GraphDataset.t num :=
  {| GraphDataset.hdf5_path := paths;
     GraphDataset.subset := subset a;
     GraphDataset.target := target a;
     GraphDataset.task := the_task;
     GraphDataset.node_features := nf;
     GraphDataset.edge_features := ef;
     GraphDataset.clustering_method := clustering_method a;
     GraphDataset.tqdm := tqdm a;
     GraphDataset._transform := transform a;
     GraphDataset.edge_features_transform := edge_features_transform a;
     GraphDataset.target_transform := target_transform a;
     GraphDataset.target_filter := target_filter a;
     GraphDataset.index_entries := ix |}.

Definition __init__ (fs : FileSystem num) (a : args num)
  : M (constructed num) :=
  let self0 :=
    assigned a (as_path_list (hdf5_path a)) None
             (iterate (node_features a))
             (option_map iterate (edge_features a)) [] in
  self1 <- GraphDataset._check_hdf5_files fs self0 ;;
  r <- _check_task_and_classes (target a) (task a) (classes a) ;;
  f <- GraphSetup._check_features fs (GraphDataset.hdf5_path self1)
         (node_features a) (edge_features a) ;;
  let self3 :=
    assigned a (GraphDataset.hdf5_path self1) (res_task r)
             (GraphSetup.node_features f) (GraphSetup.edge_features f) [] in
  self4 <- GraphDataset._create_index_entries fs self3 ;;
  ret {| self := self4;
         self_classes := res_classes r;
         self_classes_to_index := res_classes_to_index r;
         self_available_node_features :=
           GraphSetup.available_node_features f;
         self_available_edge_features :=
           GraphSetup.available_edge_features f;
         warned := res_warned r |}.
End Methods.
End GraphInit.

(** The constructor of the grid dataset, with its feature check. *)
Module GridInit.

Record args (num : Type) : Type := {
  hdf5_path : path_arg;
  subset : option (list string);
  target : option string;
  task : option string;
  features : feature_arg;
  classes : option (list pyobj);
  tqdm : bool;
  transform : option (GridDataset.Data num -> GridDataset.Data num);
  target_transform : option bool;
  target_filter : option (list (string * pyobj))
}.
Arguments hdf5_path {num} _.
Arguments subset {num} _.
Arguments target {num} _.
Arguments task {num} _.
Arguments features {num} _.
Arguments classes {num} _.
Arguments tqdm {num} _.
Arguments transform {num} _.
Arguments target_transform {num} _.
Arguments target_filter {num} _.

Record constructed (num : Type) : Type := {
  self : GridDataset.t num;
  self_classes : option (list pyobj);
  self_classes_to_index : option (list (pyobj * nat));
  self_available_features : list string;
  warned : list string
}.
Arguments self {num} _.
Arguments self_classes {num} _.
Arguments self_classes_to_index {num} _.
Arguments self_available_features {num} _.
Arguments warned {num} _.

Section Methods.
Context {num : Type} `{Torch num} `{Display num} `{Domain} `{TargetNames}.

(** [_check_features]: the names available, and the features resolved. *)
Definition _check_features (fs : FileSystem num) (hdf5_paths : list string)
           (arg : feature_arg) : M (list string * list string) :=
  hdf5_path <- lift (first hdf5_paths) ;;
  hdf5_file <- lift (open_file fs hdf5_path) ;;
  entry_name <- lift (first (keys hdf5_file)) ;;
  grp <- lift (getitem entry_name hdf5_file) ;;
  mapped <- lift (subgroup (mapped_features grp)) ;;
  available <- lift (without_metafeatures (keys mapped)) ;;
  missing <-
    (if is_all arg then ret []
     else collect_missing "The feature "
            (" was not found in the file " ++ hdf5_path ++ ".")%string
            available (iterate arg)) ;;
  if 0 <? length missing then
    raise (ValueError
      [VStr ("Not all features could be found in the file " ++ hdf5_path
             ++ " under entry " ++ entry_name ++ grid_error_tail
             ++ str_list available)%string])
  else ret (available, if is_all arg then available else iterate arg).

Definition assigned (a : args num) (paths : list string)
           (the_task : option string) (feats : list string)
           (ix : list (string * string)) : GridDataset.t num :=
  {| GridDataset.hdf5_paths := paths;
     GridDataset.subset := subset a;
     GridDataset.target := target a;
     GridDataset.task := the_task;
     GridDataset.features := feats;
     GridDataset.tqdm := tqdm a;
     GridDataset._transform := transform a;
     GridDataset.target_transform := target_transform a;
     GridDataset.target_filter := target_filter a;
     GridDataset.index_entries := ix |}.

Definition __init__ (fs : FileSystem num) (a : args num)
  : M (constructed num) :=
  let self0 :=
    assigned a (as_path_list (hdf5_path a)) None (iterate (features a)) [] in
  self1 <- GridDataset._check_hdf5_files fs self0 ;;
  r <- _check_task_and_classes (target a) (task a) (classes a) ;;
  f <- _check_features fs (GridDataset.hdf5_paths self1) (features a) ;;
  let self3 :=
    assigned a (GridDataset.hdf5_paths self1) (res_task r) (snd f) [] in
  self4 <- GridDataset._create_index_entries fs self3 ;;
  ret {| self := self4;
         self_classes := res_classes r;
         self_classes_to_index := res_classes_to_index r;
         self_available_features := fst f;
         warned := res_warned r |}.
End Methods.
End GridInit.

(** ** More of the concrete store *)

Module More.

#[global] Instance target_names : TargetNames :=
  {| targets_IRMSD := "irmsd"; targets_LRMSD := "lrmsd";
     targets_FNAT := "fnat"; targets_DOCKQ := "dockq";
     targets_BINARY := "binary"; targets_CAPRI := "capri_class" |}.

(** A graph dataset over the files given. *)
Definition graph_on (paths : list string)
           (filter : option (list (string * pyobj)))
           (sub : option (list string)) (feats : list string)
           (ix : list (string * string)) : GraphDataset.t Sample.sym :=
  {| GraphDataset.hdf5_path := paths;
     GraphDataset.subset := sub;
     GraphDataset.target := Some "a";
     GraphDataset.task := Some "regress";
     GraphDataset.node_features := feats;
     GraphDataset.edge_features := Some ["dist"];
     GraphDataset.clustering_method := Some "mcl";
     GraphDataset.tqdm := true;
     GraphDataset._transform := None;
     GraphDataset.edge_features_transform := tensor Sample.Sigmoid;
     GraphDataset.target_transform := None;
     GraphDataset.target_filter := filter;
     GraphDataset.index_entries := ix |}.

(** A grid dataset over the files given. *)
Definition grid_on (paths : list string) (tgt : option string)
           (ix : list (string * string)) : GridDataset.t Sample.sym :=
  {| GridDataset.hdf5_paths := paths;
     GridDataset.subset := None;
     GridDataset.target := tgt;
     GridDataset.task := Some "regress";
     GridDataset.features := ["bsa"];
     GridDataset.tqdm := true;
     GridDataset._transform := None;
     GridDataset.target_transform := None;
     GridDataset.target_filter := None;
     GridDataset.index_entries := ix |}.

(** Arguments for the constructor of the graph dataset. *)
Definition graph_args (paths : list string) (tgt task : option string)
           (nf : feature_arg) (ef : option feature_arg)
           (filter : option (list (string * pyobj)))
  : GraphInit.args Sample.sym :=
  {| GraphInit.hdf5_path := PList paths;
     GraphInit.subset := None;
     GraphInit.target := tgt;
     GraphInit.task := task;
     GraphInit.node_features := nf;
     GraphInit.edge_features := ef;
     GraphInit.clustering_method := Some "mcl";
     GraphInit.classes := None;
     GraphInit.tqdm := true;
     GraphInit.transform := None;
     GraphInit.edge_features_transform := tensor Sample.Sigmoid;
     GraphInit.target_transform := None;
     GraphInit.target_filter := filter |}.

(** Arguments for the constructor of the grid dataset. *)
Definition grid_args (paths : list string) (tgt : option string)
           (feats : feature_arg) : GridInit.args Sample.sym :=
  {| GridInit.hdf5_path := PList paths;
     GridInit.subset := None;
     GridInit.target := tgt;
     GridInit.task := None;
     GridInit.features := feats;
     GridInit.classes := None;
     GridInit.tqdm := true;
     GridInit.transform := None;
     GridInit.target_transform := None;
     GridInit.target_filter := None |}.
End More.

(** The position of the last class equal to [c], if there is one. *)
Fixpoint last_position (c : pyobj) (classes : list pyobj) : option nat :=
  match classes with
  | [] => None
  | x :: rest =>
      match last_position c rest with
      | Some i => Some (S i)
      | None => if py_eqb c x then Some 0 else None
      end
  end.

(** The target names that fix the task. *)
Definition regression_targets `{TargetNames} : list string :=
  [targets_IRMSD; targets_LRMSD; targets_FNAT; targets_DOCKQ].

Definition classification_targets `{TargetNames} : list string :=
  [targets_BINARY; targets_CAPRI].

(** The requested names that are not among the available ones. *)
Definition unavailable (available : list string) (arg : feature_arg)
  : list string :=
  if is_all arg then []
  else filter (fun f => negb (mem f available)) (iterate arg).

(** The text of the error of the graph feature check. *)
Definition graph_features_message {num} `{Display num} (path : string)
           (available_node available_edge missing_node missing_edge
              : list string) : string :=
  ("Not all features could be found in the file " ++ path
   ++ graph_error_tail
   ++ match missing_node with
      | [] => ""
      | _ :: _ =>
          nl ++ "Missing node features: " ++ str_list missing_node
          ++ spaces 37 ++ nl ++ "Available node features: "
          ++ str_list available_node
      end
   ++ match missing_edge with
      | [] => ""
      | _ :: _ =>
          nl ++ "Missing edge features: " ++ str_list missing_edge
          ++ spaces 37 ++ nl ++ "Available edge features: "
          ++ str_list available_edge
      end)%string.

(** The features a feature argument resolves to. *)
Definition resolved (available : list string) (arg : feature_arg)
  : list string :=
  if is_all arg then available else iterate arg.

(** An index entry that can be looked up: its file is one of [paths] and
    opens, and the file has the entry. *)
Definition resolves {num} (fs : FileSystem num) (paths : list string)
           (e : string * string) : Prop :=
  In (fst e) paths
  /\ exists fh5 g, fs (fst e) = Some fh5 /\ assoc (snd e) fh5 = Some g.

(** Two entries store targets under the same names. *)
Definition same_target_names {num} (g g' : Group num) : Prop :=
  option_map keys (targets g) = option_map keys (targets g').

(** An entry that stores nothing, not even a target group, and a file
    that has it between two full entries. *)
Definition bare_entry : Group Sample.sym :=
  {| nodes := None; edges := None; targets := None;
     clustering := None; mapped_features := None |}.


(** A graph dataset over the sample store that asks for no edge feature. *)
Definition graph_without_edge_features (ef : option (list string))
  : GraphDataset.t Sample.sym :=
  {| GraphDataset.hdf5_path := ["one.hdf5"];
     GraphDataset.subset := None;
     GraphDataset.target := Some "a";
     GraphDataset.task := Some "regress";
     GraphDataset.node_features := ["bsa"];
     GraphDataset.edge_features := ef;
     GraphDataset.clustering_method := None;
     GraphDataset.tqdm := true;
     GraphDataset._transform := None;
     GraphDataset.edge_features_transform := fun a => a;
     GraphDataset.target_transform := None;
     GraphDataset.target_filter := None;
     GraphDataset.index_entries := [("one.hdf5", "e1")] |}.

(** Every entry of one store file, in the key order of the file. *)
Definition all_entries {num} (fs : FileSystem num) (fdata : string)
  : list (string * string) :=
  match fs fdata with
  | Some fh5 => entries_of fdata (keys fh5)
  | None => []
  end.

(** The files the integrity check accepts, in the order given. *)
Definition accepted {num} (fs : FileSystem num) (paths : list string)
  : list string :=
  filter (fun p => negb (rejected fs p)) paths.

(** A transform that does not work element by element: it drops the last
    row of the array it is given. *)
Definition drop_last_row {A} (a : ndarray A) : ndarray A :=
  match a with
  | Arr1 v => Arr1 (removelast v)
  | Arr2 w rows => Arr2 w (removelast rows)
  end.



(** * Properties *)

(** ** The monad *)

Lemma bind_lift_OK {A B} (a : A) (k : A -> M B) : bind (lift (OK a)) k = k a.
Proof. unfold bind, lift. destruct (k a); reflexivity. Qed.

Lemma bind_lift_Raise {A B} (e : exn) (k : A -> M B) :
  bind (lift (Raise e)) k = ([], Raise e).
Proof. reflexivity. Qed.

Lemma bind_ret {A B} (a : A) (k : A -> M B) : bind (ret a) k = k a.
Proof. unfold bind, ret. destruct (k a); reflexivity. Qed.

Lemma result_bind_OK {A B} (c : M A) (k : A -> M B) (a : A) :
  result c = OK a -> result (bind c k) = result (k a).
Proof.
  destruct c as [l r]; simpl; intros ->. unfold bind.
  destruct (k a); reflexivity.
Qed.

Lemma result_bind_Raise {A B} (c : M A) (k : A -> M B) (e : exn) :
  result c = Raise e -> result (bind c k) = Raise e.
Proof. destruct c as [l r]; simpl; intros ->. reflexivity. Qed.

Lemma result_bind_emit {B} (l : level) (m : log_msg) (k : unit -> M B) :
  result (bind (emit l m) k) = result (k tt).
Proof. apply result_bind_OK. reflexivity. Qed.

Lemma logged_bind_emit {B} (l : level) (m : log_msg) (k : unit -> M B) :
  logged (bind (emit l m) k) = (l, m) :: logged (k tt).
Proof. unfold bind, emit. destruct (k tt); reflexivity. Qed.

(** ** Lists of names *)

Lemma mem_In (k : string) (names : list string) :
  mem k names = true <-> In k names.
Proof.
  unfold mem. rewrite existsb_exists. split.
  - intros (x & Hx & Heq). apply String.eqb_eq in Heq. now subst.
  - intros Hin. exists k. split; [assumption | apply String.eqb_refl].
Qed.

Lemma assoc_mem {V} (k : string) (l : list (string * V)) :
  mem k (keys l) = true <-> exists v, assoc k l = Some v.
Proof.
  induction l as [| [k' v'] l IH]; simpl.
  - split; [discriminate | intros (v & Hv); discriminate].
  - unfold mem in *. simpl. destruct (String.eqb k k') eqn:E; simpl.
    + split; [intros _; now exists v' | reflexivity].
    + exact IH.
Qed.

Lemma assoc_None_mem {V} (k : string) (l : list (string * V)) :
  assoc k l = None -> mem k (keys l) = false.
Proof.
  intros Hnone. destruct (mem k (keys l)) eqn:E; [| reflexivity].
  apply assoc_mem in E. destruct E as (v & Hv). congruence.
Qed.

Lemma list_remove_middle (x : string) (g l : list string) :
  ~ In x g -> list_remove x (g ++ x :: l) = OK (g ++ l).
Proof.
  induction g as [| y g IH]; simpl; intros Hnot.
  - now rewrite String.eqb_refl.
  - destruct (String.eqb x y) eqn:E.
    + apply String.eqb_eq in E. subst. exfalso. apply Hnot. now left.
    + rewrite IH; [reflexivity | tauto].
Qed.

(** ** The integrity check *)

Section Integrity.
Context {num : Type} `{Torch num} `{Display num} `{Domain}.
Variable fs : FileSystem num.

Lemma integrity_scan_spec (paths remove_file : list string) :
  integrity_scan fs paths remove_file
  = (flat_map (integrity_log fs) paths,
     OK (remove_file ++ filter (rejected fs) paths)).
Proof.
  revert remove_file.
  induction paths as [| p paths IH]; intros remove_file; simpl.
  - now rewrite app_nil_r.
  - unfold rejected at 1, integrity_log at 1, open_file.
    destruct (fs p) as [[| e f] |]; simpl;
      rewrite IH; simpl; rewrite <- ?app_assoc; reflexivity.
Qed.

Lemma graph_remove_files (kept paths : list string) :
  (forall p, In p kept -> rejected fs p = false) ->
  GraphDataset.remove_files (filter (rejected fs) paths) (kept ++ paths)
  = OK (kept ++ filter (fun p => negb (rejected fs p)) paths).
Proof.
  revert kept.
  induction paths as [| p paths IH]; intros kept Hkept; simpl.
  - reflexivity.
  - destruct (rejected fs p) eqn:E; simpl.
    + rewrite list_remove_middle.
      * simpl. now apply IH.
      * intros Hin. apply Hkept in Hin. congruence.
    + replace (kept ++ p :: paths) with ((kept ++ [p]) ++ paths)
        by (rewrite <- app_assoc; reflexivity).
      rewrite IH.
      * rewrite <- app_assoc. reflexivity.
      * intros q Hq. apply in_app_or in Hq.
        destruct Hq as [Hq | [<- | []]]; auto.
Qed.

(** In the graph dataset the check never raises: it leaves exactly the
    files that open and have an entry, in their order, and logs a
    message for each file it drops. *)
Lemma graph_check_hdf5_files (self : GraphDataset.t num) :
  GraphDataset._check_hdf5_files fs self
  = ((INFO, Text (nl ++ "Checking dataset Integrity...")%string)
       :: flat_map (integrity_log fs) (GraphDataset.hdf5_path self),
     OK (GraphDataset.set_hdf5_path self
           (filter (fun p => negb (rejected fs p))
                   (GraphDataset.hdf5_path self)))).
Proof.
  unfold GraphDataset._check_hdf5_files.
  rewrite integrity_scan_spec. simpl.
  pose proof (graph_remove_files [] (GraphDataset.hdf5_path self)) as R.
  simpl in R. rewrite R by (intros p []).
  simpl. rewrite app_nil_r. reflexivity.
Qed.

Lemma grid_remove_files (remove_file paths : list string) :
  GridDataset.remove_files remove_file paths
  = match remove_file with
    | [] => OK paths
    | _ :: _ => Raise (NameError "name")
    end.
Proof. destruct remove_file; reflexivity. Qed.

Lemma filter_rejected_nonempty (p : string) (paths : list string) :
  In p paths -> rejected fs p = true ->
  exists q rest, filter (rejected fs) paths = q :: rest.
Proof.
  intros Hin Hrej.
  destruct (filter (rejected fs) paths) as [| q rest] eqn:E.
  - assert (Hp : In p (filter (rejected fs) paths))
      by (apply filter_In; split; assumption).
    rewrite E in Hp. destruct Hp.
  - now exists q, rest.
Qed.

(** C2. In the grid dataset the integrity check does not drop an empty or
    unopenable file: as soon as the file list holds one, the removal loop
    raises [NameError], where the claim has the file dropped and no
    exception raised by the check. *)
Theorem C2_grid_check_raises_on_rejected_file
        (self : GridDataset.t num) (p : string) :
  In p (GridDataset.hdf5_paths self) ->
  rejected fs p = true ->
  result (GridDataset._check_hdf5_files fs self) = Raise (NameError "name").
Proof.
  intros Hin Hrej.
  unfold GridDataset._check_hdf5_files.
  rewrite result_bind_emit, integrity_scan_spec. simpl.
  destruct (filter_rejected_nonempty p _ Hin Hrej) as (q & rest & ->).
  reflexivity.
Qed.
End Integrity.

Lemma C2_grid_check_raises_witness :
  result (GridDataset._check_hdf5_files Sample.store
            (Sample.grid None None (Some "a") []))
  = Raise (NameError "name").
Proof.
  apply (C2_grid_check_raises_on_rejected_file Sample.store
           (Sample.grid None None (Some "a") []) "empty.hdf5").
  - simpl. left. reflexivity.
  - reflexivity.
Defined.

(** ** Literals *)

(** A comparison is not a literal: [literal_eval] rejects it whatever its
    operands are. *)
Lemma literal_eval_compare (s : string) (l : expr) (ops : list cmpop)
      (cs : list expr) :
  ast_parse s = OK (Compare l ops cs) -> literal_eval s = Raise malformed.
Proof. unfold literal_eval. intros ->. reflexivity. Qed.

(** Nor is a name. *)
Lemma literal_eval_name (s id : string) :
  ast_parse s = OK (Name id) -> literal_eval s = Raise malformed.
Proof. unfold literal_eval. intros ->. reflexivity. Qed.

Example substitute_graph_ge :
  GraphDataset.substitute "val" [">"; "<"; "=="] ">= 0.5" = "val>= 0.5".
Proof. reflexivity. Qed.

Example substitute_grid_ge :
  GridDataset.substitute "target_value" [">"; "<"; "=="; "<="; ">="; "!="]
                         ">= 0.5"
  = "target_valuetarget_value>= 0.5".
Proof. reflexivity. Qed.

Example parse_substituted :
  ast_parse "val> 0.5"
  = OK (Compare (Name "val") [Gt] [Constant (VFloat (Qmake 5 10))]).
Proof. reflexivity. Qed.

Example literal_eval_int : literal_eval "-12" = OK (VInt (-12)).
Proof. reflexivity. Qed.

(** ** The target filters *)

Section Filters.
Context {num : Type} `{Torch num} `{Display num} `{Domain}.

Lemma for_each_emit_result {A} (xs : list A) (f : A -> log_msg) (l : level) :
  result (for_each xs (fun x => emit l (f x))) = OK tt.
Proof.
  induction xs as [| x xs IH]; [reflexivity |].
  cbn [for_each]. now rewrite result_bind_emit.
Qed.

(** The probe of the graph filter ends normally whenever the entry has a
    target group, whether the name is in it or not. *)
Lemma probe_target_result (g : Group num) (tg : list (string * num))
      (name : string) :
  targets g = Some tg ->
  result (GraphDataset.probe_target g name) = OK tt.
Proof.
  intros Htg. unfold GraphDataset.probe_target. rewrite Htg. simpl.
  unfold getitem. destruct (assoc name tg); simpl; [reflexivity |].
  destruct (for_each (keys tg) (fun k => emit INFO (TextArgs "   : " [k])))
    as [l r] eqn:E.
  simpl.
  pose proof (for_each_emit_result (keys tg)
                (fun k => TextArgs "   : " [k]) INFO) as R.
  cbv beta in R. rewrite E in R. simpl in R. now subst.
Qed.

(** A string condition in the graph filter: the outcome of the literal
    evaluator on the substituted string decides. *)
Lemma graph_filter_string (g : Group num) (tg : list (string * num))
      (name cond : string) (rest : list (string * pyobj)) :
  targets g = Some tg ->
  result (GraphDataset.filter_items g ((name, VStr cond) :: rest))
  = match literal_eval
            (GraphDataset.substitute "val" [">"; "<"; "=="] cond) with
    | Raise e => Raise e
    | OK v => if negb (truthy v) then OK false
              else result (GraphDataset.filter_items g rest)
    end.
Proof.
  intros Htg. cbn [GraphDataset.filter_items].
  rewrite (result_bind_OK _ _ tt) by (eapply probe_target_result; eauto).
  destruct (literal_eval _) as [v | e].
  - rewrite bind_lift_OK. destruct (negb (truthy v)); reflexivity.
  - reflexivity.
Qed.

(** Any other condition in the graph filter, [None] included. *)
Lemma graph_filter_not_string (g : Group num) (tg : list (string * num))
      (name : string) (c : pyobj) (rest : list (string * pyobj)) :
  targets g = Some tg ->
  (forall s, c <> VStr s) ->
  result (GraphDataset.filter_items g ((name, c) :: rest))
  = Raise (ValueError [VStr "Conditions not supported"; c]).
Proof.
  intros Htg Hc. cbn [GraphDataset.filter_items].
  rewrite (result_bind_OK _ _ tt) by (eapply probe_target_result; eauto).
  destruct c; try reflexivity. exfalso. now apply (Hc s).
Qed.

(** In the grid filter a name missing from the target group is passed
    over, whatever its condition: a warning is logged and the remaining
    conditions decide. *)
Lemma grid_filter_missing (g : Group num) (tg : list (string * num))
      (name : string) (c : pyobj) (rest : list (string * pyobj)) :
  targets g = Some tg ->
  assoc name tg = None ->
  GridDataset.filter_items g ((name, c) :: rest)
  = (grid_warning g tg name :: logged (GridDataset.filter_items g rest),
     result (GridDataset.filter_items g rest)).
Proof.
  intros Htg Hnone. cbn [GridDataset.filter_items].
  rewrite Htg. simpl subgroup. rewrite bind_lift_OK.
  rewrite (assoc_None_mem _ _ Hnone).
  unfold bind, emit, grid_warning.
  destruct (GridDataset.filter_items g rest); reflexivity.
Qed.

Lemma grid_filter_present (g : Group num) (tg : list (string * num))
      (name : string) (v : num) (c : pyobj) (rest : list (string * pyobj)) :
  targets g = Some tg ->
  assoc name tg = Some v ->
  GridDataset.filter_items g ((name, c) :: rest)
  = match c with
    | VStr cond =>
        x <- lift (literal_eval
                     (GridDataset.substitute "target_value"
                        [">"; "<"; "=="; "<="; ">="; "!="] cond)) ;;
        if negb (truthy x) then ret false
        else GridDataset.filter_items g rest
    | VNone => GridDataset.filter_items g rest
    | _ => raise (ValueError [VStr "Conditions not supported"; c])
    end.
Proof.
  intros Htg Hv. cbn [GridDataset.filter_items].
  rewrite Htg. simpl subgroup. rewrite bind_lift_OK.
  assert (Hmem : mem name (keys tg) = true)
    by (apply assoc_mem; now exists v).
  rewrite Hmem. unfold getitem. rewrite Hv. rewrite bind_lift_OK.
  reflexivity.
Qed.
End Filters.

(** Whatever the operand and the stored value, a condition whose
    substituted form is a comparison makes either filter raise: the
    comparison is never evaluated. *)
Lemma graph_filter_comparison_raises
      {num : Type} `{Torch num} `{Display num} `{Domain}
      (g : Group num) (tg : list (string * num)) (name cond : string)
      (rest : list (string * pyobj)) (l : expr) (ops : list cmpop)
      (cs : list expr) :
  targets g = Some tg ->
  ast_parse (GraphDataset.substitute "val" [">"; "<"; "=="] cond)
  = OK (Compare l ops cs) ->
  result (GraphDataset.filter_items g ((name, VStr cond) :: rest))
  = Raise malformed.
Proof.
  intros Htg Hparse.
  rewrite (graph_filter_string g tg name cond rest Htg).
  now rewrite (literal_eval_compare _ l ops cs Hparse).
Qed.

Lemma grid_filter_comparison_raises
      {num : Type} `{Torch num} `{Display num} `{Domain}
      (g : Group num) (tg : list (string * num)) (name cond : string)
      (v : num) (rest : list (string * pyobj)) (l : expr) (ops : list cmpop)
      (cs : list expr) :
  targets g = Some tg ->
  assoc name tg = Some v ->
  ast_parse (GridDataset.substitute "target_value"
               [">"; "<"; "=="; "<="; ">="; "!="] cond)
  = OK (Compare l ops cs) ->
  GridDataset.filter_items g ((name, VStr cond) :: rest)
  = ([], Raise malformed).
Proof.
  intros Htg Hv Hparse.
  rewrite (grid_filter_present g tg name v (VStr cond) rest Htg Hv).
  now rewrite (literal_eval_compare _ l ops cs Hparse).
Qed.

(** C1. A filter condition made of a comparison operator and a literal is
    never evaluated as a comparison.  Whatever value [a] the entry stores
    for the target, both filters end in an exception on each of the six
    operators: the substituted string is a comparison (or, for [!=] in the
    graph filter, not an expression at all), and the literal evaluator
    accepts neither.  The claim has the entry kept when [a > 0.5] holds and
    dropped otherwise. *)
Theorem C1_comparison_conditions_raise (a : Z) :
  map (fun op =>
         result (GraphDataset._filter
                   (Sample.graph (Some [("a", VStr (op ++ " 0.5"))])
                                 None None None None [])
                   (Sample.entry a)))
      [">"; "<"; "=="; "<="; ">="; "!="]
  = [Raise malformed; Raise malformed; Raise malformed; Raise malformed;
     Raise malformed; Raise SyntaxError]
  /\
  map (fun op =>
         result (GridDataset._filter_targets
                   (Sample.grid (Some [("a", VStr (op ++ " 0.5"))])
                                None None [])
                   (Sample.entry a)))
      [">"; "<"; "=="; "<="; ">="; "!="]
  = [Raise malformed; Raise malformed; Raise malformed; Raise malformed;
     Raise malformed; Raise malformed].
Proof. split; reflexivity. Qed.

(** C3. In the graph filter a name missing from the entry's target group
    does not switch its condition off.  The names at hand are logged at
    level INFO, each as a stray argument of a message without a
    placeholder, and the condition is evaluated all the same: the entry is
    rejected when the literal is false, and the filter raises on a
    comparison or on [None].  The claim has the condition skipped and the
    entry kept, without an exception. *)
Theorem C3_graph_filter_missing_target_not_skipped (a : Z) :
  GraphDataset._filter
    (Sample.graph (Some [("zz", VStr "0")]) None None None None [])
    (Sample.entry a)
  = ([(INFO, Text "   :Filter zz not found for mol <HDF5 group>");
      (INFO, Text "   :Filter options are");
      (INFO, TextArgs "   : " ["a"]);
      (INFO, TextArgs "   : " ["bin_class"])],
     OK false)
  /\ result (GraphDataset._filter
               (Sample.graph (Some [("zz", VStr "> 5")]) None None None None [])
               (Sample.entry a))
     = Raise malformed
  /\ result (GraphDataset._filter
               (Sample.graph (Some [("zz", VNone)]) None None None None [])
               (Sample.entry a))
     = Raise (ValueError [VStr "Conditions not supported"; VNone]).
Proof. repeat split; reflexivity. Qed.

(** The grid filter does what C3 says: with the name missing, the entry is
    kept when no other condition is configured, and the warning lists the
    names the entry has. *)
Lemma grid_filter_missing_target_kept
      {num : Type} `{Torch num} `{Display num} `{Domain}
      (g : Group num) (tg : list (string * num)) (name : string) (c : pyobj) :
  targets g = Some tg ->
  assoc name tg = None ->
  GridDataset.filter_items g [(name, c)] = ([grid_warning g tg name], OK true).
Proof.
  intros Htg Hnone. now rewrite (grid_filter_missing g tg name c [] Htg Hnone).
Qed.

(** C4. The two filters do not treat the type of a condition alike, and
    each misses a case the other has.  On a condition [None] for a target
    the entry stores, the graph filter raises [ValueError] where the grid
    filter keeps the entry and logs nothing; on a condition that is an
    integer for a target the entry lacks, the grid filter keeps the entry
    where the graph filter raises [ValueError].  For a target the entry
    stores, both raise on the integer.  The claim has [None] kept and the
    integer refused, in both. *)
Theorem C4_condition_types_diverge (a : Z) :
  result (GraphDataset._filter
            (Sample.graph (Some [("a", VNone)]) None None None None [])
            (Sample.entry a))
  = Raise (ValueError [VStr "Conditions not supported"; VNone])
  /\ GridDataset._filter_targets
       (Sample.grid (Some [("a", VNone)]) None None [])
       (Sample.entry a)
     = ([], OK true)
  /\ result (GridDataset._filter_targets
               (Sample.grid (Some [("zz", VInt 3)]) None None [])
               (Sample.entry a))
     = OK true
  /\ result (GraphDataset._filter
               (Sample.graph (Some [("zz", VInt 3)]) None None None None [])
               (Sample.entry a))
     = Raise (ValueError [VStr "Conditions not supported"; VInt 3])
  /\ result (GridDataset._filter_targets
               (Sample.grid (Some [("a", VInt 3)]) None None [])
               (Sample.entry a))
     = Raise (ValueError [VStr "Conditions not supported"; VInt 3])
  /\ result (GraphDataset._filter
               (Sample.graph (Some [("a", VInt 3)]) None None None None [])
               (Sample.entry a))
     = Raise (ValueError [VStr "Conditions not supported"; VInt 3]).
Proof. repeat split; reflexivity. Qed.

(** ** Messages *)

Lemma string_app_assoc (a b c : string) :
  ((a ++ b) ++ c = a ++ (b ++ c))%string.
Proof. induction a as [| ch a IH]; simpl; [reflexivity | now rewrite IH]. Qed.

Lemma string_app_nil_r (a : string) : (a ++ "" = a)%string.
Proof. induction a as [| ch a IH]; simpl; [reflexivity | now rewrite IH]. Qed.

Lemma contains_here (pre x post : string) :
  contains (pre ++ x ++ post)%string x.
Proof. now exists pre, post. Qed.

Lemma contains_after (pre s x : string) :
  contains s x -> contains (pre ++ s)%string x.
Proof.
  intros (p & q & ->). exists (pre ++ p)%string, q.
  now rewrite string_app_assoc.
Qed.

Lemma contains_join (sep pre : string) (parts : list string) (k : string) :
  In k parts -> contains (join sep (map (String.append pre) parts)) k.
Proof.
  induction parts as [| p parts IH]; intros Hin; [destruct Hin |].
  destruct Hin as [-> | Hin].
  - destruct parts as [| p' parts]; simpl.
    + exists pre, ""%string. now rewrite string_app_nil_r.
    + exists pre. eexists. rewrite string_app_assoc. reflexivity.
  - specialize (IH Hin). destruct parts as [| p' parts]; [destruct Hin |].
    change (join sep (map (String.append pre) (p :: p' :: parts)))
      with ((pre ++ p) ++ sep ++ join sep (map (String.append pre) (p' :: parts)))%string.
    apply contains_after. now apply contains_after.
Qed.

(** The warning of the grid filter on a missing name lists, by name, every
    target the entry has. *)
Lemma grid_warning_lists_targets
      {num : Type} `{Display num}
      (g : Group num) (tg : list (string * num)) (name k : string) :
  In k (keys tg) ->
  exists msg, grid_warning g tg name = (WARNING, Text msg) /\ contains msg k.
Proof.
  intros Hin. unfold grid_warning. eexists. split; [reflexivity |].
  do 7 apply contains_after.
  exact (contains_join nl "   :  " (keys tg) k Hin).
Qed.

(** ** The target of a graph sample *)

Section Target.
Context {num : Type} `{Torch num} `{Display num} `{Domain}.

Lemma load_y_present (self : GraphDataset.t num) (grp : Group num)
      (tg : list (string * num)) (tname fname entry_name : string)
      (v : num) :
  GraphDataset.target self = Some tname ->
  targets grp = Some tg ->
  assoc tname tg = Some v ->
  GraphDataset.load_y self grp fname entry_name
  = let regress :=
      match GraphDataset.task self with
      | Some k => (k =? targets_REGRESS)%string
      | None => false
      end in
    if regress && is_True (GraphDataset.target_transform self)
    then OK (Some [torch_sigmoid (torch_log (as_float v))])
    else if negb regress && is_True (GraphDataset.target_transform self)
    then Raise (ValueError
           [VStr ("Task is set to "
                  ++ str_option (GraphDataset.task self)
                  ++ ". Please set it to regress to transform the target with a sigmoid.")%string])
    else OK (Some [as_float v]).
Proof.
  intros Ht Htg Hv. unfold GraphDataset.load_y. rewrite Ht, Htg.
  assert (Hmem : mem tname (keys tg) = true)
    by (apply assoc_mem; now exists v).
  rewrite Hmem. simpl. unfold getitem. rewrite Hv. reflexivity.
Qed.

(** C6. With the configured target present in the entry and the
    transform flag set, the target [v] becomes [sigmoid(log(v))] exactly
    when the task is regression, and [ValueError] is raised exactly when
    it is not; with the flag not set the target is returned as read. *)
Theorem C6_target_transform_guard
        (self : GraphDataset.t num) (grp : Group num)
        (tg : list (string * num)) (tname fname entry_name : string)
        (v : num) :
  GraphDataset.target self = Some tname ->
  targets grp = Some tg ->
  assoc tname tg = Some v ->
  (GraphDataset.target_transform self = Some true ->
     (GraphDataset.load_y self grp fname entry_name
      = OK (Some [torch_sigmoid (torch_log (as_float v))])
      <-> GraphDataset.task self = Some targets_REGRESS)
     /\ ((exists msg, GraphDataset.load_y self grp fname entry_name
                      = Raise (ValueError [VStr msg]))
         <-> GraphDataset.task self <> Some targets_REGRESS))
  /\ (GraphDataset.target_transform self <> Some true ->
      GraphDataset.load_y self grp fname entry_name
      = OK (Some [as_float v])).
Proof.
  intros Ht Htg Hv.
  rewrite (load_y_present self grp tg tname fname entry_name v Ht Htg Hv).
  cbv zeta. split.
  - intros ->. simpl is_True. rewrite !andb_true_r.
    destruct (GraphDataset.task self) as [k |].
    + destruct (String.eqb_spec k targets_REGRESS) as [-> | Hne]; simpl.
      * split; split; try reflexivity; try congruence.
        intros (msg & Hmsg). discriminate.
      * split; split; try discriminate; try congruence.
        intros _. eexists. reflexivity.
    + simpl. split; split; try discriminate.
      intros _. eexists. reflexivity.
  - intros Hflag.
    assert (Hf : is_True (GraphDataset.target_transform self) = false).
    { destruct (GraphDataset.target_transform self) as [[|] |];
        try reflexivity. now elim Hflag. }
    rewrite Hf, !andb_false_r. reflexivity.
Qed.

Lemma load_y_missing (self : GraphDataset.t num) (grp : Group num)
      (tg : list (string * num)) (tname fname entry_name : string) :
  GraphDataset.target self = Some tname ->
  targets grp = Some tg ->
  assoc tname tg = None ->
  GraphDataset.load_y self grp fname entry_name
  = Raise (ValueError
             [VStr (missing_target_message tname entry_name fname
                                           (str_keys (keys tg)))]).
Proof.
  intros Ht Htg Hnone. unfold GraphDataset.load_y. rewrite Ht, Htg.
  rewrite (assoc_None_mem _ _ Hnone). reflexivity.
Qed.

(** C7. When the configured target is missing from the entry's target
    group, assembling the sample stops at the target with a
    [ValueError]: nothing after it is read, nothing is logged, and the
    message holds the entry name, the file name and the printed list of
    the target names the entry has. *)
Theorem C7_missing_target_error
        (fs : FileSystem num) (self : GraphDataset.t num)
        (fname entry_name tname : string) (f5 : File num)
        (grp : Group num) (tg : list (string * num))
        (x ei ea : ndarray num) :
  fs fname = Some f5 ->
  assoc entry_name f5 = Some grp ->
  GraphDataset.load_x self grp = OK x ->
  GraphDataset.load_edge_index grp = OK ei ->
  GraphDataset.load_edge_attr self grp ei = OK ea ->
  GraphDataset.target self = Some tname ->
  targets grp = Some tg ->
  assoc tname tg = None ->
  exists msg,
    GraphDataset.load_one_graph fs self fname entry_name
    = ([], Raise (ValueError [VStr msg]))
    /\ contains msg entry_name
    /\ contains msg fname
    /\ contains msg (str_keys (keys tg)).
Proof.
  intros Hfs Hentry Hx Hei Hea Ht Htg Hnone.
  exists (missing_target_message tname entry_name fname
                                           (str_keys (keys tg))).
  split; [| split; [| split]].
  - unfold GraphDataset.load_one_graph, open_file.
    rewrite Hfs, bind_lift_OK. unfold getitem at 1.
    rewrite Hentry, bind_lift_OK, Hx, bind_lift_OK, Hei, bind_lift_OK.
    rewrite Hea, bind_lift_OK.
    rewrite (load_y_missing self grp tg tname fname entry_name Ht Htg Hnone).
    reflexivity.
  - unfold missing_target_message.
    do 2 apply contains_after. apply contains_here.
  - unfold missing_target_message.
    do 4 apply contains_after. apply contains_here.
  - unfold missing_target_message.
    do 6 apply contains_after. apply contains_here.
Qed.
End Target.

Lemma C6_target_transform_guard_witness :
  let self := Sample.graph None None (Some "a") (Some "regress")
                           (Some true) [] in
  (GraphDataset.target_transform self = Some true ->
     (GraphDataset.load_y self (Sample.entry 10) "one.hdf5" "e1"
      = OK (Some [Sample.Sigmoid (Sample.Log (Sample.Float (Sample.Lit 10)))])
      <-> GraphDataset.task self = Some "regress")
     /\ ((exists msg, GraphDataset.load_y self (Sample.entry 10)
                                          "one.hdf5" "e1"
                      = Raise (ValueError [VStr msg]))
         <-> GraphDataset.task self <> Some "regress"))
  /\ (GraphDataset.target_transform self <> Some true ->
      GraphDataset.load_y self (Sample.entry 10) "one.hdf5" "e1"
      = OK (Some [Sample.Float (Sample.Lit 10)])).
Proof.
  exact (C6_target_transform_guard
           (Sample.graph None None (Some "a") (Some "regress") (Some true) [])
           (Sample.entry 10)
           [("a", Sample.Lit 10); ("bin_class", Sample.Lit 1)]
           "a" "one.hdf5" "e1" (Sample.Lit 10)
           eq_refl eq_refl eq_refl).
Defined.

Lemma C7_missing_target_error_witness :
  exists msg,
    GraphDataset.load_one_graph Sample.store
      (Sample.graph None None (Some "zz") (Some "regress") None [])
      "one.hdf5" "e1"
    = ([], Raise (ValueError [VStr msg]))
    /\ contains msg "e1"
    /\ contains msg "one.hdf5"
    /\ contains msg "<KeysViewHDF5 ['a', 'bin_class']>".
Proof.
  exact (C7_missing_target_error Sample.store
           (Sample.graph None None (Some "zz") (Some "regress") None [])
           "one.hdf5" "e1" "zz" _ (Sample.entry 10)
           [("a", Sample.Lit 10); ("bin_class", Sample.Lit 1)] _ _ _
           eq_refl eq_refl eq_refl eq_refl eq_refl eq_refl eq_refl eq_refl).
Defined.

(** ** Access by index *)

Lemma list_getitem_in_range {A} (l : list A) (i : Z) :
  (0 <= i < Z.of_nat (length l))%Z ->
  exists a, nth_error l (Z.to_nat i) = Some a /\ list_getitem l i = OK a.
Proof.
  intros Hi. unfold list_getitem.
  destruct (Z.ltb_spec i 0) as [Hneg | _]; [lia |].
  destruct (Z.leb_spec 0 i) as [_ | Hlt]; [| lia].
  destruct (Z.ltb_spec i (Z.of_nat (length l))) as [_ | Hge]; [| lia].
  simpl. destruct (nth_error l (Z.to_nat i)) as [a |] eqn:E.
  - now exists a.
  - apply nth_error_None in E. lia.
Qed.

Lemma list_getitem_negative {A} (l : list A) (i : Z) :
  (- Z.of_nat (length l) <= i < 0)%Z ->
  exists a, nth_error l (Z.to_nat (i + Z.of_nat (length l))) = Some a
            /\ list_getitem l i = OK a.
Proof.
  intros Hi. unfold list_getitem.
  destruct (Z.ltb_spec i 0) as [_ | Hpos]; [| lia].
  destruct (Z.leb_spec 0 (i + Z.of_nat (length l))) as [_ | Hlt]; [| lia].
  destruct (Z.ltb_spec (i + Z.of_nat (length l)) (Z.of_nat (length l)))
    as [_ | Hge]; [| lia].
  simpl.
  destruct (nth_error l (Z.to_nat (i + Z.of_nat (length l)))) as [a |] eqn:E.
  - now exists a.
  - apply nth_error_None in E. lia.
Qed.

Lemma list_getitem_outside {A} (l : list A) (i : Z) :
  (i < - Z.of_nat (length l) \/ Z.of_nat (length l) <= i)%Z ->
  list_getitem l i = Raise IndexError.
Proof.
  intros Hi. unfold list_getitem.
  destruct (Z.ltb_spec i 0) as [Hneg | Hpos].
  - destruct (Z.leb_spec 0 (i + Z.of_nat (length l))) as [Hle | _];
      [lia | reflexivity].
  - destruct (Z.leb_spec 0 i) as [_ | Hlt]; [| lia].
    destruct (Z.ltb_spec i (Z.of_nat (length l))) as [Hlt | _];
      [lia | reflexivity].
Qed.

(** C9, as the claim states it, fails.  On a graph dataset and on a grid
    dataset with one index entry, [get(-1)] is out of the range
    [0 <= i < length()] and returns the sample of entry 0 instead of failing
    with an index error; and [get(0)], in range, returns no sample when the
    entry lacks the configured target. *)
Lemma C9_counterexample :
  let ix := [("one.hdf5", "e1")] in
  let gself := Sample.graph None None (Some "a") (Some "regress") None ix in
  let dself := Sample.grid None None (Some "a") ix in
  let gself' := Sample.graph None None (Some "zz") (Some "regress") None ix in
  GraphDataset.len gself = 1
  /\ (exists d, result (GraphDataset.get Sample.store gself (-1)) = OK d)
  /\ GridDataset.len dself = 1
  /\ (exists d, result (GridDataset.get Sample.store dself (-1)) = OK d)
  /\ GraphDataset.len gself' = 1
  /\ (exists msg, result (GraphDataset.get Sample.store gself' 0)
                  = Raise (ValueError [VStr msg])).
Proof.
  cbv zeta. repeat split; try (eexists; reflexivity).
Qed.

(** C9, amended.  For both datasets [len] is the number of index entries;
    [get(i)] for [0 <= i < len] is the assembly of entry [i], a sample or
    the error of the assembly; [get(i)] for [-len <= i < 0] is the assembly
    of entry [len + i]; every other index fails with [IndexError]. *)
Theorem C9_get_contract
        {num : Type} `{Torch num} `{Display num} `{Domain}
        (fs : FileSystem num) (gself : GraphDataset.t num)
        (dself : GridDataset.t num) (i : Z) :
  let gn := Z.of_nat (GraphDataset.len gself) in
  let dn := Z.of_nat (GridDataset.len dself) in
  (GraphDataset.len gself = length (GraphDataset.index_entries gself)
   /\ ((0 <= i < gn)%Z ->
       exists fname mol,
         nth_error (GraphDataset.index_entries gself) (Z.to_nat i)
         = Some (fname, mol)
         /\ GraphDataset.get fs gself i
            = GraphDataset.load_one_graph fs gself fname mol)
   /\ ((- gn <= i < 0)%Z ->
       exists fname mol,
         nth_error (GraphDataset.index_entries gself) (Z.to_nat (i + gn))
         = Some (fname, mol)
         /\ GraphDataset.get fs gself i
            = GraphDataset.load_one_graph fs gself fname mol)
   /\ ((i < - gn \/ gn <= i)%Z ->
       GraphDataset.get fs gself i = ([], Raise IndexError)))
  /\
  (GridDataset.len dself = length (GridDataset.index_entries dself)
   /\ ((0 <= i < dn)%Z ->
       exists path name,
         nth_error (GridDataset.index_entries dself) (Z.to_nat i)
         = Some (path, name)
         /\ GridDataset.get fs dself i
            = GridDataset.load_one_entry fs dself path name)
   /\ ((- dn <= i < 0)%Z ->
       exists path name,
         nth_error (GridDataset.index_entries dself) (Z.to_nat (i + dn))
         = Some (path, name)
         /\ GridDataset.get fs dself i
            = GridDataset.load_one_entry fs dself path name)
   /\ ((i < - dn \/ dn <= i)%Z ->
       GridDataset.get fs dself i = ([], Raise IndexError))).
Proof.
  cbv zeta. unfold GraphDataset.len, GridDataset.len.
  split; (split; [reflexivity | split; [| split]]); intros Hi.
  - destruct (list_getitem_in_range _ i Hi) as ([fname mol] & Hnth & Hget).
    exists fname, mol. split; [assumption |].
    unfold GraphDataset.get. now rewrite Hget, bind_lift_OK.
  - destruct (list_getitem_negative _ i Hi) as ([fname mol] & Hnth & Hget).
    exists fname, mol. split; [assumption |].
    unfold GraphDataset.get. now rewrite Hget, bind_lift_OK.
  - unfold GraphDataset.get. now rewrite (list_getitem_outside _ i Hi).
  - destruct (list_getitem_in_range _ i Hi) as ([path name] & Hnth & Hget).
    exists path, name. split; [assumption |].
    unfold GridDataset.get. now rewrite Hget, bind_lift_OK.
  - destruct (list_getitem_negative _ i Hi) as ([path name] & Hnth & Hget).
    exists path, name. split; [assumption |].
    unfold GridDataset.get. now rewrite Hget, bind_lift_OK.
  - unfold GridDataset.get. now rewrite (list_getitem_outside _ i Hi).
Qed.

Lemma C9_get_contract_witness :
  (exists fname mol,
     nth_error [("one.hdf5", "e2"); ("one.hdf5", "e1")] (Z.to_nat 1)
     = Some (fname, mol)
     /\ GraphDataset.get Sample.store
          (Sample.graph None None (Some "a") (Some "regress") None
                        [("one.hdf5", "e2"); ("one.hdf5", "e1")]) 1
        = GraphDataset.load_one_graph Sample.store
            (Sample.graph None None (Some "a") (Some "regress") None
                          [("one.hdf5", "e2"); ("one.hdf5", "e1")])
            fname mol)
  /\ GridDataset.get Sample.store
       (Sample.grid None None (Some "a") [("one.hdf5", "e1")]) 1
     = ([], Raise IndexError).
Proof.
  pose proof (C9_get_contract Sample.store
                (Sample.graph None None (Some "a") (Some "regress") None
                              [("one.hdf5", "e2"); ("one.hdf5", "e1")])
                (Sample.grid None None (Some "a") [("one.hdf5", "e1")]) 1)
    as [(_ & Hin & _ & _) (_ & _ & _ & Hout)].
  split.
  - apply Hin. simpl. lia.
  - apply Hout. simpl. lia.
Defined.

(** ** The index *)

Lemma ordered_part_nil {A} (l : list A) : ordered_part [] l.
Proof. induction l; constructor; assumption. Qed.

Lemma ordered_part_refl {A} (l : list A) : ordered_part l l.
Proof. induction l; constructor; assumption. Qed.

Section Indexing.
Context {num : Type}.
Variable fs : FileSystem num.
Variable filter_entry : Group num -> M bool.
Variable fdata : string.
Variable fh5 : File num.

(** Whatever the filter does, the loop over the names appends entries of
    this file only, for names it was given, in the order given. *)
Lemma scan_entries_ordered (names : list string)
      (acc : list (string * string)) :
  exists l kept e,
    scan_entries filter_entry fdata fh5 names acc
    = (l, acc ++ entries_of fdata kept, e)
    /\ ordered_part kept names.
Proof.
  revert acc. induction names as [| k names IH]; intros acc;
    cbn [scan_entries].
  - exists [], [], None. split; [now rewrite app_nil_r | constructor].
  - destruct (g <- lift (getitem k fh5);; filter_entry g) as [l [keep | e]].
    + destruct keep.
      * destruct (IH (acc ++ [(fdata, k)]))
          as (l' & kept & e' & Hscan & Hpart).
        rewrite Hscan. exists (l ++ l'), (k :: kept), e'. split.
        -- unfold entries_of. simpl. now rewrite <- app_assoc.
        -- now constructor.
      * destruct (IH acc) as (l' & kept & e' & Hscan & Hpart).
        rewrite Hscan. exists (l ++ l'), kept, e'.
        split; [reflexivity | now constructor].
    + exists l, [], (Some e). split.
      * unfold entries_of. simpl. now rewrite app_nil_r.
      * apply ordered_part_nil.
Qed.

(** When the filter raises on no entry, the loop ends without an
    exception and appends exactly the entries the filter keeps. *)
Lemma scan_entries_total (names : list string)
      (acc : list (string * string)) :
  (forall g, exists l b, filter_entry g = (l, OK b)) ->
  (forall k, In k names -> mem k (keys fh5) = true) ->
  exists l,
    scan_entries filter_entry fdata fh5 names acc
    = (l, acc ++ entries_of fdata (filter (keeps filter_entry fh5) names), None).
Proof.
  intros Hfilt. revert acc.
  induction names as [| k names IH]; intros acc Hin;
    cbn [scan_entries filter].
  - exists []. now rewrite app_nil_r.
  - assert (Hk : mem k (keys fh5) = true) by (apply Hin; now left).
    apply assoc_mem in Hk. destruct Hk as (g & Hg).
    unfold getitem, keeps at 1. rewrite Hg, bind_lift_OK.
    destruct (Hfilt g) as (l & b & Hb). rewrite Hb. cbn [result snd].
    assert (Hrest : forall k', In k' names -> mem k' (keys fh5) = true)
      by (intros k' Hk'; apply Hin; now right).
    destruct b.
    + destruct (IH (acc ++ [(fdata, k)]) Hrest) as (l' & Hscan).
      rewrite Hscan. exists (l ++ l').
      unfold entries_of. simpl. now rewrite <- app_assoc.
    + destruct (IH acc Hrest) as (l' & Hscan).
      rewrite Hscan. now exists (l ++ l').
Qed.

(** Without a filter, nothing is logged either. *)
Lemma scan_entries_unfiltered (names : list string)
      (acc : list (string * string)) :
  (forall g, filter_entry g = ret true) ->
  (forall k, In k names -> mem k (keys fh5) = true) ->
  scan_entries filter_entry fdata fh5 names acc
  = ([], acc ++ entries_of fdata names, None).
Proof.
  intros Hfilt. revert acc.
  induction names as [| k names IH]; intros acc Hin; cbn [scan_entries].
  - now rewrite app_nil_r.
  - assert (Hk : mem k (keys fh5) = true) by (apply Hin; now left).
    apply assoc_mem in Hk. destruct Hk as (g & Hg).
    unfold getitem. rewrite Hg, bind_lift_OK, Hfilt. unfold ret.
    rewrite IH by (intros k' Hk'; apply Hin; now right).
    unfold entries_of. simpl. now rewrite <- app_assoc.
Qed.

Lemma subset_names_present (ids : list string) (k : string) :
  In k (filter (fun i => mem i (keys fh5)) ids) -> mem k (keys fh5) = true.
Proof. intros Hin. apply filter_In in Hin. tauto. Qed.

(** C10. With a subset [ids], the entries a store file contributes to the
    index are entries of that file for ids of the subset that the file
    has, in the order of the subset; they are all the ids the filter
    keeps when the filter raises on none, and all the ids of the subset
    that the file has, with nothing logged, when there is no filter.  The
    ids the file lacks are passed over. *)
Theorem C10_subset_order (ids : list string) (acc : list (string * string)) :
  fs fdata = Some fh5 ->
  let present := filter (fun i => mem i (keys fh5)) ids in
  (exists l kept,
     scan_file fs (Some ids) filter_entry fdata acc
     = (l, acc ++ entries_of fdata kept)
     /\ ordered_part kept present)
  /\ ((forall g, exists l b, filter_entry g = (l, OK b)) ->
      exists l,
        scan_file fs (Some ids) filter_entry fdata acc
        = (l, acc ++ entries_of fdata (filter (keeps filter_entry fh5) present)))
  /\ ((forall g, filter_entry g = ret true) ->
      scan_file fs (Some ids) filter_entry fdata acc
      = ([], acc ++ entries_of fdata present)).
Proof.
  intros Hfs present. unfold scan_file, open_file. rewrite Hfs.
  unfold entry_names. fold present. split; [| split].
  - destruct (scan_entries_ordered present acc)
      as (l & kept & e & Hscan & Hpart).
    rewrite Hscan. destruct e; eauto.
  - intros Hfilt.
    destruct (scan_entries_total present acc Hfilt (subset_names_present ids))
      as (l & Hscan).
    rewrite Hscan. eauto.
  - intros Hfilt.
    now rewrite (scan_entries_unfiltered present acc Hfilt
                   (subset_names_present ids)).
Qed.
End Indexing.

Lemma C10_subset_order_witness :
  scan_file Sample.store (Some ["e3"; "zz"; "e1"]) (fun _ => ret true)
            "one.hdf5" []
  = ([], [("one.hdf5", "e3"); ("one.hdf5", "e1")]).
Proof.
  exact (proj2 (proj2
    (C10_subset_order Sample.store (fun _ => ret true) "one.hdf5"
       [("e1", Sample.entry 10); ("e2", Sample.entry 20);
        ("e3", Sample.entry 30)]
       ["e3"; "zz"; "e1"] [] eq_refl))
    (fun _ => eq_refl)).
Defined.

(** Without a target filter, the whole index under a subset. *)
Section WholeIndex.
Context {num : Type} `{Torch num} `{Display num} `{Domain}.
Variable fs : FileSystem num.
Variable ids : list string.

Lemma scan_files_unfiltered (filter_entry : Group num -> M bool)
      (paths : list string) (acc : list (string * string)) :
  (forall g, filter_entry g = ret true) ->
  snd (scan_files fs (Some ids) filter_entry paths acc)
  = acc ++ flat_map (subset_entries fs ids) paths.
Proof.
  intros Hfilt. revert acc.
  induction paths as [| p paths IH]; intros acc; cbn [scan_files flat_map].
  - now rewrite app_nil_r.
  - unfold subset_entries at 1.
    destruct (fs p) as [fh5 |] eqn:Hp.
    + unfold scan_file, open_file, entry_names. rewrite Hp.
      rewrite (scan_entries_unfiltered filter_entry p fh5 _ acc Hfilt
                 (subset_names_present fh5 ids)).
      specialize (IH (acc ++ entries_of p (filter (fun i => mem i (keys fh5)) ids))).
      destruct (scan_files fs (Some ids) filter_entry paths _) as [l' final].
      simpl in *. rewrite IH. unfold entries_of. now rewrite <- app_assoc.
    + unfold scan_file, open_file. rewrite Hp.
      specialize (IH acc).
      destruct (scan_files fs (Some ids) filter_entry paths acc) as [l' final].
      simpl in *. now rewrite IH.
Qed.

Lemma result_create_index_entries (filter_entry : Group num -> M bool)
      (sub : option (list string)) (paths : list string) (tq : bool) :
  result (create_index_entries fs sub filter_entry paths tq)
  = OK (snd (scan_files fs sub filter_entry paths [])).
Proof.
  unfold create_index_entries.
  rewrite result_bind_emit.
  destruct tq.
  - rewrite bind_ret. now destruct (scan_files fs sub filter_entry paths []).
  - rewrite result_bind_emit.
    now destruct (scan_files fs sub filter_entry paths []).
Qed.

(** Both datasets, with a subset and no target filter: the index lists,
    file after file, the ids of the subset that the file has, in the order
    of the subset. *)
Lemma graph_index_under_subset (self : GraphDataset.t num) :
  GraphDataset.subset self = Some ids ->
  GraphDataset.target_filter self = None ->
  result (GraphDataset._create_index_entries fs self)
  = OK (GraphDataset.set_index_entries self
          (flat_map (subset_entries fs ids) (GraphDataset.hdf5_path self))).
Proof.
  intros Hsub Hfilt. unfold GraphDataset._create_index_entries.
  destruct (create_index_entries fs (GraphDataset.subset self)
              (GraphDataset._filter self) (GraphDataset.hdf5_path self)
              (GraphDataset.tqdm self)) as [l r] eqn:E.
  pose proof (result_create_index_entries (GraphDataset._filter self)
                (GraphDataset.subset self) (GraphDataset.hdf5_path self)
                (GraphDataset.tqdm self)) as R.
  rewrite E in R. simpl in R. subst r. simpl.
  rewrite Hsub, scan_files_unfiltered; [reflexivity |].
  intros g. unfold GraphDataset._filter. now rewrite Hfilt.
Qed.

Lemma grid_index_under_subset (self : GridDataset.t num) :
  GridDataset.subset self = Some ids ->
  GridDataset.target_filter self = None ->
  result (GridDataset._create_index_entries fs self)
  = OK (GridDataset.set_index_entries self
          (flat_map (subset_entries fs ids) (GridDataset.hdf5_paths self))).
Proof.
  intros Hsub Hfilt. unfold GridDataset._create_index_entries.
  destruct (create_index_entries fs (GridDataset.subset self)
              (GridDataset._filter_targets self) (GridDataset.hdf5_paths self)
              (GridDataset.tqdm self)) as [l r] eqn:E.
  pose proof (result_create_index_entries (GridDataset._filter_targets self)
                (GridDataset.subset self) (GridDataset.hdf5_paths self)
                (GridDataset.tqdm self)) as R.
  rewrite E in R. simpl in R. subst r. simpl.
  rewrite Hsub, scan_files_unfiltered; [reflexivity |].
  intros g. unfold GridDataset._filter_targets. now rewrite Hfilt.
Qed.
End WholeIndex.

(** The subset order, not the key order of the file: the file lists [e1]
    before [e3]. *)
Example index_follows_subset_order :
  result (GraphDataset._create_index_entries Sample.store
            (Sample.graph None (Some ["e3"; "zz"; "e1"]) None None None []))
  = OK (Sample.graph None (Some ["e3"; "zz"; "e1"]) None None None
          [("one.hdf5", "e3"); ("one.hdf5", "e1")]).
Proof. reflexivity. Qed.

(** ** Feature matrices *)

Section Arrays.
Context {A : Type}.

Lemma as_columns_ndim (a : ndarray A) : ndim (as_columns a) = 2.
Proof. destruct a; reflexivity. Qed.

Lemma as_columns_width (a : ndarray A) :
  native_width (as_columns a) = native_width a.
Proof. destruct a; reflexivity. Qed.

Lemma as_columns_shape0 (a : ndarray A) : shape0 (as_columns a) = shape0 a.
Proof. destruct a as [v | w rows]; simpl; [apply length_map | reflexivity]. Qed.

Lemma as_columns_row (k : nat) (a : ndarray A) :
  feature_row k (as_columns a) = feature_row k a.
Proof.
  destruct a as [v | w rows]; [| reflexivity].
  simpl. revert k. induction v as [| x v IH]; intros [| k]; simpl; auto.
Qed.

Lemma zip_rows_length (r1 r2 : list (list A)) :
  length r2 = length r1 -> length (zip_rows r1 r2) = length r1.
Proof.
  revert r2. induction r1 as [| a r1 IH]; intros [| b r2]; simpl;
    try discriminate; auto.
Qed.

Lemma zip_rows_nth (r1 r2 : list (list A)) (k : nat) (a : list A) :
  length r2 = length r1 ->
  nth_error r1 k = Some a ->
  nth_error (zip_rows r1 r2) k = Some (a ++ nth k r2 []).
Proof.
  revert r2 k. induction r1 as [| x r1 IH]; intros [| y r2] [| k]; simpl;
    try discriminate.
  - intros _ [= ->]. reflexivity.
  - intros [= Hlen] Hk. now apply IH.
Qed.

(** What the concatenation along the second axis returns when it
    returns: the widths add up, the number of rows stays, and row [k] is
    row [k] of the arrays one after the other. *)
Lemma concatenate_axis1_spec (arrs : list (ndarray A)) :
  forall (w : nat) (acc : list (list A)) (out : ndarray A),
    concatenate_axis1 w acc arrs = OK out ->
    exists rows,
      out = Arr2 (w + list_sum (map native_width arrs)) rows
      /\ length rows = length acc
      /\ Forall (fun a => shape0 a = length acc) arrs
      /\ forall k r, nth_error acc k = Some r ->
           nth_error rows k = Some (r ++ flat_map (feature_row k) arrs).
Proof.
  induction arrs as [| a arrs IH]; intros w acc out; simpl.
  - intros [= <-]. exists acc. rewrite Nat.add_0_r.
    repeat split; auto. intros k r ->. now rewrite app_nil_r.
  - destruct a as [v | w' rows']; [discriminate |].
    destruct (Nat.eqb_spec (length rows') (length acc)) as [Hlen | Hne];
      [| discriminate].
    intros Hout. apply IH in Hout.
    destruct Hout as (rows & -> & Hrows & Hall & Hnth).
    rewrite zip_rows_length in Hrows, Hall by assumption.
    exists rows. repeat split.
    + f_equal. simpl. lia.
    + assumption.
    + constructor; assumption.
    + intros k r Hk. rewrite (Hnth k (r ++ nth k rows' [])).
      * simpl. now rewrite <- app_assoc.
      * now apply zip_rows_nth.
Qed.

(** [np.hstack] on two-dimensional arrays. *)
Lemma hstack_spec (arrs : list (ndarray A)) (out : ndarray A) :
  Forall (fun a => ndim a = 2) arrs ->
  hstack arrs = OK out ->
  exists rows,
    out = Arr2 (list_sum (map native_width arrs)) rows
    /\ Forall (fun a => shape0 a = length rows) arrs
    /\ forall k, k < length rows ->
         nth_error rows k = Some (flat_map (feature_row k) arrs).
Proof.
  intros Hdim Hout. destruct arrs as [| [v | w rows0] arrs];
    try discriminate.
  - inversion Hdim as [| ? ? Hd _]. discriminate.
  - simpl in Hout. apply concatenate_axis1_spec in Hout.
    destruct Hout as (rows & -> & Hlen & Hall & Hnth).
    exists rows. rewrite Hlen. repeat split.
    + constructor; [reflexivity | assumption].
    + intros k Hk.
      destruct (nth_error rows0 k) as [r |] eqn:E.
      * rewrite (Hnth k r E). simpl. f_equal. f_equal.
        symmetry. now apply nth_error_nth.
      * apply nth_error_None in E. lia.
Qed.
End Arrays.

Section Features.
Context {num : Type} `{Torch num} `{Display num} `{Domain}.

(** What the loop over the feature names returns when it returns: the
    stored arrays of the requested features, in the order of the
    specification, put into columns. *)
Lemma read_features_spec (g : option (list (string * ndarray num)))
      (feats : list string) :
  forall data out,
    GraphDataset.read_features g feats data = OK out ->
    exists arrs,
      out = data ++ map as_columns arrs
      /\ Forall2 (fun f a => exists grp, g = Some grp /\ assoc f grp = Some a)
                 (requested feats) arrs.
Proof.
  induction feats as [| feat feats IH]; intros data out; simpl.
  - intros [= <-]. exists []. split; [now rewrite app_nil_r | constructor].
  - destruct feat as [| c feat']; [discriminate |].
    simpl. unfold requested. simpl.
    destruct (Ascii.eqb c "_"); simpl.
    + apply IH.
    + destruct g as [grp |]; [| discriminate]. simpl.
      unfold getitem.
      destruct (assoc (String c feat') grp) as [vals |] eqn:E;
        [| discriminate].
      simpl. intros Hout. apply IH in Hout.
      destruct Hout as (arrs & -> & Hall).
      exists (vals :: arrs). split.
      * rewrite <- app_assoc. reflexivity.
      * constructor; [now exists grp | assumption].
Qed.

Lemma Forall_as_columns_ndim (arrs : list (ndarray num)) :
  Forall (fun a => ndim a = 2) (map as_columns arrs).
Proof.
  induction arrs; constructor; [apply as_columns_ndim | assumption].
Qed.

(** The stacked features, before the conversion to a tensor. *)
Lemma stacked_features_spec (g : option (list (string * ndarray num)))
      (feats : list string) (data : list (ndarray num))
      (out : ndarray num) :
  GraphDataset.read_features g feats [] = OK data ->
  hstack data = OK out ->
  exists grp arrs rows,
    g = Some grp
    /\ arrs <> []
    /\ Forall2 (fun f a => assoc f grp = Some a) (requested feats) arrs
    /\ out = Arr2 (list_sum (map native_width arrs)) rows
    /\ Forall (fun a => shape0 a = length rows) arrs
    /\ forall k, k < length rows ->
         nth_error rows k = Some (flat_map (feature_row k) arrs).
Proof.
  intros Hread Hstack.
  apply read_features_spec in Hread. destruct Hread as (arrs & -> & Hall).
  simpl in Hstack.
  destruct arrs as [| a arrs]; [discriminate |].
  apply hstack_spec in Hstack; [| apply Forall_as_columns_ndim].
  destruct Hstack as (rows & -> & Hshape & Hnth).
  destruct g as [grp |].
  2: { inversion Hall as [| f a' fs' arrs' (grp & Hg & _)]. discriminate. }
  exists grp, (a :: arrs), rows. split; [reflexivity |].
  split; [discriminate |].
  split; [| split; [| split]].
  - eapply Forall2_impl; [| exact Hall].
    intros f a0 (grp' & Hg' & Ha'). congruence.
  - f_equal. rewrite map_map. f_equal. apply map_ext.
    intros a0. apply as_columns_width.
  - rewrite Forall_map in Hshape.
    eapply Forall_impl; [| exact Hshape].
    intros a0. simpl. now rewrite as_columns_shape0.
  - intros k Hk. rewrite (Hnth k Hk). f_equal.
    rewrite flat_map_concat_map, map_map, <- flat_map_concat_map.
    apply flat_map_ext. intros a0. apply as_columns_row.
Qed.

(** C8. Whenever the node features of a sample are assembled, the node
    matrix has as many columns as the native widths of the requested
    features add up to (1 for a stored one-dimensional array, [k] for a
    two-dimensional array of width [k]); row [k] holds the values of node
    [k] feature after feature in the order of the specification; and the
    number of rows is the number of nodes the features are stored for. *)
Theorem C8_node_matrix_width (self : GraphDataset.t num) (grp : Group num)
        (xm : ndarray num) :
  GraphDataset.load_x self grp = OK xm ->
  exists stored arrs rows,
    nodes grp = Some stored
    /\ Forall2 (fun f a => assoc f stored = Some a)
               (requested (GraphDataset.node_features self)) arrs
    /\ xm = Arr2 (list_sum (map native_width arrs)) rows
    /\ Forall (fun a => shape0 a = length rows) arrs
    /\ forall k, k < length rows ->
         nth_error rows k
         = Some (map as_float (flat_map (feature_row k) arrs)).
Proof.
  unfold GraphDataset.load_x. intros Hx.
  destruct (GraphDataset.read_features (nodes grp)
              (GraphDataset.node_features self) []) as [data | e] eqn:Hread;
    [| discriminate].
  simpl in Hx. destruct (hstack data) as [out | e] eqn:Hstack;
    [| discriminate].
  simpl in Hx. injection Hx as <-.
  destruct (stacked_features_spec _ _ _ _ Hread Hstack)
    as (stored & arrs & rows & Hg & _ & Hall & -> & Hshape & Hnth).
  exists stored, arrs, (map (map as_float) rows).
  rewrite length_map. repeat split; auto.
  intros k Hk. rewrite nth_error_map, (Hnth k Hk). reflexivity.
Qed.
End Features.

Lemma C8_node_matrix_width_witness :
  exists stored arrs rows,
    nodes (Sample.entry 10) = Some stored
    /\ Forall2 (fun f a => assoc f stored = Some a)
               (requested ["bsa"; "_position"; "pssm"]) arrs
    /\ Arr2 3 [[Sample.Float (Sample.Lit 5); Sample.Float (Sample.Lit 1);
                Sample.Float (Sample.Lit 2)];
               [Sample.Float (Sample.Lit 6); Sample.Float (Sample.Lit 3);
                Sample.Float (Sample.Lit 4)];
               [Sample.Float (Sample.Lit 7); Sample.Float (Sample.Lit 5);
                Sample.Float (Sample.Lit 6)]]
       = Arr2 (list_sum (map native_width arrs)) rows
    /\ Forall (fun a => shape0 a = length rows) arrs
    /\ forall k, k < length rows ->
         nth_error rows k
         = Some (map Sample.Float (flat_map (feature_row k) arrs)).
Proof.
  exact (C8_node_matrix_width
           (Sample.graph None None (Some "a") (Some "regress") None [])
           (Sample.entry 10) _ eq_refl).
Defined.

(** ** Edges in both directions *)

Section Edges.
Context {num : Type} `{Torch num} `{Display num} `{Domain}.










End Edges.


(** The edge tensors the sample store gives under the transform of the
    sample dataset: four index columns, four attribute rows. *)
Example load_edge_attr_sample :
  GraphDataset.load_edge_index (Sample.entry 10)
  = OK (Arr2 4 [[Sample.Long (Sample.Lit 0); Sample.Long (Sample.Lit 1);
                 Sample.Long (Sample.Lit 1); Sample.Long (Sample.Lit 2)];
                [Sample.Long (Sample.Lit 1); Sample.Long (Sample.Lit 2);
                 Sample.Long (Sample.Lit 0); Sample.Long (Sample.Lit 1)]])
  /\ GraphDataset.load_edge_attr
       (Sample.graph None None (Some "a") (Some "regress") None [])
       (Sample.entry 10)
       (Arr2 4 [[Sample.Long (Sample.Lit 0); Sample.Long (Sample.Lit 1);
                 Sample.Long (Sample.Lit 1); Sample.Long (Sample.Lit 2)];
                [Sample.Long (Sample.Lit 1); Sample.Long (Sample.Lit 2);
                 Sample.Long (Sample.Lit 0); Sample.Long (Sample.Lit 1)]])
     = OK (Arr2 1 [[Sample.Float (Sample.Sigmoid (Sample.Lit 3))];
                   [Sample.Float (Sample.Sigmoid (Sample.Lit 4))];
                   [Sample.Float (Sample.Sigmoid (Sample.Lit 3))];
                   [Sample.Float (Sample.Sigmoid (Sample.Lit 4))]]).
Proof. split; reflexivity. Qed.


(** Dropping a row is no element-wise transform. *)
Lemma drop_last_row_not_elementwise :
  ~ elementwise (@drop_last_row Sample.sym).
Proof.
  intros (f & Hf). specialize (Hf (Arr1 [Sample.Lit 0])). discriminate.
Qed.

(** The sample of the first entry of the store, whole. *)
Example load_one_graph_sample :
  result (GraphDataset.load_one_graph Sample.store
            (Sample.graph None None (Some "a") (Some "regress")
                          (Some true) [])
            "one.hdf5" "e1")
  = OK {| GraphDataset.x :=
            Arr2 3 [[Sample.Float (Sample.Lit 5); Sample.Float (Sample.Lit 1);
                     Sample.Float (Sample.Lit 2)];
                    [Sample.Float (Sample.Lit 6); Sample.Float (Sample.Lit 3);
                     Sample.Float (Sample.Lit 4)];
                    [Sample.Float (Sample.Lit 7); Sample.Float (Sample.Lit 5);
                     Sample.Float (Sample.Lit 6)]];
          GraphDataset.edge_index :=
            Arr2 4 [[Sample.Long (Sample.Lit 0); Sample.Long (Sample.Lit 1);
                     Sample.Long (Sample.Lit 1); Sample.Long (Sample.Lit 2)];
                    [Sample.Long (Sample.Lit 1); Sample.Long (Sample.Lit 2);
                     Sample.Long (Sample.Lit 0); Sample.Long (Sample.Lit 1)]];
          GraphDataset.edge_attr :=
            Arr2 1 [[Sample.Float (Sample.Sigmoid (Sample.Lit 3))];
                    [Sample.Float (Sample.Sigmoid (Sample.Lit 4))];
                    [Sample.Float (Sample.Sigmoid (Sample.Lit 3))];
                    [Sample.Float (Sample.Sigmoid (Sample.Lit 4))]];
          GraphDataset.y :=
            Some [Sample.Sigmoid (Sample.Log (Sample.Float (Sample.Lit 10)))];
          GraphDataset.pos :=
            Arr2 3 [[Sample.Float (Sample.Lit 0); Sample.Float (Sample.Lit 0);
                     Sample.Float (Sample.Lit 0)];
                    [Sample.Float (Sample.Lit 1); Sample.Float (Sample.Lit 0);
                     Sample.Float (Sample.Lit 0)];
                    [Sample.Float (Sample.Lit 2); Sample.Float (Sample.Lit 0);
                     Sample.Float (Sample.Lit 0)]];
          GraphDataset.cluster0 := None;
          GraphDataset.cluster1 := None;
          GraphDataset.entry_names := ["e1"] |}.
Proof. reflexivity. Qed.

(** * Further properties of the code *)

(** ** The integrity check, once more *)

Section IntegrityMore.
Context {num : Type} `{Torch num} `{Display num} `{Domain}.
Variable fs : FileSystem num.

Lemma filter_negb_rejected_idem (paths : list string) :
  filter (fun p => negb (rejected fs p))
         (filter (fun p => negb (rejected fs p)) paths)
  = filter (fun p => negb (rejected fs p)) paths.
Proof.
  induction paths as [| p paths IH]; simpl; [reflexivity |].
  destruct (rejected fs p) eqn:E; simpl; [assumption |].
  now rewrite E, IH.
Qed.

Lemma integrity_log_accepted (paths : list string) :
  (forall p, In p paths -> rejected fs p = false) ->
  flat_map (integrity_log fs) paths = [].
Proof.
  induction paths as [| p paths IH]; intros Hok; simpl; [reflexivity |].
  rewrite IH by (intros q Hq; apply Hok; now right).
  specialize (Hok p (or_introl eq_refl)).
  unfold rejected in Hok. unfold integrity_log.
  destruct (fs p) as [[| e f] |]; try discriminate. reflexivity.
Qed.

(** X1. The integrity check of the graph dataset never raises.  The files
    it leaves are exactly the given files that open and hold an entry, in
    their order and as often as given, and no other attribute changes.
    Its log is the opening line followed, file after file in the order
    given, by nothing for a file it keeps, by one INFO record for a file
    that opens and holds no entry, and by two records for a file that does
    not open: the exception at level ERROR, then an INFO record. *)
Theorem graph_check_keeps_accepted_files (self : GraphDataset.t num) :
  exists self',
    GraphDataset._check_hdf5_files fs self
    = ((INFO, Text (nl ++ "Checking dataset Integrity...")%string)
         :: flat_map (integrity_log fs) (GraphDataset.hdf5_path self),
       OK self')
    /\ GraphDataset.hdf5_path self'
       = filter (fun p => negb (rejected fs p)) (GraphDataset.hdf5_path self)
    /\ (forall p, In p (GraphDataset.hdf5_path self') <->
                  In p (GraphDataset.hdf5_path self)
                  /\ exists e f, fs p = Some (e :: f))
    /\ self' = GraphDataset.set_hdf5_path self (GraphDataset.hdf5_path self')
    /\ (forall p,
          match fs p with
          | Some (_ :: _) => integrity_log fs p = []
          | Some [] =>
              integrity_log fs p
              = [(INFO, Text ("    -> " ++ p ++ " is empty ")%string)]
          | None =>
              integrity_log fs p
              = [(ERROR, OfExn OSError);
                 (INFO, Text ("    -> " ++ p ++ " is corrupted ")%string)]
          end).
Proof.
  rewrite graph_check_hdf5_files. eexists. split; [reflexivity |].
  split; [reflexivity |]. split; [| split; [reflexivity |]].
  - intros p. simpl. rewrite filter_In. unfold rejected.
    split; intros [Hin Hp]; split; try assumption.
    + destruct (fs p) as [[| e f] |]; try discriminate. eauto.
    + destruct Hp as (e & f & ->). reflexivity.
  - intros p. unfold integrity_log.
    destruct (fs p) as [[| e f] |]; reflexivity.
Qed.

(** X2. Checking twice is checking once: on the dataset the check
    returns, the check returns the same dataset and logs its opening
    line only. *)
Theorem graph_check_idempotent (self self' : GraphDataset.t num) :
  result (GraphDataset._check_hdf5_files fs self) = OK self' ->
  GraphDataset._check_hdf5_files fs self'
  = ([(INFO, Text (nl ++ "Checking dataset Integrity...")%string)], OK self').
Proof.
  rewrite graph_check_hdf5_files. simpl. intros [= <-].
  rewrite graph_check_hdf5_files. simpl.
  rewrite filter_negb_rejected_idem, integrity_log_accepted.
  - reflexivity.
  - intros p Hp. apply filter_In in Hp. destruct Hp as [_ Hp].
    now destruct (rejected fs p).
Qed.

Lemma filter_rejected_none (paths : list string) :
  (forall p, In p paths -> rejected fs p = false) ->
  filter (rejected fs) paths = [].
Proof.
  induction paths as [| p paths IH]; intros Hok; simpl; [reflexivity |].
  rewrite (Hok p (or_introl eq_refl)).
  apply IH. intros q Hq. apply Hok. now right.
Qed.

Lemma grid_check_unchanged (self : GridDataset.t num) :
  (forall p, In p (GridDataset.hdf5_paths self) -> rejected fs p = false) ->
  GridDataset._check_hdf5_files fs self
  = ([(INFO, Text (nl ++ "Checking dataset Integrity...")%string)],
     OK (GridDataset.set_hdf5_paths self (GridDataset.hdf5_paths self))).
Proof.
  intros Hok. unfold GridDataset._check_hdf5_files.
  rewrite integrity_scan_spec, (filter_rejected_none _ Hok),
    (integrity_log_accepted _ Hok).
  reflexivity.
Qed.

(** X3. The integrity check of the grid dataset returns exactly when
    every file opens and holds an entry; it then returns the dataset with
    its files as they were and logs its opening line only.  (With a file
    to drop it raises, which is C2.) *)
Theorem grid_check_passes_iff_all_accepted (self : GridDataset.t num) :
  ((exists self', result (GridDataset._check_hdf5_files fs self) = OK self')
   <-> (forall p, In p (GridDataset.hdf5_paths self) ->
                  rejected fs p = false))
  /\ (forall self',
        result (GridDataset._check_hdf5_files fs self) = OK self' ->
        GridDataset._check_hdf5_files fs self
        = ([(INFO, Text (nl ++ "Checking dataset Integrity...")%string)],
           OK self')
        /\ GridDataset.hdf5_paths self' = GridDataset.hdf5_paths self).
Proof.
  assert (Hiff :
    (exists self', result (GridDataset._check_hdf5_files fs self) = OK self')
    <-> (forall p, In p (GridDataset.hdf5_paths self) ->
                   rejected fs p = false)).
  { unfold GridDataset._check_hdf5_files.
    rewrite result_bind_emit, integrity_scan_spec. simpl. split.
    - intros (self' & Hres) p Hin.
      destruct (rejected fs p) eqn:E; [| reflexivity].
      destruct (filter_rejected_nonempty fs p _ Hin E) as (q & rest & Hq).
      rewrite Hq in Hres. discriminate.
    - intros Hok. rewrite (filter_rejected_none _ Hok). simpl. eauto. }
  split; [exact Hiff |].
  intros self' Hres.
  assert (Hok : forall p, In p (GridDataset.hdf5_paths self) ->
                          rejected fs p = false)
    by (apply Hiff; eauto).
  rewrite (grid_check_unchanged self Hok) in *.
  simpl in Hres. injection Hres as <-. split; reflexivity.
Qed.
End IntegrityMore.

Lemma graph_check_idempotent_witness :
  GraphDataset._check_hdf5_files Sample.store
    (More.graph_on ["one.hdf5"] None None ["bsa"] [])
  = ([(INFO, Text (nl ++ "Checking dataset Integrity...")%string)],
     OK (More.graph_on ["one.hdf5"] None None ["bsa"] [])).
Proof.
  exact (graph_check_idempotent Sample.store
           (More.graph_on ["empty.hdf5"; "one.hdf5"; "missing.hdf5"]
                          None None ["bsa"] [])
           (More.graph_on ["one.hdf5"] None None ["bsa"] [])
           eq_refl).
Defined.

(** ** Task and classes *)

Lemma py_eqb_refl (a : pyobj) : py_eqb a a = true.
Proof.
  unfold py_eqb. destruct a; simpl;
    try (apply Qeq_bool_iff; reflexivity); try reflexivity.
  apply String.eqb_refl.
Qed.

Lemma py_eqb_sym (a b : pyobj) : py_eqb a b = py_eqb b a.
Proof.
  unfold py_eqb.
  destruct (number_of a) as [x |] eqn:Ea, (number_of b) as [y |] eqn:Eb;
    try reflexivity.
  - destruct (Qeq_bool x y) eqn:E1, (Qeq_bool y x) eqn:E2; try reflexivity.
    + apply Qeq_bool_iff in E1. symmetry in E1. apply Qeq_bool_iff in E1.
      congruence.
    + apply Qeq_bool_iff in E2. symmetry in E2. apply Qeq_bool_iff in E2.
      congruence.
  - destruct a, b; try reflexivity; try discriminate.
    apply String.eqb_sym.
Qed.

Lemma py_eqb_trans (a b c : pyobj) :
  py_eqb a b = true -> py_eqb b c = true -> py_eqb a c = true.
Proof.
  unfold py_eqb.
  destruct (number_of a) as [x |] eqn:Ea, (number_of b) as [y |] eqn:Eb,
           (number_of c) as [z |] eqn:Ec; try discriminate.
  - rewrite !Qeq_bool_iff. intros Hxy Hyz. now rewrite Hxy.
  - destruct a, b, c; try discriminate; try reflexivity.
    rewrite !String.eqb_eq. congruence.
Qed.

Lemma py_eqb_false_left (a b c : pyobj) :
  py_eqb a b = true -> py_eqb c a = false -> py_eqb c b = false.
Proof.
  intros Hab Hca. destruct (py_eqb c b) eqn:E; [| reflexivity].
  rewrite py_eqb_sym in Hab.
  now rewrite (py_eqb_trans c b a E Hab) in Hca.
Qed.

(** Reading a dict after a store: the stored value under every key equal
    to the one stored, the old value under the others. *)
Lemma dict_get_set {V} (k k' : pyobj) (v : V) (d : list (pyobj * V)) :
  dict_get k (dict_set k' v d)
  = if py_eqb k k' then Some v else dict_get k d.
Proof.
  induction d as [| [k0 v0] d IH]; simpl.
  - reflexivity.
  - destruct (py_eqb k' k0) eqn:E0; simpl.
    + destruct (py_eqb k k') eqn:E1.
      * now rewrite (py_eqb_trans k k' k0 E1 E0).
      * rewrite py_eqb_sym in E0.
        assert (E2 : py_eqb k k0 = false).
        { destruct (py_eqb k k0) eqn:E2; [| reflexivity].
          now rewrite (py_eqb_trans k k0 k' E2 E0) in E1. }
        now rewrite E2.
    + rewrite IH. destruct (py_eqb k k0) eqn:E2; [| reflexivity].
      destruct (py_eqb k k') eqn:E1; [| reflexivity].
      rewrite py_eqb_sym in E1.
      now rewrite (py_eqb_trans k' k k0 E1 E2) in E0.
Qed.

Lemma enumerate_into_get (c : pyobj) (classes : list pyobj) :
  forall (start : nat) (d : list (pyobj * nat)),
    dict_get c (enumerate_into start classes d)
    = match last_position c classes with
      | Some i => Some (start + i)
      | None => dict_get c d
      end.
Proof.
  induction classes as [| x classes IH]; intros start d; simpl.
  - reflexivity.
  - rewrite IH, dict_get_set.
    destruct (last_position c classes) as [i |].
    + f_equal. lia.
    + destruct (py_eqb c x); [f_equal; lia | reflexivity].
Qed.

Lemma last_position_nth (c : pyobj) (classes : list pyobj) (i : nat) :
  nth_error classes i = Some c ->
  (forall j c', i < j -> nth_error classes j = Some c' ->
                py_eqb c c' = false) ->
  last_position c classes = Some i.
Proof.
  revert i. induction classes as [| x classes IH]; intros [| i] Hi Hlater;
    simpl in *; try discriminate.
  - injection Hi as ->.
    assert (Hnone : last_position c classes = None).
    { clear IH.
      assert (G : forall l, (forall j c', nth_error l j = Some c' ->
                                          py_eqb c c' = false) ->
                            last_position c l = None).
      { induction l as [| y l IHl]; intros Hall; simpl; [reflexivity |].
        rewrite IHl by (intros j c' Hj; apply (Hall (S j)); assumption).
        now rewrite (Hall 0 y eq_refl). }
      apply G. intros j c' Hj.
      apply (Hlater (S j)); [lia | assumption]. }
    rewrite Hnone, py_eqb_refl. reflexivity.
  - rewrite (IH i Hi); [reflexivity |].
    intros j c' Hlt Hj. apply (Hlater (S j)); [lia | assumption].
Qed.


Section TaskFacts.
Context `{Domain} `{TargetNames}.

Lemma option_string_eqb_eq (a b : option string) :
  option_string_eqb a b = true <-> a = b.
Proof.
  destruct a as [x |], b as [y |]; simpl; try (split; congruence).
  rewrite String.eqb_eq. split; congruence.
Qed.

Lemma target_in_task (k : option string) :
  target_in k [targets_CLASSIF; targets_REGRESS] = true
  <-> k = Some targets_CLASSIF \/ k = Some targets_REGRESS.
Proof.
  destruct k as [k |]; simpl.
  - unfold mem. simpl. rewrite orb_false_r, orb_true_iff, !String.eqb_eq.
    split; intros [Hk | Hk]; [left | right | left | right]; congruence.
  - split; [discriminate | intros [? | ?]; discriminate].
Qed.

(** The task the method settles on. *)
Lemma check_task_outcome (target task : option string)
      (classes : option (list pyobj)) (r : task_resolution) :
  result (_check_task_and_classes target task classes) = OK r ->
  res_task r
  = (if target_in target regression_targets then Some targets_REGRESS
     else if target_in target classification_targets
     then Some targets_CLASSIF else task)
  /\ (target_in (res_task r) [targets_CLASSIF; targets_REGRESS] = true
      \/ target = None)
  /\ res_warned r
     = (if negb (option_string_eqb task (res_task r))
           && match task with Some _ => true | None => false end
        then [("Target " ++ str_option target ++ " expects "
               ++ str_option (res_task r) ++ ", but was set to task "
               ++ str_option task ++ " by user." ++ nl
               ++ "User set task is ignored and " ++ str_option (res_task r)
               ++ " will be used.")%string]
        else [])
  /\ (res_task r = Some targets_CLASSIF ->
      res_classes r = Some (match classes with
                            | Some given => given
                            | None => [VInt 0; VInt 1]
                            end)
      /\ res_classes_to_index r
         = Some (enumerate_into 0 (match classes with
                                   | Some given => given
                                   | None => [VInt 0; VInt 1]
                                   end) []))
  /\ (res_task r <> Some targets_CLASSIF ->
      res_classes r = None /\ res_classes_to_index r = None).
Proof.
  unfold _check_task_and_classes, regression_targets, classification_targets.
  set (self_task := if target_in target _ then _ else _).
  destruct (target_in self_task [targets_CLASSIF; targets_REGRESS]) eqn:Hvalid;
    simpl negb; cbv iota.
  - simpl andb. cbv iota.
    destruct (option_string_eqb self_task (Some targets_CLASSIF)) eqn:Hc.
    + apply option_string_eqb_eq in Hc.
      destruct classes as [given |].
      * simpl. intros [= <-]. simpl.
        repeat split; auto; try congruence.
      * simpl. intros [= <-]. simpl.
        repeat split; auto; try congruence.
    + unfold ret, result; cbn [snd]; intros [= <-];
        cbn [res_task res_classes res_classes_to_index res_warned].
      assert (Hne : self_task <> Some targets_CLASSIF)
        by (intros Hcl; apply option_string_eqb_eq in Hcl; congruence).
      repeat split; auto; congruence.
  - destruct target as [t |]; simpl andb; cbv iota.
    + discriminate.
    + destruct (option_string_eqb self_task (Some targets_CLASSIF)) eqn:Hc.
      * apply option_string_eqb_eq in Hc.
        apply target_in_task in Hvalid || (rewrite Hc in Hvalid).
        all: try (exfalso;
                  assert (Hv : target_in (Some targets_CLASSIF)
                                 [targets_CLASSIF; targets_REGRESS] = true)
                    by (apply target_in_task; auto);
                  congruence).
      * unfold ret, result; cbn [snd]; intros [= <-];
          cbn [res_task res_classes res_classes_to_index res_warned].
        assert (Hne : self_task <> Some targets_CLASSIF)
          by (intros Hcl; apply option_string_eqb_eq in Hcl; congruence).
        repeat split; auto; congruence.
Qed.
End TaskFacts.

Section TaskProperties.
Context `{Domain} `{TargetNames}.

Lemma check_task_total (target task : option string)
      (classes : option (list pyobj)) :
  let self_task :=
    if target_in target regression_targets then Some targets_REGRESS
    else if target_in target classification_targets
    then Some targets_CLASSIF else task in
  (target_in self_task [targets_CLASSIF; targets_REGRESS] = true
   \/ target = None ->
   exists r, result (_check_task_and_classes target task classes) = OK r)
  /\ (target_in self_task [targets_CLASSIF; targets_REGRESS] = false ->
      forall t, target = Some t ->
      _check_task_and_classes target task classes
      = ([], Raise (ValueError
           [VStr ("User target detected: " ++ t
                  ++ " -> The task argument must be 'classif' or 'regress', currently set as "
                  ++ str_option self_task)%string]))).
Proof.
  intros self_task. subst self_task.
  unfold _check_task_and_classes, regression_targets, classification_targets.
  set (self_task := if target_in target _ then _ else _).
  split.
  - intros Hok.
    assert (Hguard :
      negb (target_in self_task [targets_CLASSIF; targets_REGRESS])
      && match target with Some _ => true | None => false end = false).
    { destruct Hok as [-> | ->]; [reflexivity | apply andb_false_r]. }
    rewrite Hguard.
    destruct (option_string_eqb self_task (Some targets_CLASSIF)).
    + destruct classes; simpl; eauto.
    + simpl. eauto.
  - intros Hbad t ->. rewrite Hbad. reflexivity.
Qed.

(** X4. The task check accepts exactly when no target is set, or the
    target is one of the known names, or the task given is ['classif'] or
    ['regress']; and whenever it accepts with a target set, the task it
    leaves is one of the two. *)
Theorem task_check_accepts_iff (target task : option string)
        (classes : option (list pyobj)) :
  ((exists r, result (_check_task_and_classes target task classes) = OK r)
   <-> target = None
       \/ target_in target regression_targets = true
       \/ target_in target classification_targets = true
       \/ task = Some targets_CLASSIF
       \/ task = Some targets_REGRESS)
  /\ (forall r t,
        result (_check_task_and_classes target task classes) = OK r ->
        target = Some t ->
        res_task r = Some targets_CLASSIF \/ res_task r = Some targets_REGRESS).
Proof.
  destruct (check_task_total target task classes) as [Hyes Hno].
  cbv zeta in Hyes, Hno. split.
  - split.
    + intros (r & Hr).
      destruct target as [t |]; [| now left]. right.
      destruct (target_in (Some t) regression_targets) eqn:Hreg; [now left |].
      right.
      destruct (target_in (Some t) classification_targets) eqn:Hcl;
        [now left |].
      right. apply target_in_task.
      destruct (target_in task [targets_CLASSIF; targets_REGRESS]) eqn:Hv;
        [reflexivity |].
      rewrite (Hno eq_refl t eq_refl) in Hr. discriminate.
    + intros Hcases. apply Hyes.
      destruct Hcases as [-> | [Hreg | [Hcl | Htask]]].
      * now right.
      * left. rewrite Hreg. apply target_in_task. now right.
      * left. rewrite Hcl.
        destruct (target_in target regression_targets);
          apply target_in_task; auto.
      * left.
        destruct (target_in target regression_targets);
          [apply target_in_task; auto |].
        destruct (target_in target classification_targets);
          [apply target_in_task; auto |].
        now apply target_in_task.
  - intros r t Hr ->.
    destruct (check_task_outcome _ _ _ r Hr) as (_ & [Hv | Hv] & _).
    + now apply target_in_task.
    + discriminate.
Qed.

(** X5. A target of a known name fixes the task, whatever task the user
    gives: ['regress'] for a regression name, and ['classif'] for a
    classification name that is no regression name.  The check accepts,
    and it warns exactly when the user gave a task that differs from the
    one it fixes. *)
Theorem known_target_overrides_task (target task : option string)
        (classes : option (list pyobj)) :
  target_in target regression_targets = true
  \/ target_in target classification_targets = true ->
  let fixed :=
    if target_in target regression_targets then targets_REGRESS
    else targets_CLASSIF in
  exists r,
    result (_check_task_and_classes target task classes) = OK r
    /\ res_task r = Some fixed
    /\ (res_warned r <> [] <-> exists k, task = Some k /\ k <> fixed).
Proof.
  intros Hknown fixed.
  assert (Htask :
    (if target_in target regression_targets then Some targets_REGRESS
     else if target_in target classification_targets
     then Some targets_CLASSIF else task) = Some fixed).
  { subst fixed. destruct (target_in target regression_targets);
      [reflexivity |].
    destruct Hknown as [Hreg | Hcl]; [discriminate |]. now rewrite Hcl. }
  destruct (check_task_total target task classes) as [Hyes _].
  cbv zeta in Hyes. rewrite Htask in Hyes.
  destruct Hyes as (r & Hr).
  { left. apply target_in_task. subst fixed.
    destruct (target_in target regression_targets); auto. }
  exists r. split; [assumption |].
  destruct (check_task_outcome _ _ _ r Hr) as (Hres & _ & Hwarn & _).
  rewrite Htask in Hres. split; [assumption |].
  rewrite Hwarn, Hres. destruct task as [k |]; simpl.
  - destruct (String.eqb_spec k fixed) as [-> | Hne]; simpl.
    + split; [congruence |]. intros (k & [= <-] & Hk). congruence.
    + split; [| discriminate]. intros _. exists k. auto.
  - split; [congruence |]. intros (k & Hk & _). discriminate.
Qed.

(** X6. For a classification task the class table reads back the
    position of each class: a class that no later class equals is mapped
    to its own position (every class, when they are distinct), and the
    default table is the one of [[0, 1]].  For any other task there is no
    table. *)
Theorem classes_to_index_reads_back (target task : option string)
        (classes : option (list pyobj)) (r : task_resolution) :
  result (_check_task_and_classes target task classes) = OK r ->
  (res_task r = Some targets_CLASSIF ->
   exists cl ix,
     res_classes r = Some cl
     /\ res_classes_to_index r = Some ix
     /\ cl = match classes with
             | Some given => given
             | None => [VInt 0; VInt 1]
             end
     /\ (forall c, dict_get c ix = last_position c cl)
     /\ forall i c,
          nth_error cl i = Some c ->
          (forall j c', i < j -> nth_error cl j = Some c' ->
                        py_eqb c c' = false) ->
          dict_get c ix = Some i)
  /\ (res_task r <> Some targets_CLASSIF ->
      res_classes r = None /\ res_classes_to_index r = None).
Proof.
  intros Hr.
  destruct (check_task_outcome _ _ _ r Hr) as (_ & _ & _ & Hcl & Hother).
  split; [| exact Hother].
  intros Htask. destruct (Hcl Htask) as (Hclasses & Hix).
  eexists. eexists. split; [exact Hclasses |]. split; [exact Hix |].
  split; [reflexivity |].
  assert (Hget : forall c,
            dict_get c (enumerate_into 0
                          match classes with
                          | Some given => given
                          | None => [VInt 0; VInt 1]
                          end [])
            = last_position c match classes with
                              | Some given => given
                              | None => [VInt 0; VInt 1]
                              end).
  { intros c. rewrite enumerate_into_get.
    destruct (last_position c _); reflexivity. }
  split; [exact Hget |].
  intros i c Hi Hlater. rewrite Hget. now apply last_position_nth.
Qed.
End TaskProperties.

Lemma known_target_overrides_task_witness :
  (exists r,
      result (_check_task_and_classes (Some "dockq") (Some "classif") None)
      = OK r
      /\ res_task r = Some "regress"%string
      /\ (res_warned r <> [] <->
          exists k, Some "classif"%string = Some k /\ k <> "regress"%string))
  /\ (exists r,
         result (_check_task_and_classes (Some "binary") (Some "regress") None)
         = OK r
         /\ res_task r = Some "classif"%string
         /\ (res_warned r <> [] <->
             exists k, Some "regress"%string = Some k
                       /\ k <> "classif"%string)).
Proof.
  split.
  - exact (known_target_overrides_task (Some "dockq") (Some "classif") None
             (or_introl eq_refl)).
  - exact (known_target_overrides_task (Some "binary") (Some "regress") None
             (or_intror eq_refl)).
Defined.

Lemma classes_to_index_reads_back_witness :
  let r := {| res_task := Some "classif";
              res_classes := Some [VStr "low"; VStr "mid"; VStr "high"];
              res_classes_to_index :=
                Some [(VStr "low", 0); (VStr "mid", 1); (VStr "high", 2)];
              res_warned := [] |} in
  (res_task r = Some "classif" ->
   exists cl ix,
     res_classes r = Some cl
     /\ res_classes_to_index r = Some ix
     /\ cl = [VStr "low"; VStr "mid"; VStr "high"]
     /\ (forall c, dict_get c ix = last_position c cl)
     /\ forall i c,
          nth_error cl i = Some c ->
          (forall j c', i < j -> nth_error cl j = Some c' ->
                        py_eqb c c' = false) ->
          dict_get c ix = Some i)
  /\ (res_task r <> Some "classif" ->
      res_classes r = None /\ res_classes_to_index r = None).
Proof.
  exact (classes_to_index_reads_back (Some "capri_class") None
           (Some [VStr "low"; VStr "mid"; VStr "high"]) _ eq_refl).
Defined.

(** ** The feature check *)

Lemma without_metafeatures_spec (names kept : list string) :
  without_metafeatures names = OK kept ->
  kept = requested names /\ Forall (fun k => k <> ""%string) names.
Proof.
  revert kept. induction names as [| key names IH]; intros kept; simpl.
  - intros [= <-]. split; [reflexivity | constructor].
  - destruct key as [| c key']; [discriminate |]. simpl.
    destruct (without_metafeatures names) as [rest | e]; [| discriminate].
    simpl. intros [= <-]. destruct (IH rest eq_refl) as (-> & Hne).
    split.
    + unfold requested. simpl. destruct (Ascii.eqb c "_"); reflexivity.
    + constructor; [discriminate | assumption].
Qed.

Lemma without_metafeatures_total (names : list string) :
  Forall (fun k => k <> ""%string) names ->
  without_metafeatures names = OK (requested names).
Proof.
  induction 1 as [| key names Hkey _ IH]; [reflexivity |].
  destruct key as [| c key']; [congruence |].
  simpl. rewrite IH. simpl. unfold requested. simpl.
  destruct (Ascii.eqb c "_"); reflexivity.
Qed.

Lemma requested_In (feat : string) (names : list string) :
  In feat (requested names) <-> In feat names /\ is_meta feat = false.
Proof.
  unfold requested. rewrite filter_In.
  destruct (is_meta feat); simpl; intuition congruence.
Qed.

Lemma requested_fixed (feats : list string) :
  Forall (fun f => is_meta f = false) feats -> requested feats = feats.
Proof.
  induction 1 as [| f feats Hf _ IH]; [reflexivity |].
  unfold requested in *. simpl. now rewrite Hf, IH.
Qed.

(** The loop that collects the missing names always ends, with the
    requested names that are not available, in their order. *)
Lemma collect_missing_result (what tail : string)
      (available feats : list string) :
  result (collect_missing what tail available feats)
  = OK (filter (fun f => negb (mem f available)) feats).
Proof.
  induction feats as [| feat feats IH]; [reflexivity |].
  cbn [collect_missing filter].
  destruct (negb (mem feat available)); [| exact IH].
  rewrite result_bind_emit.
  destruct (collect_missing what tail available feats) as [l r].
  simpl in IH. subst r. reflexivity.
Qed.

Lemma filter_nil_Forall {A} (p : A -> bool) (l : list A) :
  filter p l = [] -> Forall (fun x => p x = false) l.
Proof.
  induction l as [| x l IH]; [constructor |].
  simpl. destruct (p x) eqn:E; [discriminate |].
  intros Hl. constructor; auto.
Qed.

(** Reading features that the group has, none of them a metafeature. *)
Lemma read_features_available {num : Type} `{Torch num} `{Display num}
      `{Domain} (g : list (string * ndarray num)) (feats : list string)
      (data : list (ndarray num)) :
  Forall (fun k => k <> ""%string) (keys g) ->
  Forall (fun f => In f (requested (keys g))) feats ->
  exists arrs,
    GraphDataset.read_features (Some g) feats data
    = OK (data ++ map as_columns arrs)
    /\ Forall2 (fun f a => assoc f g = Some a) feats arrs.
Proof.
  intros Hkeys Hall. revert data.
  induction Hall as [| feat feats Hfeat _ IH]; intros data.
  - exists []. simpl. now rewrite app_nil_r.
  - apply requested_In in Hfeat. destruct Hfeat as [Hin Hmeta].
    assert (Hne : feat <> ""%string)
      by (rewrite Forall_forall in Hkeys; now apply Hkeys).
    apply mem_In, assoc_mem in Hin. destruct Hin as (vals & Hvals).
    destruct feat as [| c feat']; [congruence |].
    simpl in Hmeta. cbn [GraphDataset.read_features first_char obind].
    rewrite Hmeta. cbn [negb subgroup obind]. unfold getitem.
    rewrite Hvals. cbn [obind].
    destruct (IH (data ++ [as_columns vals])) as (arrs & Hread & Hall2).
    exists (vals :: arrs). split.
    + unfold as_columns in *. rewrite Hread.
      now rewrite <- app_assoc.
    + constructor; assumption.
Qed.

Section GraphFeatures.
Context {num : Type} `{Torch num} `{Display num} `{Domain}.
Variable fs : FileSystem num.

Lemma result_missing_features_error {A : Type} (path : string)
      (an ae mn me : list string) :
  result (@GraphSetup.missing_features_error num _ A path an ae mn me)
  = Raise (ValueError [VStr (graph_features_message path an ae mn me)]).
Proof.
  unfold GraphSetup.missing_features_error, graph_features_message.
  rewrite result_bind_emit.
  destruct mn as [| m mn], me as [| m' me];
    repeat (rewrite ?bind_ret, ?result_bind_emit); reflexivity.
Qed.

(** The feature check on a first file whose first entry has its node and
    edge groups: it returns the resolved features when none is missing,
    and raises with the message otherwise. *)
Lemma graph_check_features_outcome (path mol_key : string)
      (paths : list string) (rest : File num) (grp : Group num)
      (ng eg : list (string * ndarray num))
      (node_arg : feature_arg) (edge_arg : option feature_arg) :
  fs path = Some ((mol_key, grp) :: rest) ->
  nodes grp = Some ng ->
  edges grp = Some eg ->
  Forall (fun k => k <> ""%string) (keys ng) ->
  Forall (fun k => k <> ""%string) (keys eg) ->
  let an := requested (keys ng) in
  let ae := requested (keys eg) in
  let mn := unavailable an node_arg in
  let me := match edge_arg with
            | Some arg => unavailable ae arg
            | None => []
            end in
  result (GraphSetup._check_features fs (path :: paths) node_arg edge_arg)
  = match mn ++ me with
    | [] =>
        OK {| GraphSetup.available_node_features := an;
              GraphSetup.available_edge_features := ae;
              GraphSetup.node_features := resolved an node_arg;
              GraphSetup.edge_features := option_map (resolved ae) edge_arg |}
    | _ :: _ =>
        Raise (ValueError [VStr (graph_features_message path an ae mn me)])
    end.
Proof.
  intros Hfs Hng Heg Hkn Hke an ae mn me.
  unfold GraphSetup._check_features. cbn [first].
  rewrite bind_lift_OK. unfold open_file. rewrite Hfs, bind_lift_OK.
  cbn [keys map fst first]. rewrite bind_lift_OK.
  unfold getitem. cbn [assoc]. rewrite String.eqb_refl, bind_lift_OK.
  rewrite Hng. cbn [subgroup]. rewrite bind_lift_OK.
  rewrite (without_metafeatures_total _ Hkn), bind_lift_OK.
  rewrite Heg. cbn [subgroup]. rewrite bind_lift_OK.
  rewrite (without_metafeatures_total _ Hke), bind_lift_OK.
  fold an ae.
  assert (Hmn : result (if is_all node_arg then ret []
                        else collect_missing "The node feature _"
                               ("_ was not found in the file " ++ path ++ ".")
                               an (iterate node_arg))
                = OK mn).
  { subst mn. unfold unavailable. destruct (is_all node_arg);
      [reflexivity | apply collect_missing_result]. }
  rewrite (result_bind_OK _ _ mn Hmn).
  assert (Hme : result (match edge_arg with
                        | Some arg =>
                            if is_all arg then ret []
                            else collect_missing "The edge feature _"
                                   ("_ was not found in the file "
                                    ++ path ++ ".") ae (iterate arg)
                        | None => ret []
                        end)
                = OK me).
  { subst me. unfold unavailable. destruct edge_arg as [arg |];
      [| reflexivity].
    destruct (is_all arg); [reflexivity | apply collect_missing_result]. }
  rewrite (result_bind_OK _ _ me Hme).
  destruct (mn ++ me) as [| m ms] eqn:Hmiss.
  - unfold resolved. destruct edge_arg; reflexivity.
  - apply result_missing_features_error.
Qed.

(** What a successful feature check tells about the store. *)
Lemma graph_check_features_inversion (paths : list string)
      (node_arg : feature_arg) (edge_arg : option feature_arg)
      (r : GraphSetup.resolution) :
  result (GraphSetup._check_features fs paths node_arg edge_arg) = OK r ->
  exists path ps mol_key grp rest ng eg,
    paths = path :: ps
    /\ fs path = Some ((mol_key, grp) :: rest)
    /\ nodes grp = Some ng
    /\ edges grp = Some eg
    /\ Forall (fun k => k <> ""%string) (keys ng)
    /\ Forall (fun k => k <> ""%string) (keys eg).
Proof.
  unfold GraphSetup._check_features. intros Hr.
  destruct paths as [| path ps]; [discriminate |].
  cbn [first] in Hr. rewrite bind_lift_OK in Hr. unfold open_file in Hr.
  destruct (fs path) as [f |] eqn:Hfs; [| discriminate].
  rewrite bind_lift_OK in Hr.
  destruct f as [| [mol_key grp] rest]; [discriminate |].
  cbn [keys map fst first] in Hr. rewrite bind_lift_OK in Hr.
  unfold getitem in Hr. cbn [assoc] in Hr.
  rewrite String.eqb_refl, bind_lift_OK in Hr.
  destruct (nodes grp) as [ng |] eqn:Hng; [| discriminate].
  cbn [subgroup] in Hr. rewrite bind_lift_OK in Hr.
  destruct (without_metafeatures (keys ng)) as [an |] eqn:Han;
    [| discriminate].
  rewrite bind_lift_OK in Hr.
  destruct (edges grp) as [eg |] eqn:Heg; [| discriminate].
  cbn [subgroup] in Hr. rewrite bind_lift_OK in Hr.
  destruct (without_metafeatures (keys eg)) as [ae |] eqn:Hae;
    [| discriminate].
  exists path, ps, mol_key, grp, rest, ng, eg.
  repeat split; auto.
  - now apply without_metafeatures_spec in Han.
  - now apply without_metafeatures_spec in Hae.
Qed.
End GraphFeatures.

Lemma contains_before (s post x : string) :
  contains s x -> contains (s ++ post)%string x.
Proof.
  intros (p & q & ->). exists p, (q ++ post)%string.
  now rewrite !string_app_assoc.
Qed.

Lemma Forall_mem_available (available feats : list string) :
  filter (fun f => negb (mem f available)) feats = [] ->
  Forall (fun f => In f available) feats.
Proof.
  intros Hnone. apply filter_nil_Forall in Hnone.
  eapply Forall_impl; [| exact Hnone].
  intros f Hf. cbv beta in Hf. apply mem_In.
  now destruct (mem f available).
Qed.

Lemma resolved_available (available : list string) (arg : feature_arg) :
  unavailable available arg = [] ->
  Forall (fun f => In f available) (resolved available arg).
Proof.
  unfold unavailable, resolved. destruct (is_all arg).
  - intros _. apply Forall_forall. auto.
  - apply Forall_mem_available.
Qed.

Section GraphFeatureProperties.
Context {num : Type} `{Torch num} `{Display num} `{Domain}.
Variable fs : FileSystem num.

(** X7. When the feature check of the graph dataset returns, every node
    feature it leaves is stored in the node group of the first entry of
    the first file and none is a metafeature, the sentinel ["all"] having
    become all such names; so assembling skips none of them, and reading
    them from that entry succeeds, one array for each. *)
Theorem graph_checked_features_are_readable (paths : list string)
        (node_arg : feature_arg) (edge_arg : option feature_arg)
        (r : GraphSetup.resolution) :
  result (GraphSetup._check_features fs paths node_arg edge_arg) = OK r ->
  exists path ps mol_key grp rest ng,
    paths = path :: ps
    /\ fs path = Some ((mol_key, grp) :: rest)
    /\ nodes grp = Some ng
    /\ GraphSetup.available_node_features r = requested (keys ng)
    /\ GraphSetup.node_features r
       = resolved (requested (keys ng)) node_arg
    /\ Forall (fun f => In f (keys ng) /\ is_meta f = false)
              (GraphSetup.node_features r)
    /\ requested (GraphSetup.node_features r) = GraphSetup.node_features r
    /\ exists arrs,
         GraphDataset.read_features (nodes grp)
                                    (GraphSetup.node_features r) []
         = OK (map as_columns arrs)
         /\ Forall2 (fun f a => assoc f ng = Some a)
                    (GraphSetup.node_features r) arrs.
Proof.
  intros Hr.
  destruct (graph_check_features_inversion fs _ _ _ _ Hr)
    as (path & ps & mol_key & grp & rest & ng & eg
        & -> & Hfs & Hng & Heg & Hkn & Hke).
  rewrite (graph_check_features_outcome fs path mol_key ps rest grp ng eg
             node_arg edge_arg Hfs Hng Heg Hkn Hke) in Hr.
  cbv zeta in Hr.
  destruct (unavailable (requested (keys ng)) node_arg) as [| m ms] eqn:Hmn;
    [| discriminate].
  simpl app in Hr.
  destruct (match edge_arg with
            | Some arg => unavailable (requested (keys eg)) arg
            | None => []
            end) as [| m ms]; [| discriminate].
  injection Hr as <-. cbn [GraphSetup.available_node_features
                            GraphSetup.node_features].
  pose proof (resolved_available _ _ Hmn) as Hall.
  exists path, ps, mol_key, grp, rest, ng.
  repeat (split; [first [reflexivity | assumption] |]).
  assert (Hboth : Forall (fun f => In f (keys ng) /\ is_meta f = false)
                         (resolved (requested (keys ng)) node_arg)).
  { eapply Forall_impl; [| exact Hall].
    intros f Hf. now apply requested_In. }
  split; [exact Hboth |]. split.
  - apply requested_fixed. eapply Forall_impl; [| exact Hboth].
    intros f Hf. cbv beta in Hf. tauto.
  - rewrite Hng.
    destruct (read_features_available ng _ [] Hkn Hall) as (arrs & Hread & H2).
    exists arrs. split; assumption.
Qed.

(** X8. When a node feature is asked for by name that the node group of
    the first entry of the first file lacks, or that is a metafeature, the
    feature check raises [ValueError]; the message holds the file name,
    the printed list of the missing names, the one asked for among them,
    and the printed list of the names available. *)
Theorem graph_check_features_rejects_missing
        (path mol_key feat : string) (paths : list string) (rest : File num)
        (grp : Group num) (ng eg : list (string * ndarray num))
        (node_arg : feature_arg) (edge_arg : option feature_arg) :
  fs path = Some ((mol_key, grp) :: rest) ->
  nodes grp = Some ng ->
  edges grp = Some eg ->
  Forall (fun k => k <> ""%string) (keys ng) ->
  Forall (fun k => k <> ""%string) (keys eg) ->
  is_all node_arg = false ->
  In feat (iterate node_arg) ->
  ~ In feat (keys ng) \/ is_meta feat = true ->
  exists msg,
    result (GraphSetup._check_features fs (path :: paths) node_arg edge_arg)
    = Raise (ValueError [VStr msg])
    /\ In feat (unavailable (requested (keys ng)) node_arg)
    /\ contains msg path
    /\ contains msg (str_list (unavailable (requested (keys ng)) node_arg))
    /\ contains msg (str_list (requested (keys ng))).
Proof.
  intros Hfs Hng Heg Hkn Hke Hall Hin Hbad.
  rewrite (graph_check_features_outcome fs path mol_key paths rest grp ng eg
             node_arg edge_arg Hfs Hng Heg Hkn Hke).
  cbv zeta.
  assert (Hmiss : In feat (unavailable (requested (keys ng)) node_arg)).
  { unfold unavailable. rewrite Hall. apply filter_In. split; [assumption |].
    destruct (mem feat (requested (keys ng))) eqn:E; [| reflexivity].
    apply mem_In, requested_In in E. destruct E as [Hk Hm].
    destruct Hbad; [contradiction | congruence]. }
  destruct (unavailable (requested (keys ng)) node_arg) as [| m ms] eqn:Hmn;
    [destruct Hmiss |].
  cbn [app]. eexists. split; [reflexivity |].
  split; [assumption |].
  unfold graph_features_message. split; [| split].
  - apply contains_here.
  - do 3 apply contains_after. apply contains_before.
    do 1 apply contains_after. apply contains_here.
  - do 3 apply contains_after. apply contains_before.
    do 5 apply contains_after.
    exists "Available node features: "%string, ""%string.
    now rewrite string_app_nil_r.
Qed.
End GraphFeatureProperties.

Lemma graph_checked_features_are_readable_witness :
  exists path ps mol_key grp rest ng,
    ["one.hdf5"; "missing.hdf5"] = path :: ps
    /\ Sample.store path = Some ((mol_key, grp) :: rest)
    /\ nodes grp = Some ng
    /\ ["bsa"; "pssm"] = requested (keys ng)
    /\ ["bsa"; "pssm"] = resolved (requested (keys ng)) (FStr "all")
    /\ Forall (fun f => In f (keys ng) /\ is_meta f = false) ["bsa"; "pssm"]
    /\ requested ["bsa"; "pssm"] = ["bsa"; "pssm"]
    /\ exists arrs,
         GraphDataset.read_features (nodes grp) ["bsa"; "pssm"] []
         = OK (map as_columns arrs)
         /\ Forall2 (fun f a => assoc f ng = Some a) ["bsa"; "pssm"] arrs.
Proof.
  exact (graph_checked_features_are_readable Sample.store
           ["one.hdf5"; "missing.hdf5"] (FStr "all") (Some (FList ["dist"]))
           _ eq_refl).
Defined.

Lemma graph_check_features_rejects_missing_witness :
  exists msg,
    result (GraphSetup._check_features Sample.store ["one.hdf5"]
              (FList ["bsa"; "_position"]) None)
    = Raise (ValueError [VStr msg])
    /\ In "_position"
          (unavailable
             (requested (keys [("_position",
                                Arr2 3 [[Sample.Lit 0; Sample.Lit 0; Sample.Lit 0];
                                        [Sample.Lit 1; Sample.Lit 0; Sample.Lit 0];
                                        [Sample.Lit 2; Sample.Lit 0; Sample.Lit 0]]);
                               ("bsa", Arr1 [Sample.Lit 5; Sample.Lit 6; Sample.Lit 7]);
                               ("pssm", Arr2 2 [[Sample.Lit 1; Sample.Lit 2];
                                                [Sample.Lit 3; Sample.Lit 4];
                                                [Sample.Lit 5; Sample.Lit 6]])]))
             (FList ["bsa"; "_position"]))
    /\ contains msg "one.hdf5"
    /\ contains msg "['_position']"
    /\ contains msg "['bsa', 'pssm']".
Proof.
  refine (graph_check_features_rejects_missing Sample.store
            "one.hdf5" "e1" "_position" [] _ (Sample.entry 10) _ _
            (FList ["bsa"; "_position"]) None
            eq_refl eq_refl eq_refl _ _ eq_refl _ _).
  - repeat constructor; discriminate.
  - repeat constructor; discriminate.
  - simpl. auto.
  - right. reflexivity.
Defined.

Section GridFeatures.
Context {num : Type} `{Torch num} `{Display num} `{Domain} `{TargetNames}.
Variable fs : FileSystem num.

(** X9. The feature check of the grid dataset, on a first file whose
    first entry has grid-mapped features: it returns the names available
    (the metafeatures left out) and the features resolved when every name
    asked for is available, and raises [ValueError] otherwise, with a
    message that holds the file, the entry and the printed list of the
    names available. *)
Theorem grid_check_features_outcome (path entry_name : string)
        (paths : list string) (rest : File num) (grp : Group num)
        (mapped : list (string * list (string * voxels num)))
        (arg : feature_arg) :
  fs path = Some ((entry_name, grp) :: rest) ->
  mapped_features grp = Some mapped ->
  Forall (fun k => k <> ""%string) (keys mapped) ->
  let available := requested (keys mapped) in
  (unavailable available arg = [] ->
   result (GridInit._check_features fs (path :: paths) arg)
   = OK (available, resolved available arg)
   /\ Forall (fun f => In f (keys mapped) /\ is_meta f = false)
             (resolved available arg))
  /\ (unavailable available arg <> [] ->
      exists msg,
        result (GridInit._check_features fs (path :: paths) arg)
        = Raise (ValueError [VStr msg])
        /\ contains msg path
        /\ contains msg entry_name
        /\ contains msg (str_list available)).
Proof.
  intros Hfs Hmapped Hkeys available.
  assert (Hres :
    result (GridInit._check_features fs (path :: paths) arg)
    = if 0 <? length (unavailable available arg)
      then Raise (ValueError
             [VStr ("Not all features could be found in the file " ++ path
                    ++ " under entry " ++ entry_name ++ grid_error_tail
                    ++ str_list available)%string])
      else OK (available, resolved available arg)).
  { unfold GridInit._check_features. cbn [first].
    rewrite bind_lift_OK. unfold open_file. rewrite Hfs, bind_lift_OK.
    cbn [keys map fst first]. rewrite bind_lift_OK.
    unfold getitem. cbn [assoc]. rewrite String.eqb_refl, bind_lift_OK.
    rewrite Hmapped. cbn [subgroup]. rewrite bind_lift_OK.
    rewrite (without_metafeatures_total _ Hkeys), bind_lift_OK.
    fold available.
    assert (Hm : result (if is_all arg then ret []
                         else collect_missing "The feature "
                                (" was not found in the file " ++ path ++ ".")
                                available (iterate arg))
                 = OK (unavailable available arg)).
    { unfold unavailable. destruct (is_all arg);
        [reflexivity | apply collect_missing_result]. }
    rewrite (result_bind_OK _ _ _ Hm).
    destruct (0 <? length (unavailable available arg)); reflexivity. }
  split.
  - intros Hnone. rewrite Hres, Hnone. split; [reflexivity |].
    pose proof (resolved_available _ _ Hnone) as Hall.
    eapply Forall_impl; [| exact Hall].
    intros f Hf. now apply requested_In.
  - intros Hsome. rewrite Hres.
    destruct (unavailable available arg) as [| m ms]; [congruence |].
    eexists. split; [reflexivity |]. split; [| split].
    + apply contains_here.
    + do 2 apply contains_after. apply contains_here.
    + do 4 apply contains_after. unfold grid_error_tail.
      rewrite string_app_assoc. apply contains_after.
      exists "Available features: "%string, ""%string.
      now rewrite string_app_nil_r.
Qed.
End GridFeatures.

Lemma grid_check_features_outcome_witness :
  (unavailable (requested ["bsa"]) (FList ["bsa"]) = [] ->
   result (GridInit._check_features Sample.store ["one.hdf5"] (FList ["bsa"]))
   = OK (requested ["bsa"], resolved (requested ["bsa"]) (FList ["bsa"]))
   /\ Forall (fun f => In f ["bsa"] /\ is_meta f = false)
             (resolved (requested ["bsa"]) (FList ["bsa"])))
  /\ (unavailable (requested ["bsa"]) (FList ["bsa"]) <> [] ->
      exists msg,
        result (GridInit._check_features Sample.store ["one.hdf5"]
                  (FList ["bsa"]))
        = Raise (ValueError [VStr msg])
        /\ contains msg "one.hdf5"
        /\ contains msg "e1"
        /\ contains msg "['bsa']").
Proof.
  refine (grid_check_features_outcome Sample.store "one.hdf5" "e1" [] _
            (Sample.entry 10)
            [("bsa", [("value", Voxels [1; 1; 2] [Sample.Lit 5; Sample.Lit 6])])]
            (FList ["bsa"]) eq_refl eq_refl _).
  repeat constructor; discriminate.
Defined.

(** ** The index, once more *)

Lemma ordered_part_In {A} (kept l : list A) (x : A) :
  ordered_part kept l -> In x kept -> In x l.
Proof.
  induction 1 as [| y kept l _ IH | y kept l _ IH]; simpl; intros Hin.
  - assumption.
  - right. now apply IH.
  - destruct Hin as [-> | Hin]; [now left | right; now apply IH].
Qed.

Section IndexInvariant.
Context {num : Type}.
Variable fs : FileSystem num.
Variable sub : option (list string).
Variable filter_entry : Group num -> M bool.

Lemma entry_names_present (fh5 : File num) (k : string) :
  In k (entry_names sub fh5) -> mem k (keys fh5) = true.
Proof.
  unfold entry_names. destruct sub as [ids |]; intros Hin.
  - apply filter_In in Hin. tauto.
  - now apply mem_In.
Qed.

Lemma scan_file_resolves (all_paths : list string) (fdata : string)
      (acc : list (string * string)) :
  In fdata all_paths ->
  Forall (resolves fs all_paths) acc ->
  Forall (resolves fs all_paths) (snd (scan_file fs sub filter_entry fdata acc)).
Proof.
  intros Hin Hacc. unfold scan_file, open_file.
  destruct (fs fdata) as [fh5 |] eqn:Hfs; [| exact Hacc].
  destruct (scan_entries_ordered filter_entry fdata fh5
              (entry_names sub fh5) acc) as (l & kept & e & Hscan & Hpart).
  rewrite Hscan.
  assert (Hall : Forall (resolves fs all_paths) (acc ++ entries_of fdata kept)).
  { apply Forall_app. split; [assumption |].
    unfold entries_of. apply Forall_map, Forall_forall. intros k Hk.
    split; [assumption |]. simpl.
    pose proof (ordered_part_In _ _ k Hpart Hk) as Hname.
    apply entry_names_present, assoc_mem in Hname.
    destruct Hname as (g & Hg). eauto. }
  destruct e; exact Hall.
Qed.

Lemma scan_files_resolves (all_paths paths : list string)
      (acc : list (string * string)) :
  (forall p, In p paths -> In p all_paths) ->
  Forall (resolves fs all_paths) acc ->
  Forall (resolves fs all_paths)
         (snd (scan_files fs sub filter_entry paths acc)).
Proof.
  revert acc. induction paths as [| p paths IH]; intros acc Hsub Hacc;
    cbn [scan_files].
  - exact Hacc.
  - pose proof (scan_file_resolves all_paths p acc
                  (Hsub p (or_introl eq_refl)) Hacc) as Hp.
    destruct (scan_file fs sub filter_entry p acc) as [l acc'].
    specialize (IH acc' (fun q Hq => Hsub q (or_intror Hq)) Hp).
    destruct (scan_files fs sub filter_entry paths acc') as [l' final].
    exact IH.
Qed.

(** A filter that raises on the first entry of every file leaves the
    index as it was. *)
Lemma scan_files_all_raise (paths : list string)
      (acc : list (string * string)) :
  (forall g, exists e, result (filter_entry g) = Raise e) ->
  snd (scan_files fs sub filter_entry paths acc) = acc.
Proof.
  intros Hraise. revert acc.
  induction paths as [| p paths IH]; intros acc; cbn [scan_files];
    [reflexivity |].
  assert (Hp : snd (scan_file fs sub filter_entry p acc) = acc).
  { unfold scan_file, open_file.
    destruct (fs p) as [fh5 |]; [| reflexivity].
    pose proof (entry_names_present fh5) as Hpresent.
    destruct (entry_names sub fh5) as [| k names]; [reflexivity |].
    cbn [scan_entries].
    assert (Hk : mem k (keys fh5) = true) by (apply Hpresent; now left).
    apply assoc_mem in Hk. destruct Hk as (g & Hg).
    unfold getitem. rewrite Hg, bind_lift_OK.
    destruct (Hraise g) as (e & He).
    destruct (filter_entry g) as [l r]. simpl in He. subst r. reflexivity. }
  destruct (scan_file fs sub filter_entry p acc) as [l acc'].
  simpl in Hp. subst acc'.
  specialize (IH acc).
  destruct (scan_files fs sub filter_entry paths acc) as [l' final].
  exact IH.
Qed.

End IndexInvariant.

Section BuiltIndex.
Context {num : Type} `{Torch num} `{Display num} `{Domain}.
Variable fs : FileSystem num.

Lemma result_graph_create_index (self : GraphDataset.t num) :
  result (GraphDataset._create_index_entries fs self)
  = OK (GraphDataset.set_index_entries self
          (snd (scan_files fs (GraphDataset.subset self)
                  (GraphDataset._filter self)
                  (GraphDataset.hdf5_path self) []))).
Proof.
  unfold GraphDataset._create_index_entries.
  pose proof (result_create_index_entries fs (GraphDataset._filter self)
                (GraphDataset.subset self) (GraphDataset.hdf5_path self)
                (GraphDataset.tqdm self)) as R.
  destruct (create_index_entries fs (GraphDataset.subset self)
              (GraphDataset._filter self) (GraphDataset.hdf5_path self)
              (GraphDataset.tqdm self)) as [l r].
  simpl in R. subst r. reflexivity.
Qed.

Lemma result_grid_create_index (self : GridDataset.t num) :
  result (GridDataset._create_index_entries fs self)
  = OK (GridDataset.set_index_entries self
          (snd (scan_files fs (GridDataset.subset self)
                  (GridDataset._filter_targets self)
                  (GridDataset.hdf5_paths self) []))).
Proof.
  unfold GridDataset._create_index_entries.
  pose proof (result_create_index_entries fs (GridDataset._filter_targets self)
                (GridDataset.subset self) (GridDataset.hdf5_paths self)
                (GridDataset.tqdm self)) as R.
  destruct (create_index_entries fs (GridDataset.subset self)
              (GridDataset._filter_targets self) (GridDataset.hdf5_paths self)
              (GridDataset.tqdm self)) as [l r].
  simpl in R. subst r. reflexivity.
Qed.

(** X10. Building the index never raises, in either dataset, whatever
    the files, the subset and the filter; it changes no attribute but the
    index; and every entry of the index it builds can be looked up: its
    file is one of the dataset's paths, the file opens, and it has the
    entry. *)
Theorem index_entries_resolve
        (graph : GraphDataset.t num) (grid : GridDataset.t num) :
  (exists ix,
      result (GraphDataset._create_index_entries fs graph)
      = OK (GraphDataset.set_index_entries graph ix)
      /\ Forall (resolves fs (GraphDataset.hdf5_path graph)) ix)
  /\ (exists ix,
         result (GridDataset._create_index_entries fs grid)
         = OK (GridDataset.set_index_entries grid ix)
         /\ Forall (resolves fs (GridDataset.hdf5_paths grid)) ix).
Proof.
  split.
  - eexists. split; [apply result_graph_create_index |].
    apply scan_files_resolves; [auto | constructor].
  - eexists. split; [apply result_grid_create_index |].
    apply scan_files_resolves; [auto | constructor].
Qed.

(** Without a target group the probe of the graph filter raises: its
    handler reads the group again. *)
Lemma probe_target_no_targets (g : Group num) (name : string) :
  targets g = None ->
  result (GraphDataset.probe_target g name) = Raise KeyError.
Proof.
  intros Htg. unfold GraphDataset.probe_target. rewrite Htg. reflexivity.
Qed.

Lemma graph_filter_no_targets (g : Group num) (item : string * pyobj)
      (rest : list (string * pyobj)) :
  targets g = None ->
  result (GraphDataset.filter_items g (item :: rest)) = Raise KeyError.
Proof.
  intros Htg. destruct item as [name c]. cbn [GraphDataset.filter_items].
  apply result_bind_Raise. now apply probe_target_no_targets.
Qed.

Lemma grid_filter_no_targets (g : Group num) (item : string * pyobj)
      (rest : list (string * pyobj)) :
  targets g = None ->
  GridDataset.filter_items g (item :: rest) = ([], Raise KeyError).
Proof.
  intros Htg. destruct item as [name c]. cbn [GridDataset.filter_items].
  rewrite Htg. reflexivity.
Qed.

(** X12. A graph dataset whose filter starts with a condition that the
    substitution turns into a comparison has an empty index, whatever the
    files hold and whatever the subset: the filter raises on the first
    entry of every file, and the scan of the file ends there. *)
Theorem graph_index_empty_under_comparison
        (self : GraphDataset.t num) (name cond : string)
        (rest : list (string * pyobj)) (l : expr) (ops : list cmpop)
        (cs : list expr) :
  GraphDataset.target_filter self = Some ((name, VStr cond) :: rest) ->
  ast_parse (GraphDataset.substitute "val" [">"; "<"; "=="] cond)
  = OK (Compare l ops cs) ->
  result (GraphDataset._create_index_entries fs self)
  = OK (GraphDataset.set_index_entries self []).
Proof.
  intros Hfilt Hparse. rewrite result_graph_create_index.
  rewrite scan_files_all_raise; [reflexivity |].
  intros g. unfold GraphDataset._filter. rewrite Hfilt.
  destruct (targets g) as [tg |] eqn:Htg.
  - exists malformed.
    now apply (graph_filter_comparison_raises g tg name cond rest l ops cs).
  - exists KeyError. now apply graph_filter_no_targets.
Qed.

(** X14. An entry without a target group is not kept by default: as soon
    as one condition is configured, both filters raise [KeyError] on it,
    whatever the condition.  With no condition at all both keep it. *)
Theorem filters_raise_without_target_group
        (g : Group num) (item : string * pyobj)
        (rest : list (string * pyobj)) :
  targets g = None ->
  result (GraphDataset.filter_items g (item :: rest)) = Raise KeyError
  /\ result (GridDataset.filter_items g (item :: rest)) = Raise KeyError
  /\ result (GraphDataset.filter_items g []) = OK true
  /\ result (GridDataset.filter_items g []) = OK true.
Proof.
  intros Htg. repeat split.
  - now apply graph_filter_no_targets.
  - now rewrite grid_filter_no_targets.
Qed.

Lemma graph_filter_values_unread (g g' : Group num)
      (items : list (string * pyobj)) :
  same_target_names g g' ->
  result (GraphDataset.filter_items g items)
  = result (GraphDataset.filter_items g' items).
Proof.
  unfold same_target_names. intros Hsame.
  induction items as [| [name c] rest IH]; [reflexivity |].
  destruct (targets g) as [tg |] eqn:Htg;
    destruct (targets g') as [tg' |] eqn:Htg'; try discriminate.
  - destruct c;
      try (rewrite (graph_filter_not_string g tg), (graph_filter_not_string g' tg');
           auto; congruence).
    rewrite (graph_filter_string g tg), (graph_filter_string g' tg') by assumption.
    destruct (literal_eval _) as [v | e]; [| reflexivity].
    destruct (negb (truthy v)); [reflexivity | exact IH].
  - now rewrite !graph_filter_no_targets.
Qed.

Lemma grid_filter_values_unread (g g' : Group num)
      (items : list (string * pyobj)) :
  same_target_names g g' ->
  result (GridDataset.filter_items g items)
  = result (GridDataset.filter_items g' items).
Proof.
  unfold same_target_names. intros Hsame.
  induction items as [| [name c] rest IH]; [reflexivity |].
  destruct (targets g) as [tg |] eqn:Htg;
    destruct (targets g') as [tg' |] eqn:Htg'; try discriminate.
  - simpl in Hsame. injection Hsame as Hkeys.
    destruct (assoc name tg) as [v |] eqn:Hv.
    + assert (Hmem : mem name (keys tg') = true)
        by (rewrite <- Hkeys; apply assoc_mem; eauto).
      apply assoc_mem in Hmem. destruct Hmem as (v' & Hv').
      rewrite (grid_filter_present g tg name v c rest Htg Hv).
      rewrite (grid_filter_present g' tg' name v' c rest Htg' Hv').
      destruct c; try reflexivity; [exact IH |].
      destruct (literal_eval _) as [x | e]; [| reflexivity].
      rewrite !bind_lift_OK.
      destruct (negb (truthy x)); [reflexivity | exact IH].
    + assert (Hv' : assoc name tg' = None).
      { destruct (assoc name tg') as [v' |] eqn:Hv'; [| reflexivity].
        assert (Hmem : mem name (keys tg) = true)
          by (rewrite Hkeys; apply assoc_mem; eauto).
        apply assoc_mem in Hmem. destruct Hmem as (v & Hv0). congruence. }
      rewrite (grid_filter_missing g tg name c rest Htg Hv).
      rewrite (grid_filter_missing g' tg' name c rest Htg' Hv').
      exact IH.
  - now rewrite !grid_filter_no_targets.
Qed.

(** X13. Neither filter looks at a stored target value: two entries that
    store targets under the same names are kept, dropped or refused alike
    by the graph filter and by the grid filter, whatever the values and
    whatever the conditions. *)
Theorem filters_ignore_stored_values (g g' : Group num)
        (items : list (string * pyobj)) :
  same_target_names g g' ->
  result (GraphDataset.filter_items g items)
  = result (GraphDataset.filter_items g' items)
  /\ result (GridDataset.filter_items g items)
     = result (GridDataset.filter_items g' items).
Proof.
  intros Hsame. split.
  - now apply graph_filter_values_unread.
  - now apply grid_filter_values_unread.
Qed.
End BuiltIndex.


Lemma graph_index_empty_under_comparison_witness :
  result (GraphDataset._create_index_entries Sample.store
            (Sample.graph (Some [("a", VStr "> 0.5")]) None
               (Some "a") (Some "regress") None []))
  = OK (Sample.graph (Some [("a", VStr "> 0.5")]) None
          (Some "a") (Some "regress") None []).
Proof.
  exact (graph_index_empty_under_comparison Sample.store
           (Sample.graph (Some [("a", VStr "> 0.5")]) None
              (Some "a") (Some "regress") None [])
           "a" "> 0.5" [] (Name "val") [Gt]
           [Constant (VFloat (Qmake 5 10))] eq_refl eq_refl).
Defined.

Lemma filters_raise_without_target_group_witness :
  result (GraphDataset.filter_items bare_entry [("a", VStr "1")])
  = Raise KeyError
  /\ result (GridDataset.filter_items bare_entry [("a", VStr "1")])
     = Raise KeyError
  /\ result (GraphDataset.filter_items bare_entry []) = OK true
  /\ result (GridDataset.filter_items bare_entry []) = OK true.
Proof.
  exact (filters_raise_without_target_group bare_entry ("a", VStr "1") []
           eq_refl).
Defined.

Lemma filters_ignore_stored_values_witness :
  result (GraphDataset.filter_items (Sample.entry 10)
            [("a", VStr "1"); ("zz", VStr "0")])
  = result (GraphDataset.filter_items (Sample.entry 20)
              [("a", VStr "1"); ("zz", VStr "0")])
  /\ result (GridDataset.filter_items (Sample.entry 10)
               [("a", VStr "1"); ("zz", VStr "0")])
     = result (GridDataset.filter_items (Sample.entry 20)
                 [("a", VStr "1"); ("zz", VStr "0")]).
Proof.
  exact (filters_ignore_stored_values (Sample.entry 10) (Sample.entry 20)
           [("a", VStr "1"); ("zz", VStr "0")] eq_refl).
Defined.

(** ** Loading one sample, once more *)

Section LoadingMore.
Context {num : Type} `{Torch num} `{Display num} `{Domain}.

(** X15. Loading the clusters never raises, and the two levels come
    together or not at all: either both hold what the entry stores under
    the clustering method, and nothing is logged, or both are [None] and
    exactly one warning says why. *)
Theorem clusters_come_in_pairs (self : GraphDataset.t num) (grp : Group num) :
  exists l c0 c1,
    GraphDataset.load_clusters self grp = (l, OK (c0, c1))
    /\ ((c0 = None /\ c1 = None /\ exists w, l = [(WARNING, Text w)])
        \/ (exists method cl m a0 a1,
               GraphDataset.clustering_method self = Some method
               /\ clustering grp = Some cl
               /\ assoc method cl = Some m
               /\ assoc "depth_0" m = Some a0
               /\ assoc "depth_1" m = Some a1
               /\ c0 = Some (tensor as_long a0)
               /\ c1 = Some (tensor as_long a1)
               /\ l = [])).
Proof.
  unfold GraphDataset.load_clusters.
  destruct (GraphDataset.clustering_method self) as [method |] eqn:Hmethod.
  2: { do 3 eexists. split; [reflexivity |]. left.
       repeat split. eexists. reflexivity. }
  destruct (clustering grp) as [cl |] eqn:Hcl.
  2: { do 3 eexists. split; [reflexivity |]. left.
       repeat split. eexists. reflexivity. }
  destruct (mem method (keys cl)) eqn:Hmem.
  2: { do 3 eexists. split; [reflexivity |]. left.
       repeat split. eexists. reflexivity. }
  apply assoc_mem in Hmem. destruct Hmem as (m & Hm).
  unfold getitem at 1. rewrite Hm, bind_lift_OK.
  destruct (mem "depth_0" (keys m)) eqn:Hd0.
  2: { do 3 eexists. split; [reflexivity |]. left.
       repeat split. eexists. reflexivity. }
  destruct (mem "depth_1" (keys m)) eqn:Hd1.
  2: { do 3 eexists. split; [reflexivity |]. left.
       repeat split. eexists. reflexivity. }
  apply assoc_mem in Hd0, Hd1.
  destruct Hd0 as (a0 & Ha0), Hd1 as (a1 & Ha1).
  cbn [andb]. unfold getitem. rewrite Ha0, Ha1, !bind_lift_OK.
  do 3 eexists. split; [reflexivity |]. right.
  exists method, cl, m, a0, a1. repeat split; assumption.
Qed.

(** X16. A graph dataset without edge features.  An entry that stores no
    edge index gets the empty [2 x 0] index and a [0 x 0] attribute matrix;
    one that stores [E] edges as the rows of a two-dimensional index gets
    [2E] columns in the index and a [2E x 0] attribute matrix; one that
    stores a one-dimensional index cannot be loaded: asking the index for
    its second dimension raises [IndexError]. *)
Theorem edge_attr_without_features (self : GraphDataset.t num)
        (grp : Group num) (e : list (string * ndarray num)) :
  GraphDataset.edge_features self = None
  \/ GraphDataset.edge_features self = Some [] ->
  edges grp = Some e ->
  (assoc Efeat_INDEX e = None ->
   GraphDataset.load_edge_index grp = OK (Arr2 0 [[]; []])
   /\ GraphDataset.load_edge_attr self grp (Arr2 0 [[]; []]) = OK (Arr2 0 []))
  /\ (forall w rows,
        assoc Efeat_INDEX e = Some (Arr2 w rows) ->
        exists ei,
          GraphDataset.load_edge_index grp = OK ei
          /\ shape1 ei = OK (2 * length rows)
          /\ GraphDataset.load_edge_attr self grp ei
             = OK (Arr2 0 (repeat [] (2 * length rows))))
  /\ (forall v,
        assoc Efeat_INDEX e = Some (Arr1 v) ->
        GraphDataset.load_edge_index grp = OK (Arr1 (map as_long v))
        /\ GraphDataset.load_edge_attr self grp (Arr1 (map as_long v))
           = Raise IndexError).
Proof.
  intros Hfeats Hedges.
  assert (Hattr : forall ei,
             GraphDataset.load_edge_attr self grp ei
             = (n <-- shape1 ei ;; OK (Arr2 0 (repeat [] n)))).
  { intros ei. unfold GraphDataset.load_edge_attr. rewrite Hedges.
    destruct Hfeats as [-> | ->]; reflexivity. }
  unfold GraphDataset.load_edge_index. rewrite Hedges. cbn [subgroup obind].
  split; [| split].
  - intros Hnone. rewrite (assoc_None_mem _ _ Hnone).
    split; [reflexivity |]. now rewrite Hattr.
  - intros w rows Hix.
    assert (Hmem : mem Efeat_INDEX (keys e) = true)
      by (apply assoc_mem; eauto).
    rewrite Hmem. unfold getitem. rewrite Hix. cbn [obind].
    unfold vstack, atleast_2d. rewrite Nat.eqb_refl. cbn [obind].
    eexists. split; [reflexivity |].
    assert (Hlen : length (rows ++ flip_axis1 rows) = 2 * length rows)
      by (unfold flip_axis1; rewrite length_app, length_map; lia).
    split.
    + cbn [transpose tensor shape1]. now rewrite Hlen.
    + rewrite Hattr. cbn [transpose tensor shape1 obind]. now rewrite Hlen.
  - intros v Hix.
    assert (Hmem : mem Efeat_INDEX (keys e) = true)
      by (apply assoc_mem; eauto).
    rewrite Hmem. unfold getitem. rewrite Hix. cbn [obind tensor].
    split; [reflexivity |]. now rewrite Hattr.
Qed.

Lemma grid_read_features_length
      (m : list (string * list (string * voxels num)))
      (feats : list string) (acc data : list (voxels num)) :
  GridDataset.read_features m feats acc = OK data ->
  length data = length acc + length feats.
Proof.
  revert acc. induction feats as [| f feats IH]; intros acc Hread;
    cbn [GridDataset.read_features] in Hread.
  - injection Hread as <-. simpl. lia.
  - destruct (getitem f m) as [g | e]; [| discriminate].
    cbn [obind] in Hread.
    destruct (getitem gridstorage_FEATURE_VALUE g) as [v | e];
      [| discriminate].
    cbn [obind] in Hread. apply IH in Hread.
    rewrite length_app in Hread. simpl in *. lia.
Qed.

Lemma stack_features_shape (feature_data : list (voxels num))
      (out : voxels num) :
  GridDataset.stack_features feature_data = OK out ->
  exists shape, vshape out = 1 :: length feature_data :: shape.
Proof.
  unfold GridDataset.stack_features.
  destruct feature_data as [| v0 rest].
  - intros [= <-]. now exists [].
  - destruct (forallb _ _); [| discriminate].
    intros [= <-]. now exists (vshape v0).
Qed.

Variable fs : FileSystem num.

(** X17. A grid dataset without a target never yields a sample: whatever
    the index given, [get] ends in an exception. *)
Theorem grid_get_needs_target (self : GridDataset.t num) (i : Z) :
  GridDataset.target self = None ->
  exists e, result (GridDataset.get fs self i) = Raise e.
Proof.
  intros Htarget. unfold GridDataset.get.
  destruct (list_getitem (GridDataset.index_entries self) i)
    as [[file_path entry_name] | e]; [| eexists; reflexivity].
  rewrite bind_lift_OK. unfold GridDataset.load_one_entry.
  destruct (open_file fs file_path) as [f | e]; [| eexists; reflexivity].
  rewrite bind_lift_OK.
  destruct (getitem entry_name f) as [g | e]; [| eexists; reflexivity].
  rewrite bind_lift_OK.
  destruct (subgroup (mapped_features g)) as [m | e];
    [| eexists; reflexivity].
  rewrite bind_lift_OK.
  destruct (GridDataset.read_features m (GridDataset.features self) [])
    as [data | e]; [| eexists; reflexivity].
  rewrite bind_lift_OK.
  destruct (subgroup (targets g)) as [tg | e]; [| eexists; reflexivity].
  rewrite bind_lift_OK, Htarget. eexists. reflexivity.
Qed.

(** X18. What a sample of the grid dataset holds when [get] returns one:
    the name of the entry the index gives, the stored value of the
    dataset's target converted to a float, as the one element of [y],
    and in [x] an array whose shape starts with 1 and the number of
    features of the dataset. *)
Theorem grid_sample_contents (self : GridDataset.t num) (i : Z)
        (d : GridDataset.Data num) :
  result (GridDataset.get fs self i) = OK d ->
  exists file_path entry_name f g tg t v shape,
    list_getitem (GridDataset.index_entries self) i
    = OK (file_path, entry_name)
    /\ fs file_path = Some f
    /\ assoc entry_name f = Some g
    /\ targets g = Some tg
    /\ GridDataset.target self = Some t
    /\ assoc t tg = Some v
    /\ GridDataset.entry_names d = [entry_name]
    /\ GridDataset.y d = [as_float v]
    /\ vshape (GridDataset.x d)
       = 1 :: length (GridDataset.features self) :: shape.
Proof.
  unfold GridDataset.get. intros Hget.
  destruct (list_getitem (GridDataset.index_entries self) i)
    as [[file_path entry_name] | e]; [| discriminate].
  rewrite bind_lift_OK in Hget. unfold GridDataset.load_one_entry in Hget.
  unfold open_file in Hget.
  destruct (fs file_path) as [f |] eqn:Hfs; [| discriminate].
  rewrite bind_lift_OK in Hget. unfold getitem at 1 in Hget.
  destruct (assoc entry_name f) as [g |] eqn:Hg; [| discriminate].
  rewrite bind_lift_OK in Hget.
  destruct (mapped_features g) as [m |]; [| discriminate].
  cbn [subgroup] in Hget. rewrite bind_lift_OK in Hget.
  destruct (GridDataset.read_features m (GridDataset.features self) [])
    as [data | e] eqn:Hread; [| discriminate].
  rewrite bind_lift_OK in Hget.
  destruct (targets g) as [tg |] eqn:Htg; [| discriminate].
  cbn [subgroup] in Hget. rewrite bind_lift_OK in Hget.
  destruct (GridDataset.target self) as [t |] eqn:Ht; [| discriminate].
  unfold getitem in Hget.
  destruct (assoc t tg) as [v |] eqn:Hv; [| discriminate].
  rewrite bind_lift_OK in Hget.
  destruct (GridDataset.stack_features data) as [x0 | e] eqn:Hstack;
    [| discriminate].
  rewrite bind_lift_OK in Hget. injection Hget as <-.
  apply stack_features_shape in Hstack. destruct Hstack as (shape & Hshape).
  apply grid_read_features_length in Hread. simpl in Hread.
  exists file_path, entry_name, f, g, tg, t, v, shape.
  repeat split; try assumption; try reflexivity.
  cbn. now rewrite Hshape, Hread.
Qed.
End LoadingMore.

Lemma edge_attr_without_features_witness :
  exists ei,
    GraphDataset.load_edge_index (Sample.entry 10) = OK ei
    /\ shape1 ei = OK 4
    /\ GraphDataset.load_edge_attr (graph_without_edge_features None)
         (Sample.entry 10) ei
       = OK (Arr2 0 [[]; []; []; []]).
Proof.
  exact (proj1 (proj2
    (edge_attr_without_features (graph_without_edge_features None)
       (Sample.entry 10) _ (or_introl eq_refl) eq_refl))
    2 [[Sample.Lit 0; Sample.Lit 1]; [Sample.Lit 1; Sample.Lit 2]] eq_refl).
Defined.

Lemma grid_get_needs_target_witness :
  exists e,
    result (GridDataset.get Sample.store
              (Sample.grid None None None [("one.hdf5", "e1")]) 0)
    = Raise e.
Proof.
  exact (grid_get_needs_target Sample.store
           (Sample.grid None None None [("one.hdf5", "e1")]) 0 eq_refl).
Defined.

Lemma grid_sample_contents_witness :
  exists file_path entry_name f g tg t v shape,
    list_getitem [("one.hdf5", "e1")] 0 = OK (file_path, entry_name)
    /\ Sample.store file_path = Some f
    /\ assoc entry_name f = Some g
    /\ targets g = Some tg
    /\ Some "a"%string = Some t
    /\ assoc t tg = Some v
    /\ ["e1"%string] = [entry_name]
    /\ [Sample.Float (Sample.Lit 10)] = [as_float v]
    /\ [1; 1; 1; 1; 2] = 1 :: 1 :: shape.
Proof.
  exact (grid_sample_contents Sample.store
           (Sample.grid None None (Some "a") [("one.hdf5", "e1")]) 0
           {| GridDataset.x :=
                Voxels [1; 1; 1; 1; 2]
                       [Sample.Float (Sample.Lit 5);
                        Sample.Float (Sample.Lit 6)];
              GridDataset.y := [Sample.Float (Sample.Lit 10)];
              GridDataset.entry_names := ["e1"] |}
           eq_refl).
Defined.

(** ** The constructors *)

Lemma result_bind_inv {A B} (c : M A) (k : A -> M B) (b : B) :
  result (bind c k) = OK b ->
  exists a, result c = OK a /\ result (k a) = OK b.
Proof.
  destruct c as [l [a | e]]; simpl; [| discriminate].
  intros Hk. exists a. split; [reflexivity |].
  destruct (k a). exact Hk.
Qed.

Section NoFilter.
Context {num : Type}.
Variable fs : FileSystem num.

(** Without subset and with a filter that keeps everything, the scan
    lists every entry of every file that opens. *)
Lemma scan_files_everything (filter_entry : Group num -> M bool)
      (paths : list string) (acc : list (string * string)) :
  (forall g, filter_entry g = ret true) ->
  snd (scan_files fs None filter_entry paths acc)
  = acc ++ flat_map (all_entries fs) paths.
Proof.
  intros Hfilt. revert acc.
  induction paths as [| p paths IH]; intros acc; cbn [scan_files flat_map].
  - now rewrite app_nil_r.
  - unfold all_entries at 1.
    destruct (fs p) as [fh5 |] eqn:Hp.
    + unfold scan_file, open_file, entry_names. rewrite Hp.
      rewrite (scan_entries_unfiltered filter_entry p fh5 _ acc Hfilt)
        by (intros k Hk; now apply mem_In).
      specialize (IH (acc ++ entries_of p (keys fh5))).
      destruct (scan_files fs None filter_entry paths _) as [l' final].
      simpl in *. rewrite IH. now rewrite <- app_assoc.
    + unfold scan_file, open_file. rewrite Hp.
      specialize (IH acc).
      destruct (scan_files fs None filter_entry paths acc) as [l' final].
      simpl in *. now rewrite IH.
Qed.
End NoFilter.

Section Construction.
Context {num : Type} `{Torch num} `{Display num} `{Domain} `{TargetNames}.
Variable fs : FileSystem num.

(** The steps a successful construction of the graph dataset went
    through. *)
Lemma graph_init_steps (a : GraphInit.args num)
      (c : GraphInit.constructed num) :
  result (GraphInit.__init__ fs a) = OK c ->
  let paths := accepted fs (as_path_list (GraphInit.hdf5_path a)) in
  exists r f,
    result (_check_task_and_classes (GraphInit.target a) (GraphInit.task a)
              (GraphInit.classes a)) = OK r
    /\ result (GraphSetup._check_features fs paths
                 (GraphInit.node_features a) (GraphInit.edge_features a))
       = OK f
    /\ GraphInit.self c
       = GraphDataset.set_index_entries
           (GraphInit.assigned a paths (res_task r)
              (GraphSetup.node_features f) (GraphSetup.edge_features f) [])
           (snd (scan_files fs (GraphInit.subset a)
                   (fun g => match GraphInit.target_filter a with
                             | None => ret true
                             | Some items => GraphDataset.filter_items g items
                             end)
                   paths [])).
Proof.
  unfold GraphInit.__init__. intros Hinit.
  apply result_bind_inv in Hinit. destruct Hinit as (self1 & Hcheck & Hinit).
  rewrite graph_check_hdf5_files in Hcheck. injection Hcheck as <-.
  apply result_bind_inv in Hinit. destruct Hinit as (r & Htask & Hinit).
  apply result_bind_inv in Hinit. destruct Hinit as (f & Hfeat & Hinit).
  apply result_bind_inv in Hinit. destruct Hinit as (self4 & Hix & Hinit).
  injection Hinit as <-.
  rewrite result_graph_create_index in Hix. injection Hix as <-.
  exists r, f. repeat split; assumption.
Qed.

(** X19. What a constructed graph dataset can rely on.  Its files are the
    files given that open and hold an entry, in the order given, and there
    is at least one; with a target set, its task is one of the two known
    ones; every entry of its index is an entry of one of its files; and
    subset, target and filter are the ones given. *)
Theorem graph_init_establishes (a : GraphInit.args num)
        (c : GraphInit.constructed num) :
  result (GraphInit.__init__ fs a) = OK c ->
  let self := GraphInit.self c in
  GraphDataset.hdf5_path self
  = accepted fs (as_path_list (GraphInit.hdf5_path a))
  /\ GraphDataset.hdf5_path self <> []
  /\ (GraphDataset.target self = None
      \/ GraphDataset.task self = Some targets_CLASSIF
      \/ GraphDataset.task self = Some targets_REGRESS)
  /\ Forall (resolves fs (GraphDataset.hdf5_path self))
            (GraphDataset.index_entries self)
  /\ GraphDataset.subset self = GraphInit.subset a
  /\ GraphDataset.target self = GraphInit.target a
  /\ GraphDataset.target_filter self = GraphInit.target_filter a.
Proof.
  intros Hinit self. subst self.
  destruct (graph_init_steps a c Hinit) as (r & f & Htask & Hfeat & ->).
  cbn [GraphDataset.set_index_entries GraphInit.assigned
       GraphDataset.hdf5_path GraphDataset.target GraphDataset.task
       GraphDataset.index_entries GraphDataset.subset
       GraphDataset.target_filter].
  split; [reflexivity |]. split.
  { destruct (graph_check_features_inversion fs _ _ _ _ Hfeat)
      as (path & ps & _ & _ & _ & _ & _ & Hpaths & _).
    rewrite Hpaths. discriminate. }
  split.
  { destruct (check_task_outcome _ _ _ _ Htask) as (_ & Hknown & _).
    destruct Hknown as [Hknown | Hnone]; [| now left].
    right. apply target_in_task in Hknown. exact Hknown. }
  split; [| repeat split].
  apply scan_files_resolves; [auto | constructor].
Qed.

Lemma accepted_none (paths : list string) :
  (forall p, In p paths -> rejected fs p = true) -> accepted fs paths = [].
Proof.
  unfold accepted. induction paths as [| p paths IH]; intros Hall;
    [reflexivity |].
  simpl. rewrite (Hall p (or_introl eq_refl)). simpl.
  apply IH. intros q Hq. apply Hall. now right.
Qed.

(** X20. A graph dataset cannot be constructed without a usable file:
    when every file given is unopenable or empty, or none is given, and
    the task check passes, the constructor raises [IndexError], from the
    feature check that reads the first of the remaining files. *)
Theorem graph_init_without_usable_file (a : GraphInit.args num) :
  (forall p, In p (as_path_list (GraphInit.hdf5_path a)) ->
             rejected fs p = true) ->
  (exists r, result (_check_task_and_classes (GraphInit.target a)
                       (GraphInit.task a) (GraphInit.classes a)) = OK r) ->
  result (GraphInit.__init__ fs a) = Raise IndexError.
Proof.
  intros Hall (r & Htask). unfold GraphInit.__init__.
  erewrite result_bind_OK by (rewrite graph_check_hdf5_files; reflexivity).
  rewrite (result_bind_OK _ _ r Htask).
  apply result_bind_Raise.
  cbn [GraphDataset.set_hdf5_path GraphDataset.hdf5_path GraphInit.assigned].
  fold (accepted fs (as_path_list (GraphInit.hdf5_path a))).
  rewrite (accepted_none _ Hall). reflexivity.
Qed.

(** X21. Constructed without subset and without filter, the graph dataset
    lists every entry of every file it accepted: file after file in the
    order given, and within a file in the key order of the file. *)
Theorem graph_init_lists_every_entry (a : GraphInit.args num)
        (c : GraphInit.constructed num) :
  result (GraphInit.__init__ fs a) = OK c ->
  GraphInit.subset a = None ->
  GraphInit.target_filter a = None ->
  GraphDataset.index_entries (GraphInit.self c)
  = flat_map (all_entries fs)
             (accepted fs (as_path_list (GraphInit.hdf5_path a))).
Proof.
  intros Hinit Hsub Hfilt.
  destruct (graph_init_steps a c Hinit) as (r & f & _ & _ & ->).
  cbn [GraphDataset.set_index_entries GraphDataset.index_entries].
  rewrite Hsub, Hfilt. now rewrite scan_files_everything.
Qed.

Lemma grid_check_hdf5_files_result (self : GridDataset.t num) :
  result (GridDataset._check_hdf5_files fs self)
  = match filter (rejected fs) (GridDataset.hdf5_paths self) with
    | [] => OK (GridDataset.set_hdf5_paths self (GridDataset.hdf5_paths self))
    | _ :: _ => Raise (NameError "name")
    end.
Proof.
  unfold GridDataset._check_hdf5_files.
  rewrite result_bind_emit, integrity_scan_spec. cbn [app].
  destruct (filter (rejected fs) (GridDataset.hdf5_paths self)); reflexivity.
Qed.

(** X22. The constructor of the grid dataset.  As soon as one file given
    is unopenable or empty it raises [NameError], whatever the other
    arguments; and when it returns, the dataset has the files as given,
    every one of them opens and holds an entry, and every entry of its
    index is an entry of one of them. *)
Theorem grid_init_outcome (a : GridInit.args num) :
  ((exists p, In p (as_path_list (GridInit.hdf5_path a))
              /\ rejected fs p = true) ->
   result (GridInit.__init__ fs a) = Raise (NameError "name"))
  /\ (forall c,
        result (GridInit.__init__ fs a) = OK c ->
        GridDataset.hdf5_paths (GridInit.self c)
        = as_path_list (GridInit.hdf5_path a)
        /\ (forall p, In p (as_path_list (GridInit.hdf5_path a)) ->
                      rejected fs p = false)
        /\ Forall (resolves fs (as_path_list (GridInit.hdf5_path a)))
                  (GridDataset.index_entries (GridInit.self c))).
Proof.
  split.
  - intros (p & Hin & Hrej). unfold GridInit.__init__.
    apply result_bind_Raise. rewrite grid_check_hdf5_files_result.
    cbn [GridInit.assigned GridDataset.hdf5_paths].
    destruct (filter_rejected_nonempty fs p _ Hin Hrej) as (q & rest & ->).
    reflexivity.
  - intros c Hinit. unfold GridInit.__init__ in Hinit.
    apply result_bind_inv in Hinit. destruct Hinit as (self1 & Hcheck & Hinit).
    rewrite grid_check_hdf5_files_result in Hcheck.
    cbn [GridInit.assigned GridDataset.hdf5_paths] in Hcheck.
    destruct (filter (rejected fs) (as_path_list (GridInit.hdf5_path a)))
      as [| q rest] eqn:Hrej; [| discriminate].
    injection Hcheck as <-.
    apply result_bind_inv in Hinit. destruct Hinit as (r & Htask & Hinit).
    apply result_bind_inv in Hinit. destruct Hinit as (f & Hfeat & Hinit).
    apply result_bind_inv in Hinit. destruct Hinit as (self4 & Hix & Hinit).
    injection Hinit as <-.
    rewrite result_grid_create_index in Hix. injection Hix as <-.
    cbn [GridInit.self GridDataset.set_index_entries GridDataset.hdf5_paths
         GridDataset.index_entries GridInit.assigned
         GridDataset.set_hdf5_paths].
    split; [reflexivity |]. split.
    + intros p Hin. destruct (rejected fs p) eqn:Hp; [| reflexivity].
      assert (Hfil : In p (filter (rejected fs)
                             (as_path_list (GridInit.hdf5_path a))))
        by (apply filter_In; split; assumption).
      rewrite Hrej in Hfil. destruct Hfil.
    + apply scan_files_resolves; [auto | constructor].
Qed.
End Construction.

Lemma graph_init_establishes_witness :
  exists c,
    result (GraphInit.__init__ Sample.store
              (More.graph_args ["empty.hdf5"; "one.hdf5"; "missing.hdf5"]
                 (Some "a") (Some "regress") (FStr "all")
                 (Some (FList ["dist"])) None))
    = OK c
    /\ GraphDataset.hdf5_path (GraphInit.self c) = ["one.hdf5"]
    /\ GraphDataset.hdf5_path (GraphInit.self c) <> []
    /\ (GraphDataset.target (GraphInit.self c) = None
        \/ GraphDataset.task (GraphInit.self c) = Some "classif"%string
        \/ GraphDataset.task (GraphInit.self c) = Some "regress"%string)
    /\ Forall (resolves Sample.store
                 (GraphDataset.hdf5_path (GraphInit.self c)))
              (GraphDataset.index_entries (GraphInit.self c))
    /\ GraphDataset.subset (GraphInit.self c) = None
    /\ GraphDataset.target (GraphInit.self c) = Some "a"%string
    /\ GraphDataset.target_filter (GraphInit.self c) = None.
Proof.
  eexists. split; [vm_compute; reflexivity |].
  exact (graph_init_establishes Sample.store
           (More.graph_args ["empty.hdf5"; "one.hdf5"; "missing.hdf5"]
              (Some "a") (Some "regress") (FStr "all")
              (Some (FList ["dist"])) None) _ eq_refl).
Defined.

Lemma graph_init_without_usable_file_witness :
  result (GraphInit.__init__ Sample.store
            (More.graph_args ["empty.hdf5"; "missing.hdf5"]
               (Some "a") (Some "regress") (FStr "all") None None))
  = Raise IndexError.
Proof.
  apply (graph_init_without_usable_file Sample.store
           (More.graph_args ["empty.hdf5"; "missing.hdf5"]
              (Some "a") (Some "regress") (FStr "all") None None)).
  - intros p [<- | [<- | []]]; reflexivity.
  - eexists. reflexivity.
Defined.

Lemma graph_init_lists_every_entry_witness :
  exists c,
    result (GraphInit.__init__ Sample.store
              (More.graph_args ["empty.hdf5"; "one.hdf5"; "missing.hdf5"]
                 (Some "a") (Some "regress") (FStr "all")
                 (Some (FList ["dist"])) None))
    = OK c
    /\ GraphDataset.index_entries (GraphInit.self c)
       = [("one.hdf5", "e1"); ("one.hdf5", "e2"); ("one.hdf5", "e3")].
Proof.
  eexists. split; [vm_compute; reflexivity |].
  exact (graph_init_lists_every_entry Sample.store
           (More.graph_args ["empty.hdf5"; "one.hdf5"; "missing.hdf5"]
              (Some "a") (Some "regress") (FStr "all")
              (Some (FList ["dist"])) None) _ eq_refl eq_refl eq_refl).
Defined.

Section Samples.
Context {num : Type} `{Torch num} `{Display num} `{Domain}.
Variable fs : FileSystem num.

Lemma read_features_all_meta (g : option (list (string * ndarray num)))
      (feats : list string) (data : list (ndarray num)) :
  Forall (fun f => is_meta f = true) feats ->
  GraphDataset.read_features g feats data = OK data.
Proof.
  induction 1 as [| f feats Hf _ IH]; cbn [GraphDataset.read_features];
    [reflexivity |].
  destruct f as [| c f]; [discriminate |].
  simpl in Hf. cbn [first_char obind]. now rewrite Hf.
Qed.

(** X23. A graph dataset needs a node feature that is no metafeature: when
    its node features are none at all, or metafeatures only, stacking the
    node data of any entry raises numpy's [ValueError] for an empty
    sequence, and [get] never returns a sample. *)
Theorem graph_needs_a_node_feature (self : GraphDataset.t num) :
  Forall (fun f => is_meta f = true) (GraphDataset.node_features self) ->
  (forall grp,
      GraphDataset.load_x self grp
      = Raise (numpy_error "need at least one array to concatenate"))
  /\ (forall i, exists e, result (GraphDataset.get fs self i) = Raise e).
Proof.
  intros Hmeta.
  assert (Hx : forall grp,
             GraphDataset.load_x self grp
             = Raise (numpy_error "need at least one array to concatenate")).
  { intros grp. unfold GraphDataset.load_x.
    now rewrite (read_features_all_meta _ _ [] Hmeta). }
  split; [exact Hx |].
  intros i. unfold GraphDataset.get.
  destruct (list_getitem (GraphDataset.index_entries self) i)
    as [[fname mol] | e]; [| eexists; reflexivity].
  rewrite bind_lift_OK. unfold GraphDataset.load_one_graph.
  destruct (open_file fs fname) as [f | e]; [| eexists; reflexivity].
  rewrite bind_lift_OK.
  destruct (getitem mol f) as [g | e]; [| eexists; reflexivity].
  rewrite bind_lift_OK, Hx. eexists. reflexivity.
Qed.

Lemma result_lift_bind_inv {A B} (o : outcome A) (k : A -> M B) (b : B) :
  result (bind (lift o) k) = OK b ->
  exists a, o = OK a /\ result (k a) = OK b.
Proof.
  intros Hb. apply result_bind_inv in Hb. destruct Hb as (a & Ha & Hb).
  exists a. split; assumption.
Qed.

Lemma load_y_returns (self : GraphDataset.t num) (grp : Group num)
      (fname entry_name : string) (yv : option (list num)) :
  GraphDataset.load_y self grp fname entry_name = OK yv ->
  match GraphDataset.target self with
  | None => yv = None
  | Some t =>
      exists tg v,
        targets grp = Some tg /\ assoc t tg = Some v
        /\ yv = Some [if is_True (GraphDataset.target_transform self)
                      then torch_sigmoid (torch_log (as_float v))
                      else as_float v]
  end.
Proof.
  unfold GraphDataset.load_y.
  destruct (GraphDataset.target self) as [t |]; [| now intros [= <-]].
  destruct (targets grp) as [tg |]; [| discriminate].
  destruct (mem t (keys tg)) eqn:Hmem; [| discriminate].
  apply assoc_mem in Hmem. destruct Hmem as (v & Hv).
  cbn [subgroup obind]. unfold getitem. rewrite Hv. cbn [obind].
  intros Hy. exists tg, v. split; [reflexivity |]. split; [exact Hv |].
  destruct (is_True (GraphDataset.target_transform self));
    rewrite ?andb_true_r, ?andb_false_r in Hy.
  - destruct (match GraphDataset.task self with
              | Some k => (k =? targets_REGRESS)%string
              | None => false
              end); [| discriminate].
    simpl in Hy. now injection Hy as <-.
  - now injection Hy as <-.
Qed.

(** X24. What a sample of the graph dataset holds when [get] returns one.
    It is what the transform of the dataset, if there is one, makes of a
    sample that has the name of the entry the index gives, the stored
    positions of that entry as floats, a node matrix of two
    dimensions, no target when the dataset has none, and otherwise
    the one stored value of the target, as a float, under logarithm and
    sigmoid exactly when the transform flag is set. *)
Theorem graph_sample_contents (self : GraphDataset.t num) (i : Z)
        (d : GraphDataset.Data num) :
  result (GraphDataset.get fs self i) = OK d ->
  exists fname mol f g ng p d0,
    list_getitem (GraphDataset.index_entries self) i = OK (fname, mol)
    /\ fs fname = Some f
    /\ assoc mol f = Some g
    /\ d = match GraphDataset._transform self with
           | Some tr => tr d0
           | None => d0
           end
    /\ GraphDataset.entry_names d0 = [mol]
    /\ nodes g = Some ng
    /\ assoc Nfeat_POSITION ng = Some p
    /\ GraphDataset.pos d0 = tensor as_float p
    /\ ndim (GraphDataset.x d0) = 2
    /\ match GraphDataset.target self with
       | None => GraphDataset.y d0 = None
       | Some t =>
           exists tg v,
             targets g = Some tg /\ assoc t tg = Some v
             /\ GraphDataset.y d0
                = Some [if is_True (GraphDataset.target_transform self)
                        then torch_sigmoid (torch_log (as_float v))
                        else as_float v]
       end.
Proof.
  unfold GraphDataset.get. intros Hget.
  apply result_lift_bind_inv in Hget.
  destruct Hget as ([fname mol] & Hix & Hget).
  unfold GraphDataset.load_one_graph in Hget.
  apply result_lift_bind_inv in Hget. destruct Hget as (f & Hf & Hget).
  apply result_lift_bind_inv in Hget. destruct Hget as (g & Hg & Hget).
  apply result_lift_bind_inv in Hget. destruct Hget as (xv & Hx & Hget).
  apply result_lift_bind_inv in Hget. destruct Hget as (ei & Hei & Hget).
  apply result_lift_bind_inv in Hget. destruct Hget as (ea & Hea & Hget).
  apply result_lift_bind_inv in Hget. destruct Hget as (yv & Hy & Hget).
  apply result_lift_bind_inv in Hget. destruct Hget as (pv & Hp & Hget).
  apply result_bind_inv in Hget. destruct Hget as (cl & Hcl & Hget).
  injection Hget as <-.
  unfold open_file in Hf. destruct (fs fname) as [f' |] eqn:Hfs;
    [| discriminate]. injection Hf as ->.
  unfold getitem in Hg. destruct (assoc mol f) as [g' |] eqn:Hmol;
    [| discriminate]. injection Hg as ->.
  assert (Hxdim : ndim xv = 2).
  { unfold GraphDataset.load_x in Hx.
    destruct (GraphDataset.read_features (nodes g)
                (GraphDataset.node_features self) []) as [data | e] eqn:Hread;
      [| discriminate].
    cbn [obind] in Hx.
    destruct (hstack data) as [st | e] eqn:Hst; [| discriminate].
    cbn [obind] in Hx. injection Hx as <-.
    destruct (stacked_features_spec _ _ _ _ Hread Hst)
      as (grp & arrs & rows & _ & _ & _ & -> & _).
    reflexivity. }
  unfold GraphDataset.load_pos in Hp.
  destruct (nodes g) as [ng |] eqn:Hng; [| discriminate].
  cbn [subgroup obind] in Hp. unfold getitem in Hp.
  destruct (assoc Nfeat_POSITION ng) as [p |] eqn:Hpos; [| discriminate].
  cbn [obind] in Hp. injection Hp as <-.
  eexists fname, mol, f, g, ng, p, _.
  repeat (split; [first [eassumption | reflexivity] |]).
  cbn [GraphDataset.entry_names GraphDataset.pos GraphDataset.x
       GraphDataset.y].
  repeat (split; [first [eassumption | reflexivity] |]).
  now apply (load_y_returns self g fname mol).
Qed.
End Samples.

Lemma graph_needs_a_node_feature_witness :
  (forall grp,
      GraphDataset.load_x
        (More.graph_on ["one.hdf5"] None None ["_position"]
                       [("one.hdf5", "e1")]) grp
      = Raise (numpy_error "need at least one array to concatenate"))
  /\ (forall i, exists e,
         result (GraphDataset.get Sample.store
                   (More.graph_on ["one.hdf5"] None None ["_position"]
                                  [("one.hdf5", "e1")]) i)
         = Raise e).
Proof.
  apply (graph_needs_a_node_feature Sample.store
           (More.graph_on ["one.hdf5"] None None ["_position"]
                          [("one.hdf5", "e1")])).
  repeat constructor.
Defined.

Lemma graph_sample_contents_witness :
  exists d,
    result (GraphDataset.get Sample.store
              (Sample.graph None None (Some "a") (Some "regress") None
                            [("one.hdf5", "e1")]) 0)
    = OK d
    /\ exists fname mol f g ng p d0,
         list_getitem [("one.hdf5", "e1")] 0 = OK (fname, mol)
         /\ Sample.store fname = Some f
         /\ assoc mol f = Some g
         /\ d = d0
         /\ GraphDataset.entry_names d0 = [mol]
         /\ nodes g = Some ng
         /\ assoc "_position" ng = Some p
         /\ GraphDataset.pos d0 = tensor Sample.Float p
         /\ ndim (GraphDataset.x d0) = 2
         /\ exists tg v,
              targets g = Some tg /\ assoc "a" tg = Some v
              /\ GraphDataset.y d0 = Some [Sample.Float v].
Proof.
  eexists. split; [vm_compute; reflexivity |].
  exact (graph_sample_contents Sample.store
           (Sample.graph None None (Some "a") (Some "regress") None
                         [("one.hdf5", "e1")]) 0 _ eq_refl).
Defined.

(** ** What the graph filter can tell apart *)

Section AllOrNone.
Context {num : Type} `{Torch num} `{Display num} `{Domain}.
Variable fs : FileSystem num.

(** The verdict of the graph filter is the same on all entries that have a
    target group. *)
Lemma graph_filter_constant (g g' : Group num)
      (items : list (string * pyobj)) :
  targets g <> None -> targets g' <> None ->
  result (GraphDataset.filter_items g items)
  = result (GraphDataset.filter_items g' items).
Proof.
  intros Hg Hg'.
  destruct (targets g) as [tg |] eqn:Htg; [| congruence].
  destruct (targets g') as [tg' |] eqn:Htg'; [| congruence].
  induction items as [| [name c] rest IH]; [reflexivity |].
  destruct c;
    try (rewrite (graph_filter_not_string g tg),
           (graph_filter_not_string g' tg'); auto; congruence).
  rewrite (graph_filter_string g tg), (graph_filter_string g' tg')
    by assumption.
  destruct (literal_eval _) as [v | e]; [| reflexivity].
  destruct (negb (truthy v)); [reflexivity | exact IH].
Qed.

Lemma scan_entries_constant (filter_entry : Group num -> M bool)
      (fdata : string) (fh5 : File num) (b : bool) (names : list string)
      (acc : list (string * string)) :
  (forall k, In k names ->
     exists g, assoc k fh5 = Some g /\ result (filter_entry g) = OK b) ->
  exists l,
    scan_entries filter_entry fdata fh5 names acc
    = (l, acc ++ (if b then entries_of fdata names else []), None).
Proof.
  revert acc. induction names as [| k names IH]; intros acc Hall;
    cbn [scan_entries].
  - exists []. unfold entries_of. destruct b; simpl; now rewrite app_nil_r.
  - destruct (Hall k (or_introl eq_refl)) as (g & Hg & Hb).
    unfold getitem. rewrite Hg, bind_lift_OK.
    destruct (filter_entry g) as [l r]. simpl in Hb. subst r.
    assert (Hrest : forall k', In k' names ->
              exists g', assoc k' fh5 = Some g'
                         /\ result (filter_entry g') = OK b)
      by (intros k' Hk'; apply Hall; now right).
    destruct b.
    + destruct (IH (acc ++ [(fdata, k)]) Hrest) as (l' & ->).
      exists (l ++ l'). unfold entries_of. simpl. now rewrite <- app_assoc.
    + destruct (IH acc Hrest) as (l' & ->). now exists (l ++ l').
Qed.

(** X25. The filter of the graph dataset cannot tell the entries of a file
    apart.  From a file in which every entry has a target group, building
    the index takes every entry the subset allows or none at all,
    whatever the conditions of the filter and whatever the entries store. *)
Theorem graph_filter_keeps_all_or_none (self : GraphDataset.t num)
        (fdata : string) (fh5 : File num) (acc : list (string * string)) :
  fs fdata = Some fh5 ->
  (forall k g, assoc k fh5 = Some g -> targets g <> None) ->
  let scanned :=
    snd (scan_file fs (GraphDataset.subset self) (GraphDataset._filter self)
                   fdata acc) in
  scanned = acc
  \/ scanned
     = acc ++ entries_of fdata (entry_names (GraphDataset.subset self) fh5).
Proof.
  intros Hfs Htargets scanned. subst scanned.
  unfold scan_file, open_file. rewrite Hfs.
  pose proof (entry_names_present (GraphDataset.subset self) fh5) as Hpresent.
  set (names := entry_names (GraphDataset.subset self) fh5) in *.
  destruct names as [| k0 names0] eqn:Hnames.
  { left. reflexivity. }
  rewrite <- Hnames in *.
  assert (Hk0 : In k0 names) by (rewrite Hnames; now left).
  destruct (proj1 (assoc_mem _ _) (Hpresent k0 Hk0)) as (g0 & Hg0).
  destruct (result (GraphDataset._filter self g0)) as [b | e] eqn:Hverdict.
  - assert (Hall : forall k, In k names ->
              exists g, assoc k fh5 = Some g
                        /\ result (GraphDataset._filter self g) = OK b).
    { intros k Hk.
      destruct (proj1 (assoc_mem _ _) (Hpresent k Hk)) as (g & Hg).
      exists g. split; [exact Hg |]. rewrite <- Hverdict.
      unfold GraphDataset._filter.
      destruct (GraphDataset.target_filter self) as [items |];
        [| reflexivity].
      apply graph_filter_constant; eauto. }
    destruct (scan_entries_constant (GraphDataset._filter self) fdata fh5 b
                names acc Hall) as (l & ->).
    destruct b; [right; reflexivity | left; apply app_nil_r].
  - left. rewrite Hnames. cbn [scan_entries]. unfold getitem.
    rewrite Hg0, bind_lift_OK.
    destruct (GraphDataset._filter self g0) as [l r]. simpl in Hverdict.
    subst r. reflexivity.
Qed.
End AllOrNone.

Lemma graph_filter_keeps_all_or_none_witness :
  snd (scan_file Sample.store None
         (GraphDataset._filter
            (Sample.graph (Some [("a", VStr "1")]) None (Some "a")
                          (Some "regress") None []))
         "one.hdf5" [])
  = []
  \/ snd (scan_file Sample.store None
            (GraphDataset._filter
               (Sample.graph (Some [("a", VStr "1")]) None (Some "a")
                             (Some "regress") None []))
            "one.hdf5" [])
     = [("one.hdf5", "e1"); ("one.hdf5", "e2"); ("one.hdf5", "e3")].
Proof.
  refine (graph_filter_keeps_all_or_none Sample.store
            (Sample.graph (Some [("a", VStr "1")]) None (Some "a")
                          (Some "regress") None [])
            "one.hdf5" _ [] eq_refl _).
  intros k g Hk. simpl in Hk.
  repeat (destruct (String.eqb k _);
          [injection Hk as <-; discriminate |]).
  discriminate.
Defined.
